(** * A shallow embedding of [admin_system.py]

    The administration system keeps four keyed collections (users,
    departments, employees, tasks) and an activity log in memory, rewrites
    the matching JSON file after every change, and talks to its operator
    through [input] and [print].  This development embeds the entity
    classes and the operations of [AdminSystem] as functions on an explicit
    world (the in-memory object, the five files, the console and the clock)
    and states the properties of the specification over them.

    Python dictionaries are [gmap]s, strings are the UTF-8 bytes of the
    text, JSON documents are trees, [datetime] values are calendar records
    that are valid by construction, floats are the primitive binary64
    numbers, and [hashlib.sha256] is FIPS 180-4 written out. *)

From Stdlib Require Import ZArith NArith String Ascii List Bool Lia.
From Stdlib Require Import DecimalString.
From Stdlib Require Import Floats Uint63.
From stdpp Require Import base option decidable gmap strings list sorting.

Open Scope string_scope.

(** ** hashlib.sha256 *)

Module SHA256.

Local Open Scope Z_scope.

Definition word := Z.

Definition mask32 : Z := 4294967295.

Definition add32 (a b : word) : word := Z.land (a + b) mask32.

Definition rotr (n : Z) (x : word) : word :=
  Z.land (Z.lor (Z.shiftr x n) (Z.shiftl x (32 - n))) mask32.

Definition shr (n : Z) (x : word) : word := Z.shiftr x n.

Definition not32 (x : word) : word := Z.lxor x mask32.

Definition Ch (x y z : word) : word :=
  Z.lxor (Z.land x y) (Z.land (not32 x) z).

Definition Maj (x y z : word) : word :=
  Z.lxor (Z.lxor (Z.land x y) (Z.land x z)) (Z.land y z).

Definition Sigma0 (x : word) : word :=
  Z.lxor (Z.lxor (rotr 2 x) (rotr 13 x)) (rotr 22 x).

Definition Sigma1 (x : word) : word :=
  Z.lxor (Z.lxor (rotr 6 x) (rotr 11 x)) (rotr 25 x).

Definition sigma0 (x : word) : word :=
  Z.lxor (Z.lxor (rotr 7 x) (rotr 18 x)) (shr 3 x).

Definition sigma1 (x : word) : word :=
  Z.lxor (Z.lxor (rotr 17 x) (rotr 19 x)) (shr 10 x).

(** The constants, as FIPS 180-4 defines them: the first 32 bits of the
    fractional parts of the cube roots of the first 64 primes, and of the
    square roots of the first 8 for the initial hash value. *)
Definition is_prime (n : nat) : bool :=
  forallb (fun d => negb (Nat.eqb (n mod d) 0)) (seq 2 (n - 2)).

Definition primes : list Z :=
  map Z.of_nat (filter (fun n => is_prime n) (seq 2 310)).

(** The integer cube root, one bit after the other from bit [bits - 1]
    down. *)
Fixpoint cube_root (bits : nat) (n r : Z) : Z :=
  match bits with
  | O => r
  | S b =>
      let r' := r + 2 ^ Z.of_nat b in
      cube_root b n (if r' * r' * r' <=? n then r' else r)
  end.

Definition K : list word :=
  Eval vm_compute in
    map (fun p => Z.land (cube_root 40 (p * 2 ^ 96) 0) mask32) primes.

Definition H0 : list word :=
  Eval vm_compute in
    map (fun p => Z.land (Z.sqrt (p * 2 ^ 64)) mask32) (firstn 8 primes).

(** The message as bytes, then the padding: a single 1 bit, zeros up to
    56 modulo 64, and the bit length as a 64-bit big-endian number. *)
Definition bytes_of_string (s : string) : list Z :=
  map (fun c => Z.of_N (N_of_ascii c)) (list_ascii_of_string s).

Definition be_bytes (n : nat) (x : Z) : list Z :=
  map (fun i => Z.land (Z.shiftr x (8 * Z.of_nat (n - 1 - i))) 255) (seq 0 n).

Definition pad (msg : list Z) : list Z :=
  let len := Z.of_nat (length msg) in
  let zeros := Z.to_nat ((55 - len) mod 64) in
  msg ++ [0x80] ++ repeat 0 zeros ++ be_bytes 8 (8 * len).

Fixpoint words_of_bytes (bs : list Z) : list word :=
  match bs with
  | a :: b :: c :: d :: rest =>
      (Z.shiftl a 24 + Z.shiftl b 16 + Z.shiftl c 8 + d) :: words_of_bytes rest
  | _ => []
  end.

Fixpoint blocks (fuel : nat) (ws : list word) : list (list word) :=
  match fuel, ws with
  | S fuel', _ :: _ => firstn 16 ws :: blocks fuel' (skipn 16 ws)
  | _, _ => []
  end.

(** The message schedule: sixteen words of the block, then forty-eight
    derived ones.  [w] holds the schedule so far, most recent word first. *)
Fixpoint extend (n : nat) (w : list word) : list word :=
  match n with
  | O => w
  | S n' =>
      let x := add32 (add32 (sigma1 (nth 1 w 0)) (nth 6 w 0))
                     (add32 (sigma0 (nth 14 w 0)) (nth 15 w 0)) in
      extend n' (x :: w)
  end.

Definition schedule (block : list word) : list word :=
  rev (extend 48 (rev block)).

Record regs := Regs { ra : word; rb : word; rc : word; rd : word;
                      re : word; rf : word; rg : word; rh : word }.

Definition round (r : regs) (kw : word * word) : regs :=
  let t1 := add32 (add32 (add32 (rh r) (Sigma1 (re r)))
                         (add32 (Ch (re r) (rf r) (rg r)) (fst kw))) (snd kw) in
  let t2 := add32 (Sigma0 (ra r)) (Maj (ra r) (rb r) (rc r)) in
  Regs (add32 t1 t2) (ra r) (rb r) (rc r) (add32 (rd r) t1) (re r) (rf r) (rg r).

Definition regs_of (h : list word) : regs :=
  Regs (nth 0 h 0) (nth 1 h 0) (nth 2 h 0) (nth 3 h 0)
       (nth 4 h 0) (nth 5 h 0) (nth 6 h 0) (nth 7 h 0).

Definition compress (h : list word) (block : list word) : list word :=
  let r0 := regs_of h in
  let r := fold_left round (combine K (schedule block)) r0 in
  [ add32 (ra r0) (ra r); add32 (rb r0) (rb r); add32 (rc r0) (rc r);
    add32 (rd r0) (rd r); add32 (re r0) (re r); add32 (rf r0) (rf r);
    add32 (rg r0) (rg r); add32 (rh r0) (rh r) ].

Definition digest (msg : list Z) : list word :=
  let ws := words_of_bytes (pad msg) in
  fold_left compress (blocks (length ws) ws) H0.

Definition hex_digit (x : Z) : ascii :=
  if x <? 10 then ascii_of_N (Z.to_N (48 + x)) else ascii_of_N (Z.to_N (87 + x)).

Definition hex_of_word (w : word) : string :=
  string_of_list_ascii
    (map (fun i => hex_digit (Z.land (Z.shiftr w (4 * Z.of_nat (7 - i))) 15)) (seq 0 8)).

Definition hexdigest (s : string) : string :=
  String.concat "" (map hex_of_word (digest (bytes_of_string s))).

(** The texts of [n] hexadecimal digits: every digest is one of those of
    64. *)
Definition hex_chars : list ascii := list_ascii_of_string "0123456789abcdef".

Fixpoint hex_strings (n : nat) : list string :=
  match n with
  | O => [""]
  | S n' => c ← hex_chars; String c <$> hex_strings n'
  end.

End SHA256.

(** ** str: the characters of a text *)

(** A string holds the UTF-8 bytes of a Python [str] (what [hashlib] is
    given).  The functions that look at characters rather than bytes
    ([\d] of [re], [float], [int]) read them through [next]. *)
Module Unicode.

Local Open Scope N_scope.

Definition continuation (s : string) : option (N * string) :=
  match s with
  | String c s' =>
      let n := N_of_ascii c in
      if (128 <=? n) && (n <? 192) then Some (n - 128, s') else None
  | EmptyString => None
  end.

(** The first character of [s], as its code point, and the rest of [s];
    [None] at the end of [s] and on bytes that are not UTF-8. *)
Definition next (s : string) : option (N * string) :=
  match s with
  | EmptyString => None
  | String c s1 =>
      let n := N_of_ascii c in
      if n <? 128 then Some (n, s1)
      else if n <? 192 then None
      else if n <? 224 then
        '(a, s2) ← continuation s1;
        Some ((n - 192) * 64 + a, s2)
      else if n <? 240 then
        '(a, s2) ← continuation s1;
        '(b, s3) ← continuation s2;
        Some (((n - 224) * 64 + a) * 64 + b, s3)
      else
        '(a, s2) ← continuation s1;
        '(b, s3) ← continuation s2;
        '(c, s4) ← continuation s3;
        Some ((((n - 240) * 64 + a) * 64 + b) * 64 + c, s4)
  end.

(** The characters of [s]; a character takes at least one byte, so the
    length of [s] is fuel enough. *)
Fixpoint code_points (fuel : nat) (s : string) : option (list N) :=
  match s, fuel with
  | EmptyString, _ => Some []
  | _, O => None
  | _, S fuel' =>
      '(ch, s') ← next s;
      l ← code_points fuel' s';
      Some (ch :: l)
  end.

Definition decode (s : string) : option (list N) :=
  code_points (String.length s) s.

(** The decimal digits (category Nd) come in runs of ten, zero first; these
    are the zeros of Unicode 14, the version of CPython 3.11. *)
Definition decimal_zeros : list N :=
  [ 48; 1632; 1776; 1984; 2406; 2534; 2662; 2790; 2918; 3046; 3174; 3302;
    3430; 3558; 3664; 3792; 3872; 4160; 4240; 6112; 6160; 6470; 6608; 6784;
    6800; 6992; 7088; 7232; 7248; 42528; 43216; 43264; 43472; 43504; 43600;
    44016; 65296; 66720; 68912; 69734; 69872; 69942; 70096; 70384; 70736;
    70864; 71248; 71360; 71472; 71904; 72016; 72784; 73040; 73120; 92768;
    92864; 93008; 120782; 120792; 120802; 120812; 120822; 123200; 123632;
    125264; 130032 ].

(** [Py_UNICODE_TODECIMAL]: the value of a decimal digit of any script. *)
Definition decimal (ch : N) : option N :=
  (fun zero => ch - zero)
    <$> List.find (fun zero => (zero <=? ch) && (ch <? zero + 10)) decimal_zeros.

(** [Py_UNICODE_ISSPACE] *)
Definition is_space (ch : N) : bool :=
  bool_decide (ch ∈ [ 9; 10; 11; 12; 13; 28; 29; 30; 31; 32; 133; 160; 5760;
                      8192; 8193; 8194; 8195; 8196; 8197; 8198; 8199; 8200;
                      8201; 8202; 8232; 8233; 8239; 8287; 12288 ]).

End Unicode.

(** ** datetime *)

Module Datetime.

Local Open Scope N_scope.

(** The fields of a naive [datetime]. *)
Record fields := Fields {
  year : N; month : N; day : N;
  hour : N; minute : N; second : N; microsecond : N }.

Definition is_leap (y : N) : bool :=
  (y mod 4 =? 0) && (negb (y mod 100 =? 0) || (y mod 400 =? 0)).

Definition days_in_month (y m : N) : N :=
  if m =? 2 then (if is_leap y then 29 else 28)
  else if (m =? 4) || (m =? 6) || (m =? 9) || (m =? 11) then 30
  else 31.

(** What the constructors of [date] and [datetime] check before they
    build an object; they raise [ValueError] otherwise. *)
Definition valid_date (y m d : N) : bool :=
  (1 <=? y) && (y <=? 9999) && (1 <=? m) && (m <=? 12)
  && (1 <=? d) && (d <=? days_in_month y m).

Definition valid (f : fields) : bool :=
  valid_date (year f) (month f) (day f)
  && (hour f <? 24) && (minute f <? 60) && (second f <? 60)
  && (microsecond f <? 1000000).

(** A [datetime] object: fields that passed the constructor's checks. *)
Definition datetime : Type := dsig (fun f => Is_true (valid f)).

Definition make (f : fields) : option datetime :=
  match decide (Is_true (valid f)) with
  | left ok => Some (dexist f ok)
  | right _ => None
  end.

(** Fixed-width decimal numbers, as [%04d] and [%02d] print them. *)
Definition digit_char (d : N) : ascii := ascii_of_N (48 + d).

Fixpoint digits (width : nat) (n : N) : string :=
  match width with
  | O => EmptyString
  | S w => String (digit_char ((n / 10 ^ N.of_nat w) mod 10)) (digits w n)
  end.

Definition digit_val (c : ascii) : option N :=
  let n := N_of_ascii c in
  if (48 <=? n) && (n <=? 57) then Some (n - 48) else None.

Fixpoint read_digits (width : nat) (acc : N) (s : string) : option (N * string) :=
  match width with
  | O => Some (acc, s)
  | S w =>
      match s with
      | String c s' =>
          match digit_val c with
          | Some d => read_digits w (10 * acc + d) s'
          | None => None
          end
      | EmptyString => None
      end
  end.

Definition expect (c : ascii) (s : string) : option string :=
  match s with
  | String c' s' => if Ascii.eqb c c' then Some s' else None
  | EmptyString => None
  end.

(** [datetime.isoformat()] of a naive value: [YYYY-MM-DDTHH:MM:SS], with
    [.ffffff] appended when the microseconds are not zero. *)
Definition isoformat (d : datetime) : string :=
  let f := proj1_sig d in
  digits 4 (year f) ++ "-" ++ digits 2 (month f) ++ "-" ++ digits 2 (day f)
  ++ "T" ++ digits 2 (hour f) ++ ":" ++ digits 2 (minute f)
  ++ ":" ++ digits 2 (second f)
  ++ (if microsecond f =? 0 then "" else "." ++ digits 6 (microsecond f)).

(** [datetime.fromisoformat], on the two shapes [isoformat] emits for a
    naive value (any single character may separate date and time, as in
    CPython).  Shorter time forms and UTC offsets, which CPython also
    reads, are outside this fragment and give [None] like a [ValueError]. *)
Definition fromisoformat (s : string) : option datetime :=
  '(y, s) ← read_digits 4 0 s;
  s ← expect "-" s;
  '(m, s) ← read_digits 2 0 s;
  s ← expect "-" s;
  '(d, s) ← read_digits 2 0 s;
  match s with
  | EmptyString => None
  | String _ s =>
      '(hh, s) ← read_digits 2 0 s;
      s ← expect ":" s;
      '(mm, s) ← read_digits 2 0 s;
      s ← expect ":" s;
      '(ss, s) ← read_digits 2 0 s;
      match s with
      | EmptyString => make (Fields y m d hh mm ss 0)
      | String c s =>
          if Ascii.eqb c "." then
            '(us, s) ← read_digits 6 0 s;
            match s with
            | EmptyString => make (Fields y m d hh mm ss us)
            | _ => None
            end
          else None
      end
  end.

(** [datetime.strptime(s, "%Y-%m-%d")] succeeds: the text matches the
    pattern [\d\d\d\d-(1[0-2]|0[1-9]|[1-9])-(3[01]|[12]\d|0[1-9]|[1-9]| [1-9])]
    with nothing left over and the three numbers form a date.  The
    alternatives are tried in the order written, as [re] does; [\d] stands
    for a decimal digit of any script, the classes written out for the
    ASCII digits they list. *)
Definition read_month (s : string) : option (N * string) :=
  match s with
  | String "1" (String c s') =>
      match digit_val c with
      | Some d => if d <=? 2 then Some (10 + d, s') else Some (1, String c s')
      | None => Some (1, String c s')
      end
  | String "0" (String c s') =>
      match digit_val c with
      | Some d => if 1 <=? d then Some (d, s') else None
      | None => None
      end
  | String c s' =>
      match digit_val c with
      | Some d => if 1 <=? d then Some (d, s') else None
      | None => None
      end
  | EmptyString => None
  end.

(** [[1-9]] *)
Definition read_nonzero (s : string) : option (N * string) :=
  match s with
  | String c s' =>
      match digit_val c with
      | Some d => if 1 <=? d then Some (d, s') else None
      | None => None
      end
  | EmptyString => None
  end.

(** [\d]: one character that is a decimal digit, of any script; [int]
    reads its value. *)
Definition read_digit (s : string) : option (N * string) :=
  '(ch, s') ← Unicode.next s;
  d ← Unicode.decimal ch;
  Some (d, s').

Fixpoint read_year (width : nat) (acc : N) (s : string) : option (N * string) :=
  match width with
  | O => Some (acc, s)
  | S w => '(d, s') ← read_digit s; read_year w (10 * acc + d) s'
  end.

Definition read_day (s : string) : option (N * string) :=
  match s with
  | String c1 s1 =>
      match digit_val c1 with
      | Some 3 =>
          match s1 with
          | String c2 s2 =>
              match digit_val c2 with
              | Some d => if d <=? 1 then Some (30 + d, s2) else Some (3, s1)
              | None => Some (3, s1)
              end
          | EmptyString => Some (3, s1)
          end
      | Some 0 => read_nonzero s1
      | Some d1 =>
          if d1 <=? 2 then
            match read_digit s1 with
            | Some (d, s2) => Some (10 * d1 + d, s2)
            | None => Some (d1, s1)
            end
          else Some (d1, s1)
      | None => if Ascii.eqb c1 " " then read_nonzero s1 else None
      end
  | EmptyString => None
  end.

Definition strptime_ymd (s : string) : option (N * N * N) :=
  '(y, s) ← read_year 4 0 s;
  s ← expect "-" s;
  '(m, s) ← read_month s;
  s ← expect "-" s;
  '(d, s) ← read_day s;
  match s with
  | EmptyString => if valid_date y m d then Some (y, m, d) else None
  | _ => None
  end.

(** [str(n)] of a natural number. *)
Definition decimal (n : N) : string :=
  NilZero.string_of_uint (N.to_uint n).

(** [strftime("%Y-%m-%d %H:%M")] and, with the seconds,
    [strftime("%Y-%m-%d %H:%M:%S")].  [%Y] is the year as the C library of
    the platform prints it: glibc does not pad it, others pad it to four
    digits; from the year 1000 on the texts are the same. *)
Definition strftime (seconds : bool) (d : datetime) : string :=
  let f := proj1_sig d in
  decimal (year f) ++ "-" ++ digits 2 (month f) ++ "-" ++ digits 2 (day f)
  ++ " " ++ digits 2 (hour f) ++ ":" ++ digits 2 (minute f)
  ++ (if seconds then ":" ++ digits 2 (second f) else "").

End Datetime.

(** ** float(), str.lower() and the other built-in functions *)

Module Builtins.

(** [str.lower()] on ASCII text; bytes above 127 are kept as they are. *)
Definition lower_char (c : ascii) : ascii :=
  let n := N_of_ascii c in
  if (65 <=? n)%N && (n <=? 90)%N then ascii_of_N (n + 32) else c.

Fixpoint lower (s : string) : string :=
  match s with
  | EmptyString => EmptyString
  | String c s' => String (lower_char c) (lower s')
  end.

(** [float(s)].  The text is first brought to ASCII
    ([_PyUnicode_TransformDecimalAndSpaceToASCII]): when it has a character
    outside ASCII, every blank of Unicode becomes a space and every decimal
    digit its ASCII digit, and the text ends in [?] at the first character
    that is neither.  Blanks at both ends are dropped, then the
    underscores, each of which must stand between two digits.  What is left
    is a decimal numeral with an optional exponent, or [inf], [infinity] or
    [nan] in any case, each with an optional sign.  A numeral is rounded to
    the nearest binary64 number, a tie to the even one, and one too large
    gives an infinity ([_Py_dg_strtod]; it refuses a text of more than 10^9
    digits, which is left aside).  [None] stands for [ValueError]. *)
Fixpoint ascii_of_chars (chars : list N) : string :=
  match chars with
  | [] => EmptyString
  | ch :: rest =>
      if (ch <? 127)%N then String (ascii_of_N ch) (ascii_of_chars rest)
      else if Unicode.is_space ch then String " " (ascii_of_chars rest)
      else match Unicode.decimal ch with
           | Some d => String (Datetime.digit_char d) (ascii_of_chars rest)
           | None => "?"
           end
  end.

Definition is_ascii (s : string) : bool :=
  forallb (fun c => (N_of_ascii c <? 128)%N) (list_ascii_of_string s).

Definition to_ascii (s : string) : option string :=
  if is_ascii s then Some s else ascii_of_chars <$> Unicode.decode s.

(** [Py_ISSPACE] *)
Definition is_blank (c : ascii) : bool :=
  let n := N_of_ascii c in ((9 <=? n)%N && (n <=? 13)%N) || (n =? 32)%N.

Fixpoint lstrip (s : string) : string :=
  match s with
  | String c s' => if is_blank c then lstrip s' else s
  | EmptyString => EmptyString
  end.

Fixpoint rstrip (s : string) : string :=
  match s with
  | String c s' =>
      match rstrip s' with
      | EmptyString => if is_blank c then EmptyString else String c EmptyString
      | kept => String c kept
      end
  | EmptyString => EmptyString
  end.

Definition is_digit (c : ascii) : bool :=
  match Datetime.digit_val c with Some _ => true | None => false end.

(** [_Py_string_to_number_with_underscores]; [prev] is the character
    before [s]. *)
Fixpoint drop_underscores (prev : ascii) (s : string) : option string :=
  match s with
  | EmptyString => if Ascii.eqb prev "_" then None else Some EmptyString
  | String c s' =>
      if Ascii.eqb c "_" then
        if is_digit prev then drop_underscores c s' else None
      else if Ascii.eqb prev "_" && negb (is_digit c) then None
      else String c <$> drop_underscores c s'
  end.

Definition read_sign (s : string) : bool * string :=
  match s with
  | String "-" s' => (true, s')
  | String "+" s' => (false, s')
  | _ => (false, s)
  end.

Fixpoint read_number (s : string) (acc : N) (n : nat) : N * nat * string :=
  match s with
  | String c s' =>
      match Datetime.digit_val c with
      | Some d => read_number s' (10 * acc + d)%N (S n)
      | None => (acc, n, s)
      end
  | EmptyString => (acc, n, s)
  end.

(** An exponent needs a digit; without one the [e] is not part of the
    numeral. *)
Definition read_exponent (s : string) : Z * string :=
  match s with
  | String c s' =>
      if Ascii.eqb c "e" || Ascii.eqb c "E" then
        let '(negative, digits) := read_sign s' in
        let '(x, n, rest) := read_number digits 0%N O in
        match n with
        | O => (0%Z, s)
        | S _ => (if negative then (- Z.of_N x)%Z else Z.of_N x, rest)
        end
      else (0%Z, s)
  | EmptyString => (0%Z, s)
  end.

(** The binary64 number nearest to [m * 10 ^ e].  For a negative [e] the
    quotient is taken with 64 bits more than the divisor has, and the
    remainder tells on which side of the middle the value lies. *)
Definition nearest (negative : bool) (m : positive) (e : Z) : float :=
  SF2Prim
    (if (0 <=? e)%Z then
       binary_round prec emax negative (m * Z.to_pos (10 ^ e)) 0
     else
       let d := (10 ^ (- e))%Z in
       let k := Z.max 0 (Z.log2 d + 64 - Z.log2 (Z.pos m)) in
       let n := (Z.pos m * 2 ^ k)%Z in
       let r := (n mod d)%Z in
       let l := if (r =? 0)%Z then loc_Exact else loc_Inexact (2 * r ?= d)%Z in
       binary_round_aux prec emax negative (n / d) (- k) l).

(** [_Py_dg_strtod], when it reads all of [s]. *)
Definition numeral (s : string) : option float :=
  let '(negative, s) := read_sign s in
  let '(whole, n1, rest) := read_number s 0%N O in
  let '(mant, n2, rest) :=
    match rest with
    | String "." rest' => read_number rest' whole O
    | _ => (whole, O, rest)
    end in
  if (n1 + n2 =? 0)%nat then None
  else
    let '(x, rest) := read_exponent rest in
    match rest with
    | EmptyString =>
        Some match mant with
             | N0 => if negative then neg_zero else zero
             | Npos m => nearest negative m (x - Z.of_nat n2)
             end
    | _ => None
    end.

(** [case_insensitive_match]: [s] begins with the lower-case word [t],
    its letters in any case; what follows it. *)
Fixpoint starts_with (t s : string) : option string :=
  match t, s with
  | EmptyString, _ => Some s
  | String a t', String b s' =>
      if Ascii.eqb a (lower_char b) then starts_with t' s' else None
  | String _ _, EmptyString => None
  end.

(** [_Py_parse_inf_or_nan], when it reads all of [s]. *)
Definition inf_or_nan (s : string) : option float :=
  let '(negative, s) := read_sign s in
  match starts_with "inf" s with
  | Some rest =>
      match default rest (starts_with "inity" rest) with
      | EmptyString => Some (if negative then neg_infinity else infinity)
      | _ => None
      end
  | None =>
      match starts_with "nan" s with
      | Some EmptyString => Some nan
      | _ => None
      end
  end.

(** A text that [_Py_dg_strtod] reads no part of may be an infinity or a
    nan. *)
Definition float_of_str (s : string) : option float :=
  s ← to_ascii s;
  s ← drop_underscores Ascii.zero (rstrip (lstrip s));
  match numeral s with
  | Some x => Some x
  | None => inf_or_nan s
  end.

(** [sorted(xs, key=...)] with string keys: the stable sort, by code
    point order. *)
Fixpoint insert_by {A} (key : A -> string) (x : A) (l : list A) : list A :=
  match l with
  | [] => [x]
  | y :: l' =>
      if String.leb (key x) (key y) then x :: l else y :: insert_by key x l'
  end.

Definition sorted {A} (key : A -> string) (l : list A) : list A :=
  foldr (insert_by key) [] l.

(** [str.upper()] on ASCII text; bytes above 127 are kept as they are. *)
Definition upper_char (c : ascii) : ascii :=
  let n := N_of_ascii c in
  if (97 <=? n)%N && (n <=? 122)%N then ascii_of_N (n - 32) else c.

Fixpoint upper (s : string) : string :=
  match s with
  | EmptyString => EmptyString
  | String c s' => String (upper_char c) (upper s')
  end.

(** A string holds the UTF-8 bytes of the text (what [hashlib] is given).
    [len(s)] counts the characters: the bytes that do not continue one. *)
Definition continues (c : ascii) : bool :=
  let n := N_of_ascii c in (128 <=? n)%N && (n <? 192)%N.

Fixpoint len (s : string) : nat :=
  match s with
  | EmptyString => O
  | String c s' => if continues c then len s' else S (len s')
  end.

(** [s[:n]]: the first [n] characters. *)
Fixpoint slice_to (n : nat) (s : string) : string :=
  match s with
  | EmptyString => EmptyString
  | String c s' =>
      if continues c then String c (slice_to n s')
      else match n with
           | O => EmptyString
           | S n' => String c (slice_to n' s')
           end
  end.

Fixpoint spaces (n : nat) : string :=
  match n with
  | O => EmptyString
  | S n' => String " " (spaces n')
  end.

(** [f"{s:<width}"]: [s], filled with blanks on the right up to [width]
    characters; a longer [s] is not cut. *)
Definition ljust (width : nat) (s : string) : string :=
  s ++ spaces (width - len s).

(** [f"{x:,.2f}"] of a float: the exact value of [x] rounded to the
    nearest hundredth, a tie to the even one, with the sign also of a
    negative zero, and the digits before the point grouped by three. *)
Fixpoint group (digits : list ascii) : list ascii :=
  match digits with
  | a :: b :: c :: ((_ :: _) as rest) => a :: b :: c :: "," % char :: group rest
  | _ => digits
  end.

Definition grouped (n : N) : string :=
  string_of_list_ascii
    (rev (group (rev (list_ascii_of_string (Datetime.decimal n))))).

Definition hundredths (m : positive) (e : Z) : N :=
  let n := (Z.pos m * 100)%Z in
  if (0 <=? e)%Z then Z.to_N (n * 2 ^ e)
  else
    let d := (2 ^ (- e))%Z in
    let q := (n / d)%Z in
    let r := (n mod d)%Z in
    Z.to_N (if (d <? 2 * r)%Z || ((2 * r =? d)%Z && Z.odd q) then q + 1 else q).

Definition format_money (x : float) : string :=
  let sign (s : bool) : string := if s then "-" else "" in
  match Prim2SF x with
  | S754_nan => "nan"
  | S754_infinity s => sign s ++ "inf"
  | S754_zero s => sign s ++ "0.00"
  | S754_finite s m e =>
      let h := hundredths m e in
      sign s ++ grouped (h / 100) ++ "." ++ Datetime.digits 2 (h mod 100)
  end.

(** [sorted(xs, key=..., reverse=True)]: descending, and stable too. *)
Fixpoint insert_by_desc {A} (key : A -> string) (x : A) (l : list A) : list A :=
  match l with
  | [] => [x]
  | y :: l' =>
      if String.leb (key y) (key x) then x :: l else y :: insert_by_desc key x l'
  end.

Definition sorted_desc {A} (key : A -> string) (l : list A) : list A :=
  foldr (insert_by_desc key) [] l.

End Builtins.

(** ** JSON documents *)

(** What [json.load] returns and [json.dump] writes: the text of a file is
    not modelled, a file holds the document itself.  The program writes no
    integers, so numbers are floats. *)
#[warnings="-register-all"]
Inductive json :=
| JNull
| JBool (b : bool)
| JNum (x : float)
| JStr (s : string)
| JList (l : list json)
| JObj (o : list (string * json)).

Module Json.

(** An object is the dictionary [json.load] builds: a key occurs once.
    [data[k]]: [None] stands for [KeyError]. *)
Fixpoint lookup (k : string) (o : list (string * json)) : option json :=
  match o with
  | [] => None
  | (k', v) :: o' => if String.eqb k k' then Some v else lookup k o'
  end.

Definition item (k : string) (data : json) : option json :=
  match data with
  | JObj o => lookup k o
  | _ => None
  end.

(** [data.get(k, default)] *)
Definition get (k : string) (default : json) (data : json) : json :=
  match item k data with
  | Some v => v
  | None => default
  end.

(** [k in data] *)
Definition has (k : string) (data : json) : bool :=
  match item k data with
  | Some _ => true
  | None => false
  end.

(** Truth value of a loaded document in a condition. *)
Definition truthy (v : json) : bool :=
  match v with
  | JNull => false
  | JBool b => b
  | JNum x => negb (PrimFloat.eqb x 0)
  | JStr s => negb (String.eqb s "")
  | JList l => match l with [] => false | _ => true end
  | JObj o => match o with [] => false | _ => true end
  end.

(** The attributes of the entity classes are typed here as the
    annotations and the prompts of the program type them; a document of
    another type in their place is refused. *)
Definition as_str (v : json) : option string :=
  match v with JStr s => Some s | _ => None end.

Definition as_bool (v : json) : option bool :=
  match v with JBool b => Some b | _ => None end.

Definition as_num (v : json) : option float :=
  match v with JNum x => Some x | _ => None end.

Definition as_list (v : json) : option (list json) :=
  match v with JList l => Some l | _ => None end.

Definition as_str_list (v : json) : option (list string) :=
  l ← as_list v; mapM as_str l.

(** [datetime.fromisoformat(v) if v else None] *)
Definition opt_datetime (v : json) : option (option Datetime.datetime) :=
  if truthy v then s ← as_str v; d ← Datetime.fromisoformat s; Some (Some d)
  else Some None.

Definition of_opt_datetime (d : option Datetime.datetime) : json :=
  match d with
  | Some d => JStr (Datetime.isoformat d)
  | None => JNull
  end.

End Json.

(** ** The interpreter's side: console, clock, files, exceptions *)

Module Py.

Inductive exn := EOFError | ValueError | KeyError.

(** The five files of the [data] directory. *)
Inductive file :=
| USERS_FILE | DEPARTMENTS_FILE | EMPLOYEES_FILE | TASKS_FILE | LOGS_FILE.

Definition file_eqb (f g : file) : bool :=
  match f, g with
  | USERS_FILE, USERS_FILE | DEPARTMENTS_FILE, DEPARTMENTS_FILE
  | EMPLOYEES_FILE, EMPLOYEES_FILE | TASKS_FILE, TASKS_FILE
  | LOGS_FILE, LOGS_FILE => true
  | _, _ => false
  end.

(** Each file holds a JSON list (the module creates it as [[]]). *)
Definition Disk : Type := file -> list json.

Definition write (f : file) (data : list json) (d : Disk) : Disk :=
  fun g => if file_eqb g f then data else d g.

(** What reaches the terminal.  A message is kept as its text; a row of a
    table is kept as the values its format string interpolates, the column
    widths and the [,.2f] rendering of amounts left out. *)
Inductive printed :=
| Line (text : string)
| Prompt (text : string)
| DepartmentRow (dept_id name manager_name : string) (n_employees : nat)
    (budget : float)
| EmployeeRow (emp_id full_name position dept_name hire_date : string)
    (salary : float).

(** The world an operation runs in: the object [self] it is a method of,
    the files, the lines the operator will type, what was printed, and the
    clock, read through a counter of the readings taken so far. *)
Record World (Self : Type) := MkWorld {
  self : Self;
  disk : Disk;
  stdin : list string;
  stdout : list printed;
  clock : nat -> Datetime.datetime;
  ticks : nat }.

Arguments MkWorld {Self}.
Arguments self {Self}.
Arguments disk {Self}.
Arguments stdin {Self}.
Arguments stdout {Self}.
Arguments clock {Self}.
Arguments ticks {Self}.

Inductive result (A : Type) :=
| Ok (a : A)
| Raise (e : exn).

Arguments Ok {A}.
Arguments Raise {A}.

(** A computation returns or raises, and leaves a world behind in both
    cases: what was mutated before an exception stays mutated. *)
Definition M (Self A : Type) : Type := World Self -> result A * World Self.

Section Monad.
Context {Self : Type}.

Definition ret {A} (a : A) : M Self A := fun w => (Ok a, w).

Definition bind {A B} (m : M Self A) (k : A -> M Self B) : M Self B :=
  fun w =>
    match m w with
    | (Ok a, w') => k a w'
    | (Raise e, w') => (Raise e, w')
    end.

Definition raise {A} (e : exn) : M Self A := fun w => (Raise e, w).

Definition get : M Self Self := fun w => (Ok (self w), w).

Definition put (s : Self) : M Self unit :=
  fun w => (Ok tt, MkWorld s (disk w) (stdin w) (stdout w) (clock w) (ticks w)).

(** [print(...)] *)
Definition emit (p : printed) : M Self unit :=
  fun w => (Ok tt, MkWorld (self w) (disk w) (stdin w) (stdout w ++ [p])
                           (clock w) (ticks w)).

Definition print (text : string) : M Self unit := emit (Line text).

Definition readline : M Self string :=
  fun w =>
    match stdin w with
    | line :: rest =>
        (Ok line, MkWorld (self w) (disk w) rest (stdout w) (clock w) (ticks w))
    | [] => (Raise EOFError, w)
    end.

(** [input(prompt)]: the prompt is written, a line is read. *)
Definition input (prompt : string) : M Self string :=
  bind (emit (Prompt prompt)) (fun _ => readline).

(** [getpass(prompt)] reads a line too, without echo. *)
Definition getpass (prompt : string) : M Self string := input prompt.

(** [datetime.now()] *)
Definition now : M Self Datetime.datetime :=
  fun w => (Ok (clock w (ticks w)),
            MkWorld (self w) (disk w) (stdin w) (stdout w) (clock w) (S (ticks w))).

(** [json.dump(data, open(filename, 'w'))] *)
Definition dump (filename : file) (data : list json) : M Self unit :=
  fun w => (Ok tt, MkWorld (self w) (write filename data (disk w)) (stdin w)
                           (stdout w) (clock w) (ticks w)).

(** [json.load(open(filename))] *)
Definition load (filename : file) : M Self (list json) :=
  fun w => (Ok (disk w filename), w).

(** A value that may have raised becomes a computation. *)
Definition try {A} (e : exn) (o : option A) : M Self A :=
  match o with
  | Some a => ret a
  | None => raise e
  end.

End Monad.

(** A method call [obj.m(...)] on an object that [self] holds: [m] runs
    with [obj] as its [self], in the caller's files, console and clock, and
    the object as the method left it is put back where [self] holds it
    ([store]), whether the method returned or raised. *)
Definition call {Self T A} (obj : T) (store : T -> Self -> Self) (m : M T A)
    : M Self A :=
  fun w =>
    match m (MkWorld obj (disk w) (stdin w) (stdout w) (clock w) (ticks w)) with
    | (r, w') =>
        (r, MkWorld (store (self w') (self w)) (disk w') (stdin w') (stdout w')
                    (clock w') (ticks w'))
    end.

End Py.

Notation "'let!' x ':=' m 'in' k" := (Py.bind m (fun x => k))
  (at level 10, x pattern, m at level 100, k at level 200,
   format "'[v' 'let!'  x  ':='  m  'in' '/' k ']'").

Notation "m ;;; k" := (Py.bind m (fun _ => k))
  (at level 100, k at level 200, right associativity,
   format "'[v' m  ;;; '/' k ']'").

(** The interface the four entity classes share: [to_dict] and the class
    method [from_dict] ([None]: it raised). *)
Class Entity (A : Type) := {
  to_dict : A -> json;
  from_dict : json -> option A }.

(** ** class User *)

Module User.

Record t := Make {
  username : string;
  password_hash : string;
  role : string;
  full_name : string;
  email : string;
  last_login : option Datetime.datetime;
  is_active : bool }.

Definition init (username password_hash role full_name email : string) : t :=
  {| username := username; password_hash := password_hash; role := role;
     full_name := full_name; email := email;
     last_login := None; is_active := true |}.

Definition set_last_login (d : option Datetime.datetime) (u : t) : t :=
  {| username := username u; password_hash := password_hash u; role := role u;
     full_name := full_name u; email := email u;
     last_login := d; is_active := is_active u |}.

Definition set_is_active (b : bool) (u : t) : t :=
  {| username := username u; password_hash := password_hash u; role := role u;
     full_name := full_name u; email := email u;
     last_login := last_login u; is_active := b |}.

Definition set_password_hash (h : string) (u : t) : t :=
  {| username := username u; password_hash := h; role := role u;
     full_name := full_name u; email := email u;
     last_login := last_login u; is_active := is_active u |}.

Definition to_dict (u : t) : json :=
  JObj [ ("username", JStr (username u));
         ("password_hash", JStr (password_hash u));
         ("role", JStr (role u));
         ("full_name", JStr (full_name u));
         ("email", JStr (email u));
         ("last_login", Json.of_opt_datetime (last_login u));
         ("is_active", JBool (is_active u)) ].

Definition from_dict (data : json) : option t :=
  username ← Json.item "username" data ≫= Json.as_str;
  password_hash ← Json.item "password_hash" data ≫= Json.as_str;
  role ← Json.item "role" data ≫= Json.as_str;
  full_name ← Json.item "full_name" data ≫= Json.as_str;
  email ← Json.item "email" data ≫= Json.as_str;
  let user := init username password_hash role full_name email in
  last_login ← Json.item "last_login" data ≫= Json.opt_datetime;
  let user := set_last_login last_login user in
  is_active ← Json.item "is_active" data ≫= Json.as_bool;
  Some (set_is_active is_active user).

Definition hash_password (password : string) : string :=
  SHA256.hexdigest password.

Definition verify_password (u : t) (password : string) : bool :=
  String.eqb (password_hash u) (hash_password password).

End User.

#[export] Instance User_entity : Entity User.t :=
  {| to_dict := User.to_dict; from_dict := User.from_dict |}.

(** ** class Department *)

Module Department.

Record t := Make {
  dept_id : string;
  name : string;
  manager : string;
  description : string;
  employees : list string;
  budget : float;
  created_at : Datetime.datetime }.

(** [__init__] reads the clock for [created_at]; the reading is an
    argument here. *)
Definition init (dept_id name manager description : string)
    (now : Datetime.datetime) : t :=
  {| dept_id := dept_id; name := name; manager := manager;
     description := description; employees := []; budget := 0%float;
     created_at := now |}.

Definition set_employees (l : list string) (d : t) : t :=
  {| dept_id := dept_id d; name := name d; manager := manager d;
     description := description d; employees := l; budget := budget d;
     created_at := created_at d |}.

Definition set_budget (b : float) (d : t) : t :=
  {| dept_id := dept_id d; name := name d; manager := manager d;
     description := description d; employees := employees d; budget := b;
     created_at := created_at d |}.

Definition set_created_at (c : Datetime.datetime) (d : t) : t :=
  {| dept_id := dept_id d; name := name d; manager := manager d;
     description := description d; employees := employees d;
     budget := budget d; created_at := c |}.

Definition to_dict (d : t) : json :=
  JObj [ ("dept_id", JStr (dept_id d));
         ("name", JStr (name d));
         ("manager", JStr (manager d));
         ("description", JStr (description d));
         ("employees", JList (JStr <$> employees d));
         ("budget", JNum (budget d));
         ("created_at", JStr (Datetime.isoformat (created_at d))) ].

(** The constructor's own [datetime.now()] is overwritten before
    [from_dict] returns, so no clock reading shows in the result. *)
Definition from_dict (data : json) : option t :=
  dept_id ← Json.item "dept_id" data ≫= Json.as_str;
  name ← Json.item "name" data ≫= Json.as_str;
  manager ← Json.item "manager" data ≫= Json.as_str;
  description ← Json.as_str (Json.get "description" (JStr "") data);
  employees ← Json.as_str_list (Json.get "employees" (JList []) data);
  budget ← Json.as_num (Json.get "budget" (JNum 0%float) data);
  created_at ← Json.item "created_at" data ≫= Json.as_str;
  created_at ← Datetime.fromisoformat created_at;
  Some (set_created_at created_at
          (set_budget budget
             (set_employees employees
                (init dept_id name manager description created_at)))).

(** [add_employee]: the new department and the value returned. *)
Definition add_employee (employee_id : string) (d : t) : t * bool :=
  if bool_decide (employee_id ∉ employees d)
  then (set_employees (employees d ++ [employee_id]) d, true)
  else (d, false).

Fixpoint remove_first (x : string) (l : list string) : list string :=
  match l with
  | [] => []
  | y :: l' => if String.eqb x y then l' else y :: remove_first x l'
  end.

Definition remove_employee (employee_id : string) (d : t) : t * bool :=
  if bool_decide (employee_id ∈ employees d)
  then (set_employees (remove_first employee_id (employees d)) d, true)
  else (d, false).

End Department.

#[export] Instance Department_entity : Entity Department.t :=
  {| to_dict := Department.to_dict; from_dict := Department.from_dict |}.

(** ** class Employee *)

Module Employee.

Record t := Make {
  emp_id : string;
  full_name : string;
  position : string;
  department : string;
  hire_date : string;
  salary : float;
  email : string;
  phone : string;
  is_active : bool;
  emergency_contact : json;
  notes : string }.

Definition init (emp_id full_name position department hire_date : string)
    (salary : float) (email phone : string) : t :=
  {| emp_id := emp_id; full_name := full_name; position := position;
     department := department; hire_date := hire_date; salary := salary;
     email := email; phone := phone;
     is_active := true; emergency_contact := JNull; notes := "" |}.

Definition to_dict (e : t) : json :=
  JObj [ ("emp_id", JStr (emp_id e));
         ("full_name", JStr (full_name e));
         ("position", JStr (position e));
         ("department", JStr (department e));
         ("hire_date", JStr (hire_date e));
         ("salary", JNum (salary e));
         ("email", JStr (email e));
         ("phone", JStr (phone e));
         ("is_active", JBool (is_active e));
         ("emergency_contact", emergency_contact e);
         ("notes", JStr (notes e)) ].

Definition from_dict (data : json) : option t :=
  emp_id ← Json.item "emp_id" data ≫= Json.as_str;
  full_name ← Json.item "full_name" data ≫= Json.as_str;
  position ← Json.item "position" data ≫= Json.as_str;
  department ← Json.item "department" data ≫= Json.as_str;
  hire_date ← Json.item "hire_date" data ≫= Json.as_str;
  salary ← Json.item "salary" data ≫= Json.as_num;
  email ← Json.item "email" data ≫= Json.as_str;
  phone ← Json.item "phone" data ≫= Json.as_str;
  is_active ← Json.as_bool (Json.get "is_active" (JBool true) data);
  let emergency_contact := Json.get "emergency_contact" JNull data in
  notes ← Json.as_str (Json.get "notes" (JStr "") data);
  Some {| emp_id := emp_id; full_name := full_name; position := position;
          department := department; hire_date := hire_date; salary := salary;
          email := email; phone := phone; is_active := is_active;
          emergency_contact := emergency_contact; notes := notes |}.

End Employee.

#[export] Instance Employee_entity : Entity Employee.t :=
  {| to_dict := Employee.to_dict; from_dict := Employee.from_dict |}.

(** ** class Task *)

Module Task.

Record t := Make {
  task_id : string;
  title : string;
  description : string;
  assigned_to : string;
  assigned_by : string;
  due_date : string;
  priority : string;
  status : string;
  created_at : Datetime.datetime;
  completed_at : option Datetime.datetime;
  comments : list json }.

(** [__init__] reads the clock for [created_at]; the reading is an
    argument here. *)
Definition init (task_id title description assigned_to assigned_by due_date
    priority : string) (now : Datetime.datetime) : t :=
  {| task_id := task_id; title := title; description := description;
     assigned_to := assigned_to; assigned_by := assigned_by;
     due_date := due_date; priority := priority; status := "pending";
     created_at := now; completed_at := None; comments := [] |}.

Definition set_status (s : string) (k : t) : t :=
  {| task_id := task_id k; title := title k; description := description k;
     assigned_to := assigned_to k; assigned_by := assigned_by k;
     due_date := due_date k; priority := priority k; status := s;
     created_at := created_at k; completed_at := completed_at k;
     comments := comments k |}.

Definition set_created_at (c : Datetime.datetime) (k : t) : t :=
  {| task_id := task_id k; title := title k; description := description k;
     assigned_to := assigned_to k; assigned_by := assigned_by k;
     due_date := due_date k; priority := priority k; status := status k;
     created_at := c; completed_at := completed_at k;
     comments := comments k |}.

Definition set_completed_at (c : option Datetime.datetime) (k : t) : t :=
  {| task_id := task_id k; title := title k; description := description k;
     assigned_to := assigned_to k; assigned_by := assigned_by k;
     due_date := due_date k; priority := priority k; status := status k;
     created_at := created_at k; completed_at := c;
     comments := comments k |}.

Definition set_comments (c : list json) (k : t) : t :=
  {| task_id := task_id k; title := title k; description := description k;
     assigned_to := assigned_to k; assigned_by := assigned_by k;
     due_date := due_date k; priority := priority k; status := status k;
     created_at := created_at k; completed_at := completed_at k;
     comments := c |}.

Definition to_dict (k : t) : json :=
  JObj [ ("task_id", JStr (task_id k));
         ("title", JStr (title k));
         ("description", JStr (description k));
         ("assigned_to", JStr (assigned_to k));
         ("assigned_by", JStr (assigned_by k));
         ("due_date", JStr (due_date k));
         ("priority", JStr (priority k));
         ("status", JStr (status k));
         ("created_at", JStr (Datetime.isoformat (created_at k)));
         ("completed_at", Json.of_opt_datetime (completed_at k));
         ("comments", JList (comments k)) ].

(** The constructor's own [datetime.now()] is overwritten before
    [from_dict] returns, so no clock reading shows in the result. *)
Definition from_dict (data : json) : option t :=
  task_id ← Json.item "task_id" data ≫= Json.as_str;
  title ← Json.item "title" data ≫= Json.as_str;
  description ← Json.item "description" data ≫= Json.as_str;
  assigned_to ← Json.item "assigned_to" data ≫= Json.as_str;
  assigned_by ← Json.item "assigned_by" data ≫= Json.as_str;
  due_date ← Json.item "due_date" data ≫= Json.as_str;
  priority ← Json.as_str (Json.get "priority" (JStr "medium") data);
  status ← Json.as_str (Json.get "status" (JStr "pending") data);
  created_at ← Json.item "created_at" data ≫= Json.as_str;
  created_at ← Datetime.fromisoformat created_at;
  completed_at ←
    (if Json.truthy (Json.get "completed_at" JNull data)
     then Json.item "completed_at" data ≫= Json.opt_datetime
     else Some None);
  comments ← Json.as_list (Json.get "comments" (JList []) data);
  Some (set_comments comments
          (set_completed_at completed_at
             (set_created_at created_at
                (set_status status
                   (init task_id title description assigned_to assigned_by
                      due_date priority created_at))))).

(** The methods below run on the task object: [self] is the task. *)
Definition add_comment (comment author : string) : Py.M t unit :=
  let! d := Py.now in
  let timestamp := Datetime.isoformat d in
  let! self := Py.get in
  Py.put (set_comments
            (comments self ++ [ JObj [ ("text", JStr comment);
                                       ("author", JStr author);
                                       ("timestamp", JStr timestamp) ] ])
            self).

Definition valid_statuses : list string :=
  [ "pending"; "in_progress"; "completed"; "cancelled" ].

Definition update_status (new_status : string) : Py.M t unit :=
  if bool_decide (new_status ∈ valid_statuses) then
    let! self := Py.get in
    Py.put (set_status new_status self) ;;;
    if String.eqb new_status "completed" then
      let! d := Py.now in
      let! self := Py.get in
      Py.put (set_completed_at (Some d) self)
    else Py.ret tt
  else Py.ret tt.

End Task.

#[export] Instance Task_entity : Entity Task.t :=
  {| to_dict := Task.to_dict; from_dict := Task.from_dict |}.

(** ** class AdminSystem *)

Module AdminSystem.

(** The object.  [current_user] refers to a [User] object that [users]
    holds: the reference is kept as the key it is stored under and is
    followed through [users] ([current]).  No operation removes or replaces
    an entry of [users], and [login] takes the reference from [users], so
    it always leads to the object it was taken from. *)
Record t := Make {
  current_user : option string;
  users : gmap string User.t;
  departments : gmap string Department.t;
  employees : gmap string Employee.t;
  tasks : gmap string Task.t;
  logs : list json }.

Definition set_current_user (c : option string) (s : t) : t :=
  {| current_user := c; users := users s; departments := departments s;
     employees := employees s; tasks := tasks s; logs := logs s |}.

Definition set_users (u : gmap string User.t) (s : t) : t :=
  {| current_user := current_user s; users := u; departments := departments s;
     employees := employees s; tasks := tasks s; logs := logs s |}.

Definition set_departments (d : gmap string Department.t) (s : t) : t :=
  {| current_user := current_user s; users := users s; departments := d;
     employees := employees s; tasks := tasks s; logs := logs s |}.

Definition set_employees (e : gmap string Employee.t) (s : t) : t :=
  {| current_user := current_user s; users := users s;
     departments := departments s; employees := e; tasks := tasks s;
     logs := logs s |}.

Definition set_tasks (k : gmap string Task.t) (s : t) : t :=
  {| current_user := current_user s; users := users s;
     departments := departments s; employees := employees s; tasks := k;
     logs := logs s |}.

Definition set_logs (l : list json) (s : t) : t :=
  {| current_user := current_user s; users := users s;
     departments := departments s; employees := employees s;
     tasks := tasks s; logs := l |}.

Definition current (s : t) : option User.t :=
  u ← current_user s; users s !! u.

(** [k in d] and [d.values()] of a dictionary.  A [gmap] lists its
    entries by key, a Python dictionary by insertion; the program sorts
    what it shows, and a file is read back into a dictionary.  The order
    of [values] is thus not the program's: what is stated below of the
    records of a file, or of rows that the sort key does not tell apart,
    is stated up to their order. *)
Definition contains {A} (k : string) (d : gmap string A) : bool :=
  match d !! k with Some _ => true | None => false end.

Definition values {A} (d : gmap string A) : list A := (map_to_list d).*2.

Definition nl : string := String (ascii_of_nat 10) EmptyString.

Definition modify (f : t -> t) : Py.M t unit :=
  let! self := Py.get in Py.put (f self).

(** *** Persistence *)

Definition item_key (item : json) : option string :=
  (if Json.has "username" item then Json.item "username" item
   else if Json.has "dept_id" item then Json.item "dept_id" item
   else if Json.has "emp_id" item then Json.item "emp_id" item
   else Json.item "task_id" item) ≫= Json.as_str.

(** The dictionary comprehension of [_load_data]: a later item replaces
    an earlier one with the same key; a key or a record that cannot be
    read raises (shown as [KeyError], whichever exception it is). *)
Definition load_items {A} `{Entity A} (data : list json) : option (gmap string A) :=
  foldl (fun acc item =>
           d ← acc; k ← item_key item; v ← from_dict item; Some (<[k := v]> d))
        (Some ∅) data.

Definition _load_data {Self} (filename : Py.file) (A : Type) `{Entity A}
    : Py.M Self (gmap string A) :=
  let! data := Py.load filename in
  Py.try Py.KeyError (load_items data).

Definition _load_logs {Self} : Py.M Self (list json) := Py.load Py.LOGS_FILE.

(** [__init__] *)
Definition init {Self} : Py.M Self t :=
  let! users := _load_data Py.USERS_FILE User.t in
  let! departments := _load_data Py.DEPARTMENTS_FILE Department.t in
  let! employees := _load_data Py.EMPLOYEES_FILE Employee.t in
  let! tasks := _load_data Py.TASKS_FILE Task.t in
  let! logs := _load_logs in
  Py.ret {| current_user := None; users := users; departments := departments;
            employees := employees; tasks := tasks; logs := logs |}.

(** The argument of [_save_data]: a dictionary of entities or a list. *)
Inductive saved :=
| Dict {A} `{Entity A} (d : gmap string A)
| List (l : list json).

Definition _save_data {Self} (filename : Py.file) (data : saved) : Py.M Self unit :=
  let data :=
    match data with
    | Dict d => to_dict <$> values d
    | List l => l
    end in
  Py.dump filename data.

Definition _log_activity (action details : string) : Py.M t unit :=
  let! d := Py.now in
  let! self := Py.get in
  let log_entry :=
    JObj [ ("timestamp", JStr (Datetime.isoformat d));
           ("user", JStr (match current self with
                          | Some u => User.username u
                          | None => "system"
                          end));
           ("action", JStr action);
           ("details", JStr details) ] in
  modify (fun self => set_logs (logs self ++ [log_entry]) self) ;;;
  let! self := Py.get in
  _save_data Py.LOGS_FILE (List (logs self)).

(** *** Authentication *)

Definition login : Py.M t bool :=
  Py.print (nl ++ "=== Login ===") ;;;
  let! username := Py.input "Username: " in
  let! password := Py.getpass "Password: " in
  let! self := Py.get in
  let user := users self !! username in
  match user with
  | Some u =>
      if User.verify_password u password && User.is_active u then
        modify (set_current_user (Some username)) ;;;
        let! d := Py.now in
        modify (fun self =>
          set_users (<[username := User.set_last_login (Some d) u]> (users self)) self) ;;;
        (let! self := Py.get in _save_data Py.USERS_FILE (Dict (users self))) ;;;
        _log_activity "login" ("User " ++ username ++ " logged in") ;;;
        Py.ret true
      else
        Py.print "Invalid username or password" ;;; Py.ret false
  | None =>
      Py.print "Invalid username or password" ;;; Py.ret false
  end.

Definition logout : Py.M t unit :=
  let! self := Py.get in
  match current self with
  | Some u =>
      _log_activity "logout" ("User " ++ User.username u ++ " logged out") ;;;
      modify (set_current_user None)
  | None => Py.ret tt
  end ;;;
  Py.print "Logged out successfully".

(** *** The authorization checks at the head of the operations *)

(** [self.current_user] is set. *)
Definition logged_in (self : t) : bool :=
  match current self with Some _ => true | None => false end.

(** [self.current_user and self.current_user.role in roles] *)
Definition role_in (roles : list string) (self : t) : bool :=
  match current self with
  | Some u => bool_decide (User.role u ∈ roles)
  | None => false
  end.

Definition change_password : Py.M t unit :=
  let! self := Py.get in
  match current_user self, current self with
  | Some key, Some u =>
      Py.print (nl ++ "=== Change Password ===") ;;;
      let! current := Py.getpass "Current password: " in
      if negb (User.verify_password u current) then
        Py.print "Incorrect current password"
      else
        let! new_pass := Py.getpass "New password: " in
        let! confirm := Py.getpass "Confirm new password: " in
        if negb (String.eqb new_pass confirm) then
          Py.print "Passwords don't match"
        else
          modify (fun self =>
            set_users (<[key := User.set_password_hash
                                  (User.hash_password new_pass) u]> (users self))
                      self) ;;;
          (let! self := Py.get in _save_data Py.USERS_FILE (Dict (users self))) ;;;
          _log_activity "password_change" "User changed their password" ;;;
          Py.print "Password changed successfully"
  | _, _ => Py.print "You must be logged in to change password"
  end.

(** *** User management *)

Definition create_user : Py.M t unit :=
  let! self := Py.get in
  if negb (role_in ["admin"] self) then
    Py.print "Only admins can create users"
  else
    Py.print (nl ++ "=== Create New User ===") ;;;
    let! username := Py.input "Username: " in
    if contains username (users self) then
      Py.print "Username already exists"
    else
      let! password := Py.getpass "Password: " in
      let! confirm := Py.getpass "Confirm password: " in
      if negb (String.eqb password confirm) then
        Py.print "Passwords don't match"
      else
        let! role := Py.input "Role (admin/manager/staff): " in
        let role := Builtins.lower role in
        if bool_decide (role ∉ ["admin"; "manager"; "staff"]) then
          Py.print "Invalid role"
        else
          let! full_name := Py.input "Full name: " in
          let! email := Py.input "Email: " in
          let new_user :=
            User.init username (User.hash_password password) role full_name email in
          modify (fun self => set_users (<[username := new_user]> (users self)) self) ;;;
          (let! self := Py.get in _save_data Py.USERS_FILE (Dict (users self))) ;;;
          _log_activity "user_create"
            ("Created user " ++ username ++ " with role " ++ role) ;;;
          Py.print ("User " ++ username ++ " created successfully").

Definition user_row (user : User.t) : string :=
  let last_login :=
    match User.last_login user with
    | Some d => Datetime.strftime false d
    | None => "Never"
    end in
  Builtins.ljust 15 (User.username user) ++ " "
  ++ Builtins.ljust 20 (User.full_name user) ++ " "
  ++ Builtins.ljust 10 (User.role user) ++ " "
  ++ Builtins.ljust 25 (User.email user) ++ " "
  ++ Builtins.ljust 20 last_login.

Fixpoint print_lines {Self} (lines : list string) : Py.M Self unit :=
  match lines with
  | [] => Py.ret tt
  | line :: lines' => Py.print line ;;; print_lines lines'
  end.

Definition list_users : Py.M t unit :=
  let! self := Py.get in
  if negb (role_in ["admin"; "manager"] self) then
    Py.print "Permission denied"
  else
    Py.print (nl ++ "=== User List ===") ;;;
    Py.print (Builtins.ljust 15 "Username" ++ " "
              ++ Builtins.ljust 20 "Full Name" ++ " "
              ++ Builtins.ljust 10 "Role" ++ " "
              ++ Builtins.ljust 25 "Email" ++ " "
              ++ Builtins.ljust 20 "Last Login") ;;;
    print_lines (user_row <$> Builtins.sorted User.username (values (users self))).

(** *** Department management *)

Definition create_department : Py.M t unit :=
  let! self := Py.get in
  if negb (role_in ["admin"] self) then
    Py.print "Only admins can create departments"
  else
    Py.print (nl ++ "=== Create New Department ===") ;;;
    let! dept_id := Py.input "Department ID: " in
    if contains dept_id (departments self) then
      Py.print "Department ID already exists"
    else
      let! name := Py.input "Department Name: " in
      let! manager := Py.input "Manager username: " in
      if negb (match users self !! manager with
               | Some m => String.eqb (User.role m) "manager"
               | None => false
               end) then
        Py.print "Invalid manager username or user is not a manager"
      else
        let! description := Py.input "Description (optional): " in
        let! budget := Py.input "Annual budget: " in
        let! budget := Py.try Py.ValueError (Builtins.float_of_str budget) in
        let! created := Py.now in
        let new_dept := Department.init dept_id name manager description created in
        let new_dept := Department.set_budget budget new_dept in
        modify (fun self =>
          set_departments (<[dept_id := new_dept]> (departments self)) self) ;;;
        (let! self := Py.get in
         _save_data Py.DEPARTMENTS_FILE (Dict (departments self))) ;;;
        _log_activity "dept_create" ("Created department " ++ dept_id) ;;;
        Py.print ("Department " ++ name ++ " created successfully").

Definition department_row (self : t) (dept : Department.t) : Py.printed :=
  let manager_name :=
    match users self !! Department.manager dept with
    | Some m => User.full_name m
    | None => "Unknown"
    end in
  Py.DepartmentRow (Department.dept_id dept) (Department.name dept) manager_name
    (length (Department.employees dept)) (Department.budget dept).

Fixpoint print_all {Self} (rows : list Py.printed) : Py.M Self unit :=
  match rows with
  | [] => Py.ret tt
  | r :: rows' => Py.emit r ;;; print_all rows'
  end.

Definition list_departments : Py.M t unit :=
  Py.print (nl ++ "=== Department List ===") ;;;
  Py.print "ID       Name                 Manager         Employees Budget         " ;;;
  let! self := Py.get in
  print_all (department_row self
               <$> Builtins.sorted Department.dept_id (values (departments self))).

(** *** Employee management *)

Definition employee_row (self : t) (emp : Employee.t) : Py.printed :=
  let dept_name :=
    match departments self !! Employee.department emp with
    | Some d => Department.name d
    | None => "Unknown"
    end in
  Py.EmployeeRow (Employee.emp_id emp) (Employee.full_name emp)
    (Employee.position emp) dept_name (Employee.hire_date emp)
    (Employee.salary emp).

Definition print_employees (employees : list Employee.t) : Py.M t unit :=
  Py.print "ID       Name                 Position             Department      Hire Date    Salary    " ;;;
  let! self := Py.get in
  print_all (employee_row self <$> Builtins.sorted Employee.emp_id employees).

(** [department_id] is [None] or a string; the empty string counts as
    no department, as [None] does. *)
Definition list_employees (department_id : option string) : Py.M t unit :=
  Py.print (nl ++ "=== Employee List ===") ;;;
  let! self := Py.get in
  match department_id with
  | Some (String c id') =>
      let department_id := String c id' in
      match departments self !! department_id with
      | None => Py.print "Invalid department ID"
      | Some dept =>
          let employees :=
            omap (fun eid => employees self !! eid) (Department.employees dept) in
          Py.print ("Employees in " ++ Department.name dept ++ " department:") ;;;
          print_employees employees
      end
  | _ => print_employees (values (employees self))
  end.

Definition add_employee : Py.M t unit :=
  let! self := Py.get in
  if negb (role_in ["admin"; "manager"] self) then
    Py.print "Permission denied"
  else
    Py.print (nl ++ "=== Add New Employee ===") ;;;
    let! emp_id := Py.input "Employee ID: " in
    if contains emp_id (employees self) then
      Py.print "Employee ID already exists"
    else
      let! full_name := Py.input "Full Name: " in
      let! position := Py.input "Position: " in
      list_departments ;;;
      let! department := Py.input "Department ID: " in
      match departments self !! department with
      | None => Py.print "Invalid department ID"
      | Some dept =>
          let! hire_date := Py.input "Hire Date (YYYY-MM-DD): " in
          match Datetime.strptime_ymd hire_date with
          | None => Py.print "Invalid date format"
          | Some _ =>
              let! salary := Py.input "Salary: " in
              let! salary := Py.try Py.ValueError (Builtins.float_of_str salary) in
              let! email := Py.input "Email: " in
              let! phone := Py.input "Phone: " in
              let new_emp :=
                Employee.init emp_id full_name position department hire_date
                  salary email phone in
              modify (fun self =>
                set_employees (<[emp_id := new_emp]> (employees self)) self) ;;;
              modify (fun self =>
                set_departments
                  (<[department := fst (Department.add_employee emp_id dept)]>
                     (departments self)) self) ;;;
              (let! self := Py.get in
               _save_data Py.EMPLOYEES_FILE (Dict (employees self))) ;;;
              (let! self := Py.get in
               _save_data Py.DEPARTMENTS_FILE (Dict (departments self))) ;;;
              _log_activity "employee_add" ("Added employee " ++ emp_id) ;;;
              Py.print ("Employee " ++ full_name ++ " added successfully")
          end
      end.

(** *** Task management *)

Definition create_task : Py.M t unit :=
  let! self := Py.get in
  match current self with
  | None => Py.print "You must be logged in to create tasks"
  | Some user =>
      Py.print (nl ++ "=== Create New Task ===") ;;;
      let! task_id := Py.input "Task ID: " in
      if contains task_id (tasks self) then
        Py.print "Task ID already exists"
      else
        let! title := Py.input "Title: " in
        let! description := Py.input "Description: " in
        list_employees None ;;;
        let! assigned_to := Py.input "Assign to Employee ID: " in
        if negb (contains assigned_to (employees self)) then
          Py.print "Invalid employee ID"
        else
          let! due_date := Py.input "Due Date (YYYY-MM-DD): " in
          match Datetime.strptime_ymd due_date with
          | None => Py.print "Invalid date format"
          | Some _ =>
              let! priority := Py.input "Priority (low/medium/high): " in
              let priority := Builtins.lower priority in
              let priority :=
                if bool_decide (priority ∉ ["low"; "medium"; "high"])
                then "medium" else priority in
              let! created := Py.now in
              let new_task :=
                Task.init task_id title description assigned_to
                  (User.username user) due_date priority created in
              modify (fun self => set_tasks (<[task_id := new_task]> (tasks self)) self) ;;;
              (let! self := Py.get in _save_data Py.TASKS_FILE (Dict (tasks self))) ;;;
              _log_activity "task_create"
                ("Created task " ++ task_id ++ " assigned to " ++ assigned_to) ;;;
              Py.print ("Task '" ++ title ++ "' created successfully")
          end
  end.

(** The name shown for an assignee: the employee's, or the id itself
    when no employee has it. *)
Definition assignee_name (self : t) (assigned_to : string) : string :=
  match employees self !! assigned_to with
  | Some e => Employee.full_name e
  | None => assigned_to
  end.

Definition task_row (self : t) (task : Task.t) : string :=
  Builtins.ljust 8 (Task.task_id task) ++ " "
  ++ Builtins.ljust 20 (Task.title task) ++ " "
  ++ Builtins.ljust 20 (assignee_name self (Task.assigned_to task)) ++ " "
  ++ Builtins.ljust 12 (Task.due_date task) ++ " "
  ++ Builtins.ljust 8 (Task.priority task) ++ " "
  ++ Builtins.ljust 12 (Task.status task).

(** [assigned_to] is [None] or a string; the empty string counts as no
    assignee, as [None] does.  Tasks with the same due date are shown in
    the order of [values]. *)
Definition list_tasks (assigned_to : option string) : Py.M t unit :=
  Py.print (nl ++ "=== Task List ===") ;;;
  let! self := Py.get in
  let! tasks :=
    match assigned_to with
    | Some (String c id') =>
        let assigned_to := String c id' in
        let tasks :=
          filter (fun t => Task.assigned_to t = assigned_to) (values (tasks self)) in
        Py.print ("Tasks assigned to " ++ assignee_name self assigned_to ++ ":") ;;;
        Py.ret tasks
    | _ => Py.ret (values (tasks self))
    end in
  Py.print (Builtins.ljust 8 "ID" ++ " "
            ++ Builtins.ljust 20 "Title" ++ " "
            ++ Builtins.ljust 20 "Assigned To" ++ " "
            ++ Builtins.ljust 12 "Due Date" ++ " "
            ++ Builtins.ljust 8 "Priority" ++ " "
            ++ Builtins.ljust 12 "Status") ;;;
  print_lines (task_row self <$> Builtins.sorted Task.due_date tasks).

(** [self.tasks[task_id].m(...)]: the method runs on the object that the
    dictionary holds under [task_id]. *)
Definition on_task {A} (task_id : string) (m : Py.M Task.t A) : Py.M t A :=
  let! self := Py.get in
  let! task := Py.try Py.KeyError (tasks self !! task_id) in
  Py.call task (fun task' self => set_tasks (<[task_id := task']> (tasks self)) self) m.

Definition update_task_status : Py.M t unit :=
  let! self := Py.get in
  match current self with
  | None => Py.print "You must be logged in to update tasks"
  | Some user =>
      Py.print (nl ++ "=== Update Task Status ===") ;;;
      let! task_id := Py.input "Task ID: " in
      match tasks self !! task_id with
      | None => Py.print "Task not found"
      | Some task =>
          Py.print ("Current status: " ++ Task.status task) ;;;
          Py.print "Available statuses: pending, in_progress, completed, cancelled" ;;;
          let! new_status := Py.input "New status: " in
          let new_status := Builtins.lower new_status in
          if bool_decide
               (new_status ∉ ["pending"; "in_progress"; "completed"; "cancelled"]) then
            Py.print "Invalid status"
          else
            on_task task_id (Task.update_status new_status) ;;;
            (if String.eqb new_status "completed" then
               let! d := Py.now in
               on_task task_id
                 (let! task := Py.get in Py.put (Task.set_completed_at (Some d) task))
             else Py.ret tt) ;;;
            let! comment := Py.input "Add comment (optional): " in
            (if negb (String.eqb comment "") then
               on_task task_id (Task.add_comment comment (User.username user))
             else Py.ret tt) ;;;
            (let! self := Py.get in _save_data Py.TASKS_FILE (Dict (tasks self))) ;;;
            _log_activity "task_update"
              ("Updated task " ++ task_id ++ " to status " ++ new_status) ;;;
            Py.print "Task updated successfully"
      end
  end.

(** *** Reporting *)

Definition task_line (task : Task.t) : string :=
  let status :=
    if String.eqb (Task.status task) "pending"
    then Builtins.upper (Task.status task)
    else Task.status task in
  "- " ++ Task.title task ++ " (Due: " ++ Task.due_date task
  ++ ", Status: " ++ status ++ ")".

Definition generate_department_report : Py.M t unit :=
  let! self := Py.get in
  if negb (role_in ["admin"; "manager"] self) then
    Py.print "Permission denied"
  else
    Py.print (nl ++ "=== Department Report ===") ;;;
    list_departments ;;;
    let! dept_id := Py.input "Select department ID: " in
    match departments self !! dept_id with
    | None => Py.print "Invalid department ID"
    | Some dept =>
        Py.print (nl ++ "Department: " ++ Department.name dept) ;;;
        let! manager := Py.try Py.KeyError (users self !! Department.manager dept) in
        Py.print ("Manager: " ++ User.full_name manager) ;;;
        Py.print ("Budget: $" ++ Builtins.format_money (Department.budget dept)) ;;;
        Py.print ("Employee Count: "
                  ++ Datetime.decimal (N.of_nat (length (Department.employees dept)))) ;;;
        Py.print (nl ++ "Employees:") ;;;
        list_employees (Some dept_id) ;;;
        Py.print (nl ++ "Tasks:") ;;;
        let dept_employees := Department.employees dept in
        let dept_tasks :=
          filter (fun t => Task.assigned_to t ∈ dept_employees) (values (tasks self)) in
        print_lines (task_line <$> Builtins.sorted Task.due_date dept_tasks)
    end.

Definition generate_employee_report : Py.M t unit :=
  let! self := Py.get in
  match current self with
  | None => Py.print "You must be logged in"
  | Some _ =>
      Py.print (nl ++ "=== Employee Report ===") ;;;
      list_employees None ;;;
      let! emp_id := Py.input "Select employee ID: " in
      match employees self !! emp_id with
      | None => Py.print "Invalid employee ID"
      | Some emp =>
          let dept := departments self !! Employee.department emp in
          Py.print (nl ++ "Employee: " ++ Employee.full_name emp) ;;;
          Py.print ("Position: " ++ Employee.position emp) ;;;
          Py.print ("Department: "
                    ++ match dept with
                       | Some d => Department.name d
                       | None => "Unknown"
                       end) ;;;
          Py.print ("Hire Date: " ++ Employee.hire_date emp) ;;;
          Py.print ("Salary: $" ++ Builtins.format_money (Employee.salary emp)) ;;;
          Py.print ("Email: " ++ Employee.email emp) ;;;
          Py.print ("Phone: " ++ Employee.phone emp) ;;;
          Py.print (nl ++ "Tasks Assigned:") ;;;
          let emp_tasks :=
            filter (fun t => Task.assigned_to t = emp_id) (values (tasks self)) in
          match emp_tasks with
          | [] => Py.print "No tasks assigned"
          | _ => print_lines (task_line <$> Builtins.sorted Task.due_date emp_tasks)
          end
      end
  end.

(** The fields of a log entry are read as the strings [_log_activity]
    writes; a document of another type in their place is refused, as a
    missing one is. *)
Definition log_field (k : string) (log : json) : option string :=
  Json.item k log ≫= Json.as_str.

Definition log_row (log : json) : Py.M t string :=
  let! timestamp := Py.try Py.KeyError (log_field "timestamp" log) in
  let! d := Py.try Py.ValueError (Datetime.fromisoformat timestamp) in
  let timestamp := Datetime.strftime true d in
  let! user := Py.try Py.KeyError (log_field "user" log) in
  let! action := Py.try Py.KeyError (log_field "action" log) in
  let! details := Py.try Py.ValueError (Json.as_str (Json.get "details" (JStr "") log)) in
  Py.ret (Builtins.ljust 25 timestamp ++ " " ++ Builtins.ljust 15 user ++ " "
          ++ Builtins.ljust 20 action ++ " "
          ++ Builtins.ljust 30 (Builtins.slice_to 30 details)).

Fixpoint print_logs (logs : list json) : Py.M t unit :=
  match logs with
  | [] => Py.ret tt
  | log :: logs' => (let! row := log_row log in Py.print row) ;;; print_logs logs'
  end.

Definition view_activity_logs : Py.M t unit :=
  let! self := Py.get in
  if negb (role_in ["admin"] self) then
    Py.print "Only admins can view activity logs"
  else
    Py.print (nl ++ "=== Activity Logs ===") ;;;
    Py.print (Builtins.ljust 25 "Timestamp" ++ " " ++ Builtins.ljust 15 "User" ++ " "
              ++ Builtins.ljust 20 "Action" ++ " " ++ Builtins.ljust 30 "Details") ;;;
    let! stamped := Py.try Py.KeyError
                    (mapM (fun log => k ← log_field "timestamp" log; Some (k, log))
                          (logs self)) in
    print_logs (snd <$> take 50 (Builtins.sorted_desc fst stamped)).

(** *** The menu *)

(** The branch of [main_menu] for choice 3 (it is offered to whoever is
    logged in, whatever the role). *)
Definition employee_management : Py.M t unit :=
  Py.print (nl ++ "Employee Management") ;;;
  Py.print "1. Add Employee" ;;;
  Py.print "2. List Employees" ;;;
  Py.print "3. List Department Employees" ;;;
  let! sub := Py.input "Enter choice: " in
  if String.eqb sub "1" then add_employee
  else if String.eqb sub "2" then list_employees None
  else if String.eqb sub "3" then
    let! dept := Py.input "Enter department ID: " in
    list_employees (Some dept)
  else Py.ret tt.

(** The branches for the choices 1, 2, 4 and 5; [user] is the object
    [self.current_user] refers to. *)
Definition user_management (user : User.t) : Py.M t unit :=
  if String.eqb (User.role user) "admin" then
    Py.print (nl ++ "User Management") ;;;
    Py.print "1. Create User" ;;;
    Py.print "2. List Users" ;;;
    let! sub := Py.input "Enter choice: " in
    if String.eqb sub "1" then create_user
    else if String.eqb sub "2" then list_users
    else Py.ret tt
  else Py.print "Permission denied".

Definition department_management (user : User.t) : Py.M t unit :=
  if String.eqb (User.role user) "admin" then
    Py.print (nl ++ "Department Management") ;;;
    Py.print "1. Create Department" ;;;
    Py.print "2. List Departments" ;;;
    let! sub := Py.input "Enter choice: " in
    if String.eqb sub "1" then create_department
    else if String.eqb sub "2" then list_departments
    else Py.ret tt
  else Py.print "Permission denied".

(** In "List My Tasks" a blank answer stands for the first employee, in
    the order of [values], whose email is the user's. *)
Definition task_management (user : User.t) : Py.M t unit :=
  Py.print (nl ++ "Task Management") ;;;
  Py.print "1. Create Task" ;;;
  Py.print "2. List All Tasks" ;;;
  Py.print "3. List My Tasks" ;;;
  Py.print "4. Update Task Status" ;;;
  let! sub := Py.input "Enter choice: " in
  if String.eqb sub "1" then create_task
  else if String.eqb sub "2" then list_tasks None
  else if String.eqb sub "3" then
    let! emp_id := Py.input "Enter employee ID (leave blank for current user): " in
    let! self := Py.get in
    let emp_id :=
      if String.eqb emp_id "" then
        Employee.emp_id
          <$> head (filter (fun e => Employee.email e = User.email user)
                           (values (employees self)))
      else Some emp_id in
    match emp_id with
    | Some (String c id') => list_tasks (Some (String c id'))
    | _ => Py.print "No employee record found for current user"
    end
  else if String.eqb sub "4" then update_task_status
  else Py.ret tt.

Definition reports : Py.M t unit :=
  Py.print (nl ++ "Reports") ;;;
  Py.print "1. Department Report" ;;;
  Py.print "2. Employee Report" ;;;
  let! sub := Py.input "Enter choice: " in
  if String.eqb sub "1" then generate_department_report
  else if String.eqb sub "2" then generate_employee_report
  else Py.ret tt.

(** How a round of the menu ends: the loop goes on, or [sys.exit(0)]
    ended the program. *)
Inductive flow := Continue | Exit.

(** One round of the loop of [main_menu]. *)
Definition main_menu_round : Py.M t flow :=
  Py.print (nl ++ "=== ADMINISTRATION SYSTEM ===") ;;;
  let! self := Py.get in
  match current self with
  | Some user =>
      Py.print ("Logged in as: " ++ User.full_name user
                ++ " (" ++ User.role user ++ ")") ;;;
      Py.print "1. User Management" ;;;
      Py.print "2. Department Management" ;;;
      Py.print "3. Employee Management" ;;;
      Py.print "4. Task Management" ;;;
      Py.print "5. Reports" ;;;
      Py.print "6. Change Password" ;;;
      Py.print "7. Logout" ;;;
      (if String.eqb (User.role user) "admin"
       then Py.print "8. View Activity Logs" else Py.ret tt) ;;;
      Py.print "0. Exit" ;;;
      let! choice := Py.input "Enter choice: " in
      if String.eqb choice "1" then user_management user ;;; Py.ret Continue
      else if String.eqb choice "2" then department_management user ;;; Py.ret Continue
      else if String.eqb choice "3" then employee_management ;;; Py.ret Continue
      else if String.eqb choice "4" then task_management user ;;; Py.ret Continue
      else if String.eqb choice "5" then reports ;;; Py.ret Continue
      else if String.eqb choice "6" then change_password ;;; Py.ret Continue
      else if String.eqb choice "7" then logout ;;; Py.ret Continue
      else if String.eqb choice "8" && String.eqb (User.role user) "admin" then
        view_activity_logs ;;; Py.ret Continue
      else if String.eqb choice "0" then
        logout ;;;
        Py.print "Exiting system..." ;;;
        Py.ret Exit
      else Py.ret Continue
  | None =>
      Py.print "1. Login" ;;;
      Py.print "0. Exit" ;;;
      let! choice := Py.input "Enter choice: " in
      if String.eqb choice "1" then login ;;; Py.ret Continue
      else if String.eqb choice "0" then
        Py.print "Exiting system..." ;;;
        Py.ret Exit
      else Py.ret Continue
  end.

(** The first [rounds] rounds of [main_menu]; the loop itself ends only
    by [sys.exit] or by an exception. *)
Fixpoint main_menu (rounds : nat) : Py.M t flow :=
  match rounds with
  | O => Py.ret Continue
  | S rounds' =>
      let! f := main_menu_round in
      match f with
      | Exit => Py.ret Exit
      | Continue => main_menu rounds'
      end
  end.

(** *** The script *)

Definition default_admin : User.t :=
  User.init "admin" (User.hash_password "admin123") "admin"
    "System Administrator" "admin@company.com".

Definition create_default_admin : Py.M t unit :=
  let! self := Py.get in
  if bool_decide (users self = ∅) then
    Py.print "No users found. Creating default admin account..." ;;;
    modify (fun self => set_users (<["admin" := default_admin]> (users self)) self) ;;;
    (let! self := Py.get in _save_data Py.USERS_FILE (Dict (users self))) ;;;
    Py.print "Default admin created - username: admin, password: admin123" ;;;
    Py.print "Please change the password immediately after login!"
  else Py.ret tt.

(** The script: the object is built from the files, the default admin is
    created if there is no user, and the menu runs. *)
Definition main (rounds : nat) : Py.M unit flow :=
  let! system := init in
  Py.call system (fun _ _ => tt) (create_default_admin ;;; main_menu rounds).

End AdminSystem.

(** ** The outcomes of the specification *)

(** The specification names the way an operation ends; the program says
    it in a message.  [kind_of] reads each diagnostic of the program as the
    error kind of the specification it stands for. *)
Inductive error :=
| ValidationError | NotFoundError | DuplicateIdError
| PermissionDenied | AuthError | CorruptDataError.

Definition diagnostics : list (string * error) :=
  [ ("Only admins can create users", PermissionDenied);
    ("Only admins can create departments", PermissionDenied);
    ("Permission denied", PermissionDenied);
    ("You must be logged in to create tasks", PermissionDenied);
    ("You must be logged in to update tasks", PermissionDenied);
    ("You must be logged in to change password", PermissionDenied);
    ("Invalid username or password", AuthError);
    ("Incorrect current password", AuthError);
    ("Username already exists", DuplicateIdError);
    ("Department ID already exists", DuplicateIdError);
    ("Employee ID already exists", DuplicateIdError);
    ("Task ID already exists", DuplicateIdError);
    ("Invalid manager username or user is not a manager", NotFoundError);
    ("Invalid department ID", NotFoundError);
    ("Invalid employee ID", NotFoundError);
    ("Task not found", NotFoundError);
    ("Passwords don't match", ValidationError);
    ("Invalid role", ValidationError);
    ("Invalid date format", ValidationError);
    ("Invalid status", ValidationError) ].

Fixpoint assoc {B} (k : string) (l : list (string * B)) : option B :=
  match l with
  | [] => None
  | (k', v) :: l' => if String.eqb k k' then Some v else assoc k l'
  end.

Definition kind_of (p : Py.printed) : option error :=
  match p with
  | Py.Line text => assoc text diagnostics
  | _ => None
  end.

(** How a run ended: with the error kind of the last thing it printed, if
    that is a diagnostic, and with success otherwise. *)
Inductive outcome :=
| Success
| Failure (e : error).

Definition outcome_of {Self} (w : Py.World Self) : outcome :=
  match last (Py.stdout w) ≫= kind_of with
  | Some e => Failure e
  | None => Success
  end.

(** What an operation that ends in an error must leave as it found it: the
    object (session, collections, log) and the files. *)
Definition unchanged {Self} (w w' : Py.World Self) : Prop :=
  Py.self w' = Py.self w /\ Py.disk w' = Py.disk w.

(** A dictionary is keyed by the identifier of the entity it holds. *)
Definition keyed {A} (ident : A -> string) (d : gmap string A) : Prop :=
  map_Forall (fun k e => ident e = k) d.

(** The four collections of the system are keyed so. *)
Definition well_keyed (s : AdminSystem.t) : Prop :=
  keyed User.username (AdminSystem.users s)
  /\ keyed Department.dept_id (AdminSystem.departments s)
  /\ keyed Employee.emp_id (AdminSystem.employees s)
  /\ keyed Task.task_id (AdminSystem.tasks s).

Fixpoint last_char (s : string) : option ascii :=
  match s with
  | EmptyString => None
  | String c EmptyString => Some c
  | String _ s' => last_char s'
  end.

(** ** What the operations keep *)

(** An entry of the activity log, as [_log_activity] writes it. *)
Definition entry (log : json) : Prop :=
  exists d user action details,
    log = JObj [ ("timestamp", JStr (Datetime.isoformat d)); ("user", JStr user);
                 ("action", JStr action); ("details", JStr details) ].

(** The log after an operation: the log before it, or that with one
    entry more at its end. *)
Definition appended (before after : list json) : Prop :=
  after = before \/ exists log, entry log /\ after = (before ++ [log])%list.

(** A file holds a dictionary: its records are the [to_dict] of the
    values of the dictionary, one for each, in some order.  [_save_data]
    writes them in the order of insertion, which a [gmap] does not keep;
    what is stated of a file is stated up to the order of its records. *)
Definition holds {A} `{Entity A} (data : list json) (d : gmap string A) : Prop :=
  data ≡ₚ to_dict <$> AdminSystem.values d.

(** Each file holds its collection; the log is a list and keeps its
    order. *)
Definition stored (s : AdminSystem.t) (d : Py.Disk) : Prop :=
  holds (d Py.USERS_FILE) (AdminSystem.users s)
  /\ holds (d Py.DEPARTMENTS_FILE) (AdminSystem.departments s)
  /\ holds (d Py.EMPLOYEES_FILE) (AdminSystem.employees s)
  /\ holds (d Py.TASKS_FILE) (AdminSystem.tasks s)
  /\ d Py.LOGS_FILE = AdminSystem.logs s.

(** The files hold the collections in memory. *)
Definition mirrored (w : Py.World AdminSystem.t) : Prop :=
  stored (Py.self w) (Py.disk w).

(** The references between the collections lead somewhere: the manager
    of a department is a user with the role of a manager, the employees a
    department lists exist and belong to it, the department of an employee
    exists and lists the employee, and the assignee and the author of a
    task exist. *)
Definition references (users : gmap string User.t)
    (departments : gmap string Department.t)
    (employees : gmap string Employee.t) (tasks : gmap string Task.t) : Prop :=
  (forall k d, departments !! k = Some d ->
     exists m, users !! Department.manager d = Some m /\ User.role m = "manager")
  /\ (forall k d eid, departments !! k = Some d -> eid ∈ Department.employees d ->
        exists e, employees !! eid = Some e /\ Employee.department e = k)
  /\ (forall k e, employees !! k = Some e ->
        exists d, departments !! Employee.department e = Some d
                  /\ k ∈ Department.employees d)
  /\ (forall k task, tasks !! k = Some task ->
        is_Some (employees !! Task.assigned_to task)
        /\ is_Some (users !! Task.assigned_by task)).

Definition referential_integrity (s : AdminSystem.t) : Prop :=
  references (AdminSystem.users s) (AdminSystem.departments s)
    (AdminSystem.employees s) (AdminSystem.tasks s).

Definition sound (s : AdminSystem.t) : Prop :=
  well_keyed s /\ referential_integrity s.

(** The session refers to a user that exists. *)
Definition session_valid (s : AdminSystem.t) : Prop :=
  forall key, AdminSystem.current_user s = Some key ->
              is_Some (AdminSystem.users s !! key).

(** The values that the prompts check: roles, dates, priorities and
    statuses. *)
Definition valid_fields (s : AdminSystem.t) : Prop :=
  map_Forall (fun _ u => User.role u ∈ ["admin"; "manager"; "staff"])
             (AdminSystem.users s)
  /\ map_Forall (fun _ e => is_Some (Datetime.strptime_ymd (Employee.hire_date e)))
                (AdminSystem.employees s)
  /\ map_Forall (fun _ k => Task.priority k ∈ ["low"; "medium"; "high"]
                            /\ Task.status k ∈ Task.valid_statuses
                            /\ is_Some (Datetime.strptime_ymd (Task.due_date k)))
                (AdminSystem.tasks s).

(** What stays of an entity when an operation has touched it. *)
Definition same_user (u u' : User.t) : Prop :=
  User.username u' = User.username u /\ User.role u' = User.role u
  /\ User.full_name u' = User.full_name u /\ User.email u' = User.email u
  /\ User.is_active u' = User.is_active u.

Definition same_department (d d' : Department.t) : Prop :=
  Department.dept_id d' = Department.dept_id d
  /\ Department.name d' = Department.name d
  /\ Department.manager d' = Department.manager d
  /\ Department.description d' = Department.description d
  /\ Department.budget d' = Department.budget d
  /\ Department.created_at d' = Department.created_at d
  /\ Department.employees d `prefix_of` Department.employees d'.

Definition same_task (k k' : Task.t) : Prop :=
  Task.task_id k' = Task.task_id k /\ Task.title k' = Task.title k
  /\ Task.description k' = Task.description k
  /\ Task.assigned_to k' = Task.assigned_to k
  /\ Task.assigned_by k' = Task.assigned_by k
  /\ Task.due_date k' = Task.due_date k /\ Task.priority k' = Task.priority k
  /\ Task.created_at k' = Task.created_at k
  /\ Task.comments k `prefix_of` Task.comments k'.

(** [s'] holds every entity of [s], under the same key. *)
Definition extends (s s' : AdminSystem.t) : Prop :=
  (forall k u, AdminSystem.users s !! k = Some u ->
     exists u', AdminSystem.users s' !! k = Some u' /\ same_user u u')
  /\ (forall k d, AdminSystem.departments s !! k = Some d ->
        exists d', AdminSystem.departments s' !! k = Some d' /\ same_department d d')
  /\ (forall k e, AdminSystem.employees s !! k = Some e ->
        AdminSystem.employees s' !! k = Some e)
  /\ (forall k t, AdminSystem.tasks s !! k = Some t ->
        exists t', AdminSystem.tasks s' !! k = Some t' /\ same_task t t').

(** The fields that [from_dict] of the class of a file reads with
    [data[...]]: a record must have them. *)
Definition required (f : Py.file) : list string :=
  match f with
  | Py.USERS_FILE =>
      ["username"; "password_hash"; "role"; "full_name"; "email"; "last_login";
       "is_active"]
  | Py.DEPARTMENTS_FILE => ["dept_id"; "name"; "manager"; "created_at"]
  | Py.EMPLOYEES_FILE =>
      ["emp_id"; "full_name"; "position"; "department"; "hire_date"; "salary";
       "email"; "phone"]
  | Py.TASKS_FILE =>
      ["task_id"; "title"; "description"; "assigned_to"; "assigned_by"; "due_date";
       "created_at"]
  | Py.LOGS_FILE => []
  end.

(** The order of a listing: by the key, as strings compare. *)
Definition ordered {A} (key : A -> string) (a b : A) : Prop :=
  String.leb (key a) (key b) = true.

(** ** A run of the program *)

(** What the operations keep of the object, taken together. *)
Definition consistent (s : AdminSystem.t) : Prop :=
  well_keyed s /\ referential_integrity s /\ valid_fields s /\ session_valid s
  /\ Forall entry (AdminSystem.logs s).

(** Between two operations the object is consistent and the files hold
    it; at any time, also after an exception, the files hold some
    consistent object. *)
Definition steady (w : Py.World AdminSystem.t) : Prop :=
  consistent (Py.self w) /\ mirrored w.

Definition restartable (d : Py.Disk) : Prop :=
  exists s, consistent s /\ stored s d.

(** A computation that, started between two operations, ends between two
    operations when it returns, and leaves restartable files when it
    raises. *)
Definition safe {A} (m : Py.M AdminSystem.t A) : Prop :=
  forall w, steady w ->
    match (m w).1 with
    | Py.Ok _ => steady (m w).2
    | Py.Raise _ => restartable (Py.disk (m w).2)
    end.

(** A computation that reads lines and never puts one back; one that
    has read a line when it returns. *)
Definition consumes {Self A} (m : Py.M Self A) : Prop :=
  forall w, length (Py.stdin (m w).2) <= length (Py.stdin w).

Definition reads {Self A} (m : Py.M Self A) : Prop :=
  forall w a, (m w).1 = Py.Ok a -> length (Py.stdin (m w).2) < length (Py.stdin w).

(** The library functions are read through their lemmas, not unfolded. *)
Arguments User.hash_password : simpl never.
Arguments Datetime.isoformat : simpl never.
Arguments Datetime.fromisoformat : simpl never.
Arguments Datetime.strptime_ymd : simpl never.
Arguments Builtins.float_of_str : simpl never.
Arguments Builtins.lower : simpl never.
Arguments Builtins.sorted : simpl never.

(** Symbolic execution of an operation on a world given by its parts:
    [run] unfolds the primitives of the interpreter up to the next test
    the hypotheses must decide. *)
Ltac run :=
  cbv [Py.bind Py.get Py.put Py.emit Py.print Py.input Py.getpass Py.readline
       Py.now Py.dump Py.load Py.ret Py.raise Py.try Py.call
       Py.self Py.disk Py.stdin Py.stdout Py.clock Py.ticks
       AdminSystem.modify AdminSystem._save_data AdminSystem._load_data
       AdminSystem._log_activity AdminSystem.on_task
       AdminSystem.print_employees Task.update_status Task.add_comment
       unchanged fst snd];
  simpl.

Ltac exec :=
  repeat (progress (run; rewrite ?lookup_insert_eq, ?insert_insert_eq)).

(** Every path of an operation, whatever the operator types: [crawl_with]
    runs to the next test, splits on what it tests, and goes on; [tac]
    rewrites the calls the proof has lemmas for. *)
Ltac innermost x :=
  lazymatch x with
  | context [match _ with _ => _ end] => fail
  | _ => idtac
  end.

Ltac crawl_with tac :=
  repeat (exec; tac;
          match goal with
          | |- context [match ?x with _ => _ end] => innermost x; destruct x eqn:?
          end).

Ltac crawl := crawl_with idtac.

(** The files against the collections, file by file. *)
Ltac mirror :=
  unfold mirrored, stored, Py.write; cbn; repeat split; try assumption;
  try reflexivity; try (unfold holds; reflexivity).

(** The result and the world of a run, named before the run is
    followed. *)
Ltac isolate op :=
  let r := fresh "r" in
  let w' := fresh "w'" in
  let E := fresh "E" in
  destruct op as [r w'] eqn:E; cbn [fst snd]; revert E.

(** ** A small installation, for the examples *)

Module Example.

Definition t0 : Datetime.datetime := dexist (Datetime.Fields 2025 1 6 9 0 0 0) I.
Definition t1 : Datetime.datetime := dexist (Datetime.Fields 2025 1 6 9 0 1 250) I.
Definition t2 : Datetime.datetime := dexist (Datetime.Fields 2025 1 6 9 0 2 0) I.
Definition t3 : Datetime.datetime := dexist (Datetime.Fields 2025 1 6 9 0 3 0) I.

Definition clock (n : nat) : Datetime.datetime :=
  match n with
  | 0 => t1
  | 1 => t2
  | _ => t3
  end.

Definition admin : User.t :=
  User.init "admin" (User.hash_password "admin123") "admin"
    "System Administrator" "admin@company.com".

Definition m1 : User.t :=
  User.init "m1" (User.hash_password "manager1") "manager" "Mia Manager"
    "mia@company.com".

Definition sam : User.t :=
  User.init "sam" (User.hash_password "staff1") "staff" "Sam Staff"
    "sam@company.com".

Definition D1 : Department.t :=
  Department.set_employees ["E1"]
    (Department.set_budget 10000%float
       (Department.init "D1" "Sales" "m1" "Field sales" t0)).

Definition E1 : Employee.t :=
  Employee.init "E1" "Eve Adams" "Clerk" "D1" "2024-03-01" 52000%float
    "eve@company.com" "555-0101".

(** [T1] is pending; [T2] was completed at [t0]. *)
Definition T1 : Task.t :=
  Task.init "T1" "File report" "Quarterly numbers" "E1" "m1" "2025-02-01"
    "high" t0.

Definition T2 : Task.t :=
  Task.set_completed_at (Some t0)
    (Task.set_status "completed"
       (Task.init "T2" "Call client" "Renewal" "E1" "m1" "2025-01-15" "low" t0)).

Definition system (current_user : option string) : AdminSystem.t :=
  {| AdminSystem.current_user := current_user;
     AdminSystem.users := <["sam" := sam]> (<["m1" := m1]> (<["admin" := admin]> ∅));
     AdminSystem.departments := <["D1" := D1]> ∅;
     AdminSystem.employees := <["E1" := E1]> ∅;
     AdminSystem.tasks := <["T2" := T2]> (<["T1" := T1]> ∅);
     AdminSystem.logs := [] |}.

Definition files (s : AdminSystem.t) : Py.Disk :=
  fun f =>
    match f with
    | Py.USERS_FILE => to_dict <$> AdminSystem.values (AdminSystem.users s)
    | Py.DEPARTMENTS_FILE => to_dict <$> AdminSystem.values (AdminSystem.departments s)
    | Py.EMPLOYEES_FILE => to_dict <$> AdminSystem.values (AdminSystem.employees s)
    | Py.TASKS_FILE => to_dict <$> AdminSystem.values (AdminSystem.tasks s)
    | Py.LOGS_FILE => AdminSystem.logs s
    end.

(** The installation with [current_user] logged in (or nobody) and the
    operator about to type [lines]. *)
Definition world (current_user : option string) (lines : list string)
    : Py.World AdminSystem.t :=
  Py.MkWorld (system current_user) (files (system current_user)) lines [] clock 0.

(** The files as the program left them: in each file the records in the
    order in which the entities were created. *)
Definition written : Py.Disk :=
  fun f =>
    match f with
    | Py.USERS_FILE => [to_dict admin; to_dict m1; to_dict sam]
    | Py.DEPARTMENTS_FILE => [to_dict D1]
    | Py.EMPLOYEES_FILE => [to_dict E1]
    | Py.TASKS_FILE => [to_dict T1; to_dict T2]
    | Py.LOGS_FILE => []
    end.

(** The installation on these files. *)
Definition installed (current_user : option string) (lines : list string)
    : Py.World AdminSystem.t :=
  Py.MkWorld (system current_user) written lines [] clock 0.

(** An installation whose departments file was edited by hand: department
    D9 names a manager who is not a user. *)
Definition orphaned (current_user : option string) (lines : list string)
    : Py.World AdminSystem.t :=
  let s := system current_user in
  let s :=
    AdminSystem.set_departments
      (<["D9" := Department.init "D9" "Lost" "ghost" "" t0]>
         (AdminSystem.departments s)) s in
  Py.MkWorld s (files s) lines [] clock 0.

(** An installation with a log of 51 entries, as 51 logins of [sam] leave
    it. *)
Definition login_entry (n : nat) : json :=
  JObj [ ("timestamp", JStr (Datetime.isoformat (clock n)));
         ("user", JStr "sam");
         ("action", JStr "login");
         ("details", JStr "User sam logged in") ].

Definition busy (current_user : option string) (lines : list string)
    : Py.World AdminSystem.t :=
  let s := AdminSystem.set_logs (login_entry <$> seq 0 51) (system current_user) in
  Py.MkWorld s (files s) lines [] clock 0.

(** The account that the admin creates in the examples. *)
Definition kim : User.t :=
  User.init "kim" (User.hash_password "s3cret") "staff" "Kim Lee"
    "kim@company.com".

(** The installation before any department, employee or task exists. *)
Definition bare (current_user : option string) (lines : list string)
    : Py.World AdminSystem.t :=
  let s :=
    AdminSystem.set_tasks ∅
      (AdminSystem.set_employees ∅
         (AdminSystem.set_departments ∅ (system current_user))) in
  Py.MkWorld s (files s) lines [] clock 0.

(** The same world with another session and other lines to come. *)
Definition resume (current_user : option string) (lines : list string)
    (w : Py.World AdminSystem.t) : Py.World AdminSystem.t :=
  Py.MkWorld (AdminSystem.set_current_user current_user (Py.self w)) (Py.disk w)
    lines [] (Py.clock w) (Py.ticks w).

(** The installation after the admin created [kim] with the password
    "s3cret", then after [kim] logged in, then after [kim] changed the
    password to "n3w". *)
Definition created : Py.World AdminSystem.t :=
  (AdminSystem.create_user
     (world (Some "admin")
        ["kim"; "s3cret"; "s3cret"; "Staff"; "Kim Lee"; "kim@company.com"])).2.

Definition logged : Py.World AdminSystem.t :=
  (AdminSystem.login (resume None ["kim"; "s3cret"] created)).2.

Definition changed : Py.World AdminSystem.t :=
  (AdminSystem.change_password (resume (Some "kim") ["s3cret"; "n3w"; "n3w"] logged)).2.

(** The installation some time after [kim] was created, with nobody
    logged in. *)
Definition later (lines : list string) : Py.World AdminSystem.t :=
  let s := system None in
  let s := AdminSystem.set_users (<["kim" := kim]> (AdminSystem.users s)) s in
  Py.MkWorld s (files s) lines [] clock 0.

End Example.

(** * Properties *)

Import AdminSystem.

(** ** The embedding of the library, checked on known values *)

Example sha256_abc :
  SHA256.hexdigest "abc"
  = "ba7816bf8f01cfea414140de5dae2223b00361a396177a9cb410ff61f20015ad".
Proof. vm_compute. reflexivity. Qed.

Example sha256_empty :
  SHA256.hexdigest ""
  = "e3b0c44298fc1c149afbf4c8996fb92427ae41e4649b934ca495991b7852b855".
Proof. vm_compute. reflexivity. Qed.

Example sha256_two_blocks :
  SHA256.hexdigest "abcdbcdecdefdefgefghfghighijhijkijkljklmklmnlmnomnopnopq"
  = "248d6a61d20638b8e5c026930c3e6039a33ce45964ff2167f6ecedd419db06c1".
Proof. vm_compute. reflexivity. Qed.

Example sha256_constants :
  length SHA256.K = 64%nat
  /\ nth 0 SHA256.K 0%Z = 0x428a2f98%Z /\ nth 63 SHA256.K 0%Z = 0xc67178f2%Z
  /\ nth 0 SHA256.H0 0%Z = 0x6a09e667%Z /\ nth 7 SHA256.H0 0%Z = 0x5be0cd19%Z.
Proof. vm_compute. repeat split. Qed.

Example isoformat_t1 : Datetime.isoformat Example.t1 = "2025-01-06T09:00:01.000250".
Proof. vm_compute. reflexivity. Qed.

Example strptime_leap_day :
  Datetime.strptime_ymd "2024-02-29" = Some (2024, 2, 29)%N
  /\ Datetime.strptime_ymd "2025-02-29" = None
  /\ Datetime.strptime_ymd "2025-1-5" = Some (2025, 1, 5)%N
  /\ Datetime.strptime_ymd "2025-01-35" = None
  /\ Datetime.strptime_ymd "01/02/2025" = None.
Proof. vm_compute. repeat split. Qed.

(** The year and the second digit of the day may be digits of any script,
    the month may not; a blank may stand for the first digit of the day. *)
Example strptime_digits :
  Datetime.strptime_ymd "２０２４-01-1٣" = Some (2024, 1, 13)%N
  /\ Datetime.strptime_ymd "2024-01- 5" = Some (2024, 1, 5)%N
  /\ Datetime.strptime_ymd "2024-０1-05" = None
  /\ Datetime.strptime_ymd "2024-01-٠٥" = None
  /\ Datetime.strptime_ymd "2024-01-05 " = None
  /\ Datetime.strptime_ymd "0000-01-01" = None.
Proof. vm_compute. repeat split. Qed.

Example float_of_str_values :
  Builtins.float_of_str "12.50" = Some 12.5%float
  /\ Builtins.float_of_str "-5000" = Some (-5000)%float
  /\ Builtins.float_of_str "abc" = None.
Proof. vm_compute. repeat split. Qed.

(** Exponents, blanks, underscores, digits of other scripts, infinities,
    and the rounding of a numeral that is not a binary64 number. *)
Example float_of_str_grammar :
  Builtins.float_of_str "-1e3" = Some (-1000)%float
  /\ Builtins.float_of_str " 1_000.5 " = Some 1000.5%float
  /\ Builtins.float_of_str "٣.٥" = Some 3.5%float
  /\ Builtins.float_of_str ".5E+1" = Some 5%float
  /\ Builtins.float_of_str "0.1" = Some 0x1.999999999999ap-4%float
  /\ Builtins.float_of_str "9007199254740993" = Some 9007199254740992%float
  /\ Builtins.float_of_str "1e400" = Some infinity
  /\ Builtins.float_of_str "-Infinity" = Some neg_infinity
  /\ Builtins.float_of_str "NaN" = Some nan
  /\ Builtins.float_of_str "-0" = Some neg_zero
  /\ Builtins.float_of_str "1_" = None
  /\ Builtins.float_of_str "1e" = None
  /\ Builtins.float_of_str "1 000" = None
  /\ Builtins.float_of_str "" = None.
Proof. vm_compute. repeat split. Qed.

Example sorted_is_stable :
  Builtins.sorted fst [("b", 1); ("a", 2); ("b", 3); ("a", 4)]
  = [("a", 2); ("a", 4); ("b", 1); ("b", 3)].
Proof. vm_compute. reflexivity. Qed.

(** ** Strings *)

Lemma append_cons c s r : String c s ++ r = String c (s ++ r).
Proof. reflexivity. Qed.

Lemma append_empty r : "" ++ r = r.
Proof. reflexivity. Qed.

Lemma last_char_app a b : b <> "" -> last_char (a ++ b) = last_char b.
Proof.
  intros Hb. induction a as [|c a IH]; [done|].
  rewrite append_cons. cbn [last_char]. rewrite IH.
  destruct (a ++ b) eqn:E; [|done].
  destruct a; [|discriminate]. by rewrite append_empty in E.
Qed.

Lemma last_char_message a b c : c <> "" -> last_char (a ++ b ++ c) = last_char c.
Proof.
  intros Hc. rewrite last_char_app.
  - by apply last_char_app.
  - destruct b; [done|]. rewrite append_cons. discriminate.
Qed.

(** ** Timestamps survive [isoformat] and [fromisoformat] *)

Section Isoformat.
Import Datetime.
Local Open Scope N_scope.

Lemma digit_val_char d : d < 10 -> digit_val (digit_char d) = Some d.
Proof.
  intros H. unfold digit_val, digit_char.
  rewrite N_ascii_embedding by lia.
  replace (48 <=? 48 + d) with true by (symmetry; apply N.leb_le; lia).
  replace (48 + d <=? 57) with true by (symmetry; apply N.leb_le; lia).
  simpl. f_equal. lia.
Qed.

Lemma read_digits_digits w : forall n acc rest,
  read_digits w acc (digits w n ++ rest)
  = Some (acc * 10 ^ N.of_nat w + n mod 10 ^ N.of_nat w, rest).
Proof.
  induction w as [|w IH]; intros n acc rest.
  - simpl. rewrite N.mod_1_r. do 2 f_equal. lia.
  - cbn [digits read_digits]. rewrite append_cons.
    rewrite digit_val_char by (apply N.mod_lt; lia).
    rewrite IH. do 2 f_equal.
    rewrite Nat2N.inj_succ, N.pow_succ_r'.
    rewrite (N.mul_comm 10 (10 ^ N.of_nat w)).
    rewrite (N.Div0.mod_mul_r n (10 ^ N.of_nat w) 10). lia.
Qed.

Lemma read_digits_lt w n acc rest :
  n < 10 ^ N.of_nat w ->
  read_digits w acc (digits w n ++ rest) = Some (acc * 10 ^ N.of_nat w + n, rest).
Proof. intros H. rewrite read_digits_digits, N.mod_small by done. done. Qed.

Lemma read_digits_end w n acc :
  n < 10 ^ N.of_nat w ->
  read_digits w acc (digits w n) = Some (acc * 10 ^ N.of_nat w + n, "").
Proof.
  intros H. rewrite <- (read_digits_lt w n acc "") by done.
  f_equal. induction (digits w n) as [|c s IH]; [done|].
  rewrite append_cons. by f_equal.
Qed.

Lemma valid_bounds f :
  Is_true (valid f) ->
  year f < 10000 /\ month f < 100 /\ day f < 100 /\ hour f < 100
  /\ minute f < 100 /\ second f < 100 /\ microsecond f < 1000000.
Proof.
  unfold valid, valid_date, days_in_month. intros H.
  repeat (apply andb_prop_elim in H; destruct H as [H ?]).
  repeat match goal with
         | H : Is_true (_ <=? _) |- _ => apply Is_true_true, N.leb_le in H
         | H : Is_true (_ <? _) |- _ => apply Is_true_true, N.ltb_lt in H
         end.
  repeat split; try lia.
  repeat case_match; lia.
Qed.

Lemma make_proj (d : datetime) : make (proj1_sig d) = Some d.
Proof.
  unfold make. destruct (decide _) as [ok|no].
  - f_equal. apply dsig_eq. reflexivity.
  - destruct no. destruct d as [f Hf]. simpl. apply (bool_decide_unpack _ Hf).
Qed.

Lemma fromisoformat_isoformat (d : datetime) : fromisoformat (isoformat d) = Some d.
Proof.
  pose proof (make_proj d) as Hm.
  destruct d as [f Hf].
  pose proof (valid_bounds f (bool_decide_unpack _ Hf))
    as (Hy & Hmo & Hd & Hh & Hmi & Hs & Hus).
  unfold fromisoformat, isoformat. cbn [proj1_sig] in *.
  destruct f as [y mo dd hh mi ss us].
  cbn [year month day hour minute second microsecond] in *.
  do 5 (rewrite read_digits_lt by (simpl; lia);
        repeat (progress (cbn [mbind option_bind expect Ascii.eqb Bool.eqb andb];
                          rewrite ?append_cons, ?append_empty))).
  destruct (us =? 0) eqn:Hz.
  - apply N.eqb_eq in Hz. subst us.
    rewrite read_digits_lt by (simpl; lia).
    cbn [mbind option_bind]. exact Hm.
  - rewrite read_digits_lt by (simpl; lia).
    cbn [mbind option_bind Ascii.eqb Bool.eqb andb].
    rewrite read_digits_end by (simpl; lia).
    cbn [mbind option_bind]. exact Hm.
Qed.

Lemma isoformat_nonempty d : isoformat d <> "".
Proof. unfold isoformat. cbn [digits]. rewrite append_cons. discriminate. Qed.

End Isoformat.

(** ** Records survive [to_dict] and [from_dict] *)

Lemma opt_datetime_of (d : option Datetime.datetime) :
  Json.opt_datetime (Json.of_opt_datetime d) = Some d.
Proof.
  destruct d as [d|]; [|reflexivity].
  unfold Json.opt_datetime, Json.of_opt_datetime, Json.truthy.
  destruct (String.eqb_spec (Datetime.isoformat d) "") as [E|_].
  - by apply isoformat_nonempty in E.
  - simpl. by rewrite fromisoformat_isoformat.
Qed.

Lemma truthy_of_opt_datetime (d : option Datetime.datetime) :
  Json.truthy (Json.of_opt_datetime d) = bool_decide (is_Some d).
Proof.
  destruct d as [d|]; [|reflexivity]. simpl.
  destruct (String.eqb_spec (Datetime.isoformat d) "") as [E|_]; [|done].
  by apply isoformat_nonempty in E.
Qed.

Lemma as_str_list_of (l : list string) :
  Json.as_str_list (JList (JStr <$> l)) = Some l.
Proof.
  unfold Json.as_str_list, Json.as_list. cbn [mbind option_bind].
  induction l as [|x l IH]; [done|].
  cbn [fmap list_fmap mapM Json.as_str mbind option_bind] in *.
  rewrite IH. done.
Qed.

Lemma User_from_to (u : User.t) : User.from_dict (User.to_dict u) = Some u.
Proof.
  destruct u. cbn -[Json.opt_datetime Json.of_opt_datetime].
  rewrite opt_datetime_of. reflexivity.
Qed.

Lemma Department_from_to (d : Department.t) :
  Department.from_dict (Department.to_dict d) = Some d.
Proof.
  destruct d. cbn -[Json.as_str_list Datetime.fromisoformat Datetime.isoformat].
  rewrite as_str_list_of. cbn -[Datetime.fromisoformat Datetime.isoformat].
  rewrite fromisoformat_isoformat. reflexivity.
Qed.

Lemma Employee_from_to (e : Employee.t) :
  Employee.from_dict (Employee.to_dict e) = Some e.
Proof. destruct e. reflexivity. Qed.

Lemma Task_from_to (k : Task.t) : Task.from_dict (Task.to_dict k) = Some k.
Proof.
  destruct k.
  cbn -[Json.opt_datetime Json.of_opt_datetime Json.truthy
        Datetime.fromisoformat Datetime.isoformat].
  rewrite fromisoformat_isoformat.
  cbn -[Json.opt_datetime Json.of_opt_datetime Json.truthy].
  rewrite truthy_of_opt_datetime, opt_datetime_of.
  destruct completed_at; reflexivity.
Qed.

(** ** A saved dictionary is the dictionary loaded *)

Section Collection.
Context {A : Type} {EA : Entity A} (ident : A -> string).
Hypothesis from_to : forall e : A, from_dict (to_dict e) = Some e.
Hypothesis key_of : forall e : A, item_key (to_dict e) = Some (ident e).

Lemma load_items_pairs (l : list (string * A)) (acc : gmap string A) :
  (forall k e, (k, e) ∈ l -> ident e = k) ->
  foldl (fun acc item =>
           d ← acc; k ← item_key item; v ← from_dict item; Some (<[k := v]> d))
        (Some acc) (to_dict <$> l.*2)
  = Some (list_to_map (reverse l) ∪ acc).
Proof.
  revert acc. induction l as [|[k e] l IH]; intros acc Hk.
  - simpl. by rewrite (left_id_L ∅ (∪)).
  - cbn [fmap list_fmap foldl snd]. rewrite key_of, from_to.
    cbn [mbind option_bind].
    rewrite IH by (intros; apply Hk; by right).
    rewrite (Hk k e) by left.
    rewrite reverse_cons, list_to_map_app. cbn [list_to_map foldr].
    rewrite <- (assoc_L (∪)). f_equal. f_equal.
    rewrite insert_empty. by rewrite <- insert_union_singleton_l.
Qed.

Lemma load_items_values (d : gmap string A) :
  keyed ident d -> load_items (to_dict <$> values d) = Some d.
Proof.
  intros Hk. unfold load_items, values.
  rewrite load_items_pairs.
  - f_equal. rewrite (right_id_L ∅ (∪)).
    rewrite <- (list_to_map_to_list d) at 2.
    apply list_to_map_proper.
    + rewrite fmap_reverse, reverse_Permutation. apply NoDup_fst_map_to_list.
    + apply reverse_Permutation.
  - intros k e Hin. apply (Hk k e). by apply elem_of_map_to_list.
Qed.

Lemma save_then_load (filename : Py.file) (d : gmap string A)
    (w : Py.World AdminSystem.t) :
  keyed ident d ->
  ((_save_data filename (Dict d) ;;; _load_data filename A) w).1 = Py.Ok d.
Proof.
  intros Hk. destruct w as [sy dk i o c t]. run. unfold Py.write.
  replace (Py.file_eqb filename filename) with true by (by destruct filename).
  by rewrite (load_items_values d Hk).
Qed.

End Collection.

(** ** What an operation printed last *)

Lemma success_not_diagnostic text :
  last_char text = Some "y"%char -> kind_of (Py.Line text) = None.
Proof.
  intros H. cbn [kind_of diagnostics assoc].
  repeat match goal with
         | |- context [String.eqb text ?k] =>
             destruct (String.eqb_spec text k) as [->|_];
             [vm_compute in H; discriminate|]
         end.
  reflexivity.
Qed.

Lemma outcome_of_snoc {Self} (s : Self) d i o p c t :
  outcome_of (Py.MkWorld s d i (o ++ [p]) c t)
  = match kind_of p with Some e => Failure e | None => Success end.
Proof. unfold outcome_of. cbn [Py.stdout]. by rewrite last_snoc. Qed.

(** The messages of success all end in "successfully"; no diagnostic ends
    in "y". *)
Lemma outcome_of_success {Self} (s : Self) d i o a b c clk t :
  c <> "" -> last_char c = Some "y"%char ->
  outcome_of (Py.MkWorld s d i (o ++ [Py.Line (a ++ b ++ c)]) clk t) = Success.
Proof.
  intros Hc Hy. rewrite outcome_of_snoc, success_not_diagnostic; [done|].
  by rewrite last_char_message.
Qed.

Lemma outcome_of_quiet {Self} (s : Self) d i o l c t :
  l <> [] -> Forall (fun p => kind_of p = None) l ->
  outcome_of (Py.MkWorld s d i (o ++ l) c t) = Success.
Proof.
  intros Hne Hall. unfold outcome_of. cbn [Py.stdout]. rewrite last_app.
  destruct (last l) as [p|] eqn:E.
  - apply last_Some_elem_of in E.
    rewrite Forall_forall in Hall. cbn. by rewrite (Hall p E).
  - apply last_None in E. done.
Qed.

Lemma employee_rows_quiet s (l : list Employee.t) :
  Forall (fun p => kind_of p = None) (employee_row s <$> l).
Proof. apply Forall_fmap, Forall_forall. intros e _. reflexivity. Qed.

(** ** The listings *)

Lemma print_all_run {Self} (rows : list Py.printed) (w : Py.World Self) :
  print_all rows w
  = (Py.Ok tt, Py.MkWorld (Py.self w) (Py.disk w) (Py.stdin w)
                          (Py.stdout w ++ rows) (Py.clock w) (Py.ticks w)).
Proof.
  revert w. induction rows as [|r rows IH]; intros [s d i o c t].
  - cbn. by rewrite app_nil_r.
  - cbn [print_all]. unfold Py.bind, Py.emit. cbn. rewrite IH. cbn.
    by rewrite <- app_assoc.
Qed.

Lemma list_departments_run s d i o c t :
  list_departments (Py.MkWorld s d i o c t)
  = (Py.Ok tt,
     Py.MkWorld s d i
       (o ++ Py.Line (nl ++ "=== Department List ===")
          :: Py.Line "ID       Name                 Manager         Employees Budget         "
          :: (department_row s
                <$> Builtins.sorted Department.dept_id (values (departments s))))
       c t).
Proof.
  unfold list_departments. run. rewrite print_all_run. cbn.
  by rewrite <- !app_assoc.
Qed.

Lemma list_employees_all_run s d i o c t :
  list_employees None (Py.MkWorld s d i o c t)
  = (Py.Ok tt,
     Py.MkWorld s d i
       (o ++ Py.Line (nl ++ "=== Employee List ===")
          :: Py.Line "ID       Name                 Position             Department      Hire Date    Salary    "
          :: (employee_row s
                <$> Builtins.sorted Employee.emp_id (values (employees s))))
       c t).
Proof.
  unfold list_employees. run. rewrite print_all_run. cbn.
  by rewrite <- !app_assoc.
Qed.

Lemma app_cons_middle {A} (l : list A) x l' :
  (l ++ x :: l' = (l ++ [x]) ++ l')%list.
Proof. by rewrite <- app_assoc. Qed.

(** [Task.update_status] with a status other than "completed" leaves
    [completed_at] as it was, whatever it was. *)
Lemma update_status_keeps_completed_at (new_status : string) (w : Py.World Task.t) :
  new_status <> "completed" ->
  Task.completed_at (Py.self (Task.update_status new_status w).2)
  = Task.completed_at (Py.self w).
Proof.
  intros Hn. destruct w as [k d i o c t]. unfold Task.update_status.
  destruct (bool_decide _); run; [|done].
  destruct (String.eqb_spec new_status "completed"); [done|]. run. done.
Qed.

(** * The claims *)

(** ** Listing employees *)

(** C1, as the program has it: [list_employees] makes no check of the
    caller.  In every world, whoever is logged in (an admin, a manager,
    staff) and when nobody is, the call made without a department returns,
    prints the title, the header and one row per employee of the
    collection in the order of their ids, reports no error, and leaves the
    object and the files as they were; with any department argument it
    leaves them as they were and never answers [PermissionDenied]. *)
Theorem list_employees_has_no_role_check (w : Py.World AdminSystem.t) :
  (list_employees None w).1 = Py.Ok tt /\
  unchanged w (list_employees None w).2 /\
  Py.stdout (list_employees None w).2
  = (Py.stdout w
     ++ Py.Line (nl ++ "=== Employee List ===")
     :: Py.Line "ID       Name                 Position             Department      Hire Date    Salary    "
     :: (employee_row (Py.self w)
           <$> Builtins.sorted Employee.emp_id (values (employees (Py.self w)))))%list /\
  outcome_of (list_employees None w).2 = Success /\
  forall department_id,
    unchanged w (list_employees department_id w).2 /\
    outcome_of (list_employees department_id w).2 <> Failure PermissionDenied.
Proof.
  destruct w as [sy d i o c t].
  assert (Hall : forall title,
             outcome_of (Py.MkWorld sy d i
               (o ++ Py.Line title
                  :: Py.Line "ID       Name                 Position             Department      Hire Date    Salary    "
                  :: (employee_row sy
                        <$> Builtins.sorted Employee.emp_id (values (employees sy))))
               c t) = Success).
  { intros title. rewrite (app_cons_middle o).
    apply outcome_of_quiet; [discriminate|].
    constructor; [reflexivity|]. apply employee_rows_quiet. }
  rewrite list_employees_all_run. cbn [fst snd Py.stdout Py.self].
  split; [done|]. split; [done|]. split; [done|]. split; [apply Hall|].
  intros [[|ch id]|].
  - change (list_employees (Some "")) with (list_employees None).
    rewrite list_employees_all_run. cbn [snd]. split; [done|]. by rewrite Hall.
  - unfold list_employees. run.
    destruct (departments sy !! String ch id) as [dept|]; run.
    + rewrite print_all_run. cbn. split; [done|].
      rewrite <- !app_assoc. rewrite outcome_of_quiet; [done|discriminate|].
      repeat constructor. apply employee_rows_quiet.
    + split; [done|]. by rewrite outcome_of_snoc.
  - rewrite list_employees_all_run. cbn [snd]. split; [done|]. by rewrite Hall.
Qed.

(** Staff are not denied: with the staff user [sam] logged in, and with
    nobody logged in, [list_employees] prints the employee table and
    reports no error; through the menu, choice 2 of "Employee Management"
    gives [sam] the same table. *)
Lemma list_employees_staff_gets_listing :
  User.role <$> current (Py.self (Example.world (Some "sam") [])) = Some "staff"
  /\ (list_employees None (Example.world (Some "sam") [])).1 = Py.Ok tt
  /\ outcome_of (list_employees None (Example.world (Some "sam") [])).2 = Success
  /\ Py.stdout (list_employees None (Example.world (Some "sam") [])).2
     = [ Py.Line (nl ++ "=== Employee List ===");
         Py.Line "ID       Name                 Position             Department      Hire Date    Salary    ";
         Py.EmployeeRow "E1" "Eve Adams" "Clerk" "Sales" "2024-03-01" 52000%float ]
  /\ current (Py.self (Example.world None [])) = None
  /\ outcome_of (list_employees None (Example.world None [])).2 = Success
  /\ last (Py.stdout (list_employees None (Example.world None [])).2)
     = Some (Py.EmployeeRow "E1" "Eve Adams" "Clerk" "Sales" "2024-03-01" 52000%float)
  /\ last (Py.stdout (employee_management (Example.world (Some "sam") ["2"])).2)
     = Some (Py.EmployeeRow "E1" "Eve Adams" "Clerk" "Sales" "2024-03-01" 52000%float).
Proof. vm_compute. repeat split. Qed.

(** ** Adding an employee *)

(** C2, as the program has it: [add_employee] applies no range check to
    the salary.  For a caller who is an admin or a manager, an employee id
    not yet in use, a department that exists and a hire date that
    [strptime] accepts, every salary text that [float] reads, whatever its
    sign, is accepted: the call returns, reports success, stores the new
    employee with that salary under the id, appends the id to the
    department's list (unless the list has it), and rewrites both files,
    each with the records of its collection. *)
Theorem add_employee_accepts_any_salary (w : Py.World AdminSystem.t)
    emp_id full_name position department hire_date salary email phone rest
    dept x :
  role_in ["admin"; "manager"] (Py.self w) = true ->
  Py.stdin w = emp_id :: full_name :: position :: department :: hire_date
                 :: salary :: email :: phone :: rest ->
  employees (Py.self w) !! emp_id = None ->
  departments (Py.self w) !! department = Some dept ->
  is_Some (Datetime.strptime_ymd hire_date) ->
  Builtins.float_of_str salary = Some x ->
  (add_employee w).1 = Py.Ok tt /\
  outcome_of (add_employee w).2 = Success /\
  employees (Py.self (add_employee w).2)
  = <[emp_id := Employee.init emp_id full_name position department hire_date x
                  email phone]> (employees (Py.self w)) /\
  departments (Py.self (add_employee w).2)
  = <[department := (Department.add_employee emp_id dept).1]>
      (departments (Py.self w)) /\
  holds (Py.disk (add_employee w).2 Py.EMPLOYEES_FILE)
    (employees (Py.self (add_employee w).2)) /\
  holds (Py.disk (add_employee w).2 Py.DEPARTMENTS_FILE)
    (departments (Py.self (add_employee w).2)).
Proof.
  intros Hr Hin He Hd [ymd Hh] Hx. destruct w as [sy d i o c t].
  cbn in Hr, Hin, He, Hd. subst i.
  unfold add_employee. run. rewrite Hr. run. unfold contains. rewrite He.
  exec. rewrite list_departments_run. exec.
  rewrite Hd. exec. rewrite Hh. exec. rewrite Hx. exec.
  split; [done|]. split; [|repeat split; unfold holds; reflexivity].
  apply outcome_of_success; [discriminate|reflexivity].
Qed.

Lemma add_employee_negative_salary_witness :
  employees (Py.self (add_employee
     (Example.world (Some "m1")
        ["E2"; "Ned Owen"; "Driver"; "D1"; "2025-01-02"; "-1e3"; "ned@company.com";
         "555-0102"])).2)
  = <["E2" := Employee.init "E2" "Ned Owen" "Driver" "D1" "2025-01-02" (-1000)%float
                "ned@company.com" "555-0102"]> (employees (Example.system (Some "m1"))).
Proof.
  apply (add_employee_accepts_any_salary
           (Example.world (Some "m1")
              ["E2"; "Ned Owen"; "Driver"; "D1"; "2025-01-02"; "-1e3";
               "ned@company.com"; "555-0102"])
           "E2" "Ned Owen" "Driver" "D1" "2025-01-02" "-1e3" "ned@company.com"
           "555-0102" [] Example.D1 (-1000)%float);
    vm_compute; eauto.
Defined.

(** A negative salary is not refused: the admin adds employee E2 with the
    salary "-5000"; the operation reports success, E2 is in the Employee
    collection with a salary below zero, and department D1 lists E2. *)
Lemma add_employee_negative_salary_created :
  role_in ["admin"; "manager"]
    (Py.self (Example.world (Some "admin")
       ["E2"; "Ned Owen"; "Driver"; "D1"; "2025-01-02"; "-5000"; "ned@company.com";
        "555-0102"])) = true
  /\ outcome_of (add_employee (Example.world (Some "admin")
       ["E2"; "Ned Owen"; "Driver"; "D1"; "2025-01-02"; "-5000"; "ned@company.com";
        "555-0102"])).2 = Success
  /\ Employee.salary <$> employees (Py.self (add_employee (Example.world (Some "admin")
       ["E2"; "Ned Owen"; "Driver"; "D1"; "2025-01-02"; "-5000"; "ned@company.com";
        "555-0102"])).2) !! "E2" = Some (-5000)%float
  /\ PrimFloat.ltb (-5000) 0 = true
  /\ employees (Py.self (Example.world (Some "admin") [])) !! "E2" = None
  /\ Department.employees <$> departments (Py.self (add_employee (Example.world (Some "admin")
       ["E2"; "Ned Owen"; "Driver"; "D1"; "2025-01-02"; "-5000"; "ned@company.com";
        "555-0102"])).2) !! "D1" = Some ["E1"; "E2"].
Proof. vm_compute. repeat split. Qed.

(** ** Updating the status of a task *)

(** C3, as the program has it: the status typed is lowered before it is
    checked.  The operation asks for the task and the status once somebody
    is logged in; for an existing task and every status text whose
    lower-case form is none of pending, in_progress, completed, cancelled,
    the call returns with [ValidationError] and leaves the object (the task
    and everything else) and the files as they were. *)
Theorem update_task_status_invalid_rejected (w : Py.World AdminSystem.t)
    user task_id s rest task :
  current (Py.self w) = Some user ->
  Py.stdin w = task_id :: s :: rest ->
  tasks (Py.self w) !! task_id = Some task ->
  Builtins.lower s ∉ ["pending"; "in_progress"; "completed"; "cancelled"] ->
  (update_task_status w).1 = Py.Ok tt /\
  unchanged w (update_task_status w).2 /\
  outcome_of (update_task_status w).2 = Failure ValidationError.
Proof.
  intros Hu Hin Ht Hs. destruct w as [sy d i o c t]. cbn in Hu, Hin, Ht. subst i.
  unfold update_task_status. run. rewrite Hu. run. rewrite Ht. run.
  rewrite (bool_decide_eq_true_2 _ Hs). run.
  repeat split. by rewrite outcome_of_snoc.
Qed.

Lemma update_task_status_invalid_rejected_witness :
  outcome_of (update_task_status (Example.world (Some "sam") ["T1"; "bogus"])).2
  = Failure ValidationError
  /\ tasks (Py.self (update_task_status (Example.world (Some "sam") ["T1"; "bogus"])).2)
       !! "T1" = Some Example.T1.
Proof.
  destruct (update_task_status_invalid_rejected
              (Example.world (Some "sam") ["T1"; "bogus"])
              Example.sam "T1" "bogus" [] Example.T1)
    as (_ & [Hself _] & Hout);
    [by vm_compute | by vm_compute | by vm_compute
    | compute_done |].
  split; [exact Hout|]. rewrite Hself. by vm_compute.
Defined.

(** A status outside the four strings can be accepted: "COMPLETED" is
    none of them, yet typed by the logged-in [sam] for the pending task T1
    it is accepted: the operation reports success and T1 ends completed,
    with a completion timestamp. *)
Lemma update_task_status_uppercase_accepted :
  bool_decide ("COMPLETED" ∈ ["pending"; "in_progress"; "completed"; "cancelled"])
  = false
  /\ Task.status <$> tasks (Py.self (Example.world (Some "sam") [])) !! "T1"
     = Some "pending"
  /\ outcome_of (update_task_status
       (Example.world (Some "sam") ["T1"; "COMPLETED"; ""])).2 = Success
  /\ Task.status <$> tasks (Py.self (update_task_status
       (Example.world (Some "sam") ["T1"; "COMPLETED"; ""])).2) !! "T1"
     = Some "completed"
  /\ Datetime.isoformat
       <$> (tasks (Py.self (update_task_status
              (Example.world (Some "sam") ["T1"; "COMPLETED"; ""])).2) !! "T1"
            ≫= Task.completed_at)
     = Some "2025-01-06T09:00:02".
Proof. vm_compute. repeat split. Qed.

(** C4: for a logged-in caller and an existing task, an update to
    "completed" (the status typed, lowered, is "completed") returns,
    reports success, and leaves the task with status "completed" and with
    [completed_at] set to a reading of the clock taken during the call (the
    second one: [Task.update_status] sets it and the operation sets it
    again), hence not null. *)
Theorem update_task_status_completed_sets_timestamp (w : Py.World AdminSystem.t)
    user task_id s comment rest task :
  current (Py.self w) = Some user ->
  Py.stdin w = task_id :: s :: comment :: rest ->
  tasks (Py.self w) !! task_id = Some task ->
  Builtins.lower s = "completed" ->
  (update_task_status w).1 = Py.Ok tt /\
  outcome_of (update_task_status w).2 = Success /\
  exists task',
    tasks (Py.self (update_task_status w).2) !! task_id = Some task' /\
    Task.status task' = "completed" /\
    Task.completed_at task' = Some (Py.clock w (S (Py.ticks w))).
Proof.
  intros Hu Hin Ht Hs. destruct w as [sy d i o c t]. cbn in Hu, Hin, Ht. subst i.
  unfold update_task_status. run. rewrite Hu. run. rewrite Ht. run.
  rewrite Hs. exec. rewrite Ht. exec.
  destruct (String.eqb_spec comment ""); exec;
    (split; [done|]; split; [by rewrite outcome_of_snoc|];
     eexists; split; [reflexivity|]; done).
Qed.

Lemma update_task_status_completed_witness :
  exists task',
    tasks (Py.self (update_task_status
      (Example.world (Some "sam") ["T1"; "completed"; "sent to Mia"])).2) !! "T1"
    = Some task' /\
    Task.status task' = "completed" /\
    Task.completed_at task' = Some Example.t2.
Proof.
  apply (update_task_status_completed_sets_timestamp
           (Example.world (Some "sam") ["T1"; "completed"; "sent to Mia"])
           Example.sam "T1" "completed" "sent to Mia" [] Example.T1);
    by vm_compute.
Defined.

(** C5: for a logged-in caller and an existing task whose [completed_at]
    is set, an update to pending, in_progress or cancelled (the status
    typed, lowered) returns, reports success, sets the status, and leaves
    [completed_at] at the value it had. *)
Theorem update_task_status_keeps_timestamp (w : Py.World AdminSystem.t)
    user task_id s comment rest task stamp :
  current (Py.self w) = Some user ->
  Py.stdin w = task_id :: s :: comment :: rest ->
  tasks (Py.self w) !! task_id = Some task ->
  Task.completed_at task = Some stamp ->
  Builtins.lower s ∈ ["pending"; "in_progress"; "cancelled"] ->
  (update_task_status w).1 = Py.Ok tt /\
  outcome_of (update_task_status w).2 = Success /\
  exists task',
    tasks (Py.self (update_task_status w).2) !! task_id = Some task' /\
    Task.status task' = Builtins.lower s /\
    Task.completed_at task' = Some stamp.
Proof.
  intros Hu Hin Ht Hc Hs. destruct w as [sy d i o c t]. cbn in Hu, Hin, Ht. subst i.
  unfold update_task_status. run. rewrite Hu. run. rewrite Ht. run.
  apply elem_of_cons in Hs as [Hs|Hs]; [|apply elem_of_cons in Hs as [Hs|Hs]];
    [| |apply list_elem_of_singleton in Hs];
    rewrite Hs; exec; rewrite Ht; exec;
    destruct (String.eqb_spec comment ""); exec;
    (split; [done|]; split; [by rewrite outcome_of_snoc|];
     eexists; split; [reflexivity|]; done).
Qed.

Lemma update_task_status_keeps_timestamp_witness :
  exists task',
    tasks (Py.self (update_task_status
      (Example.world (Some "sam") ["T2"; "in_progress"; ""])).2) !! "T2"
    = Some task' /\
    Task.status task' = "in_progress" /\
    Task.completed_at task' = Some Example.t0.
Proof.
  assert (Hs : Builtins.lower "in_progress" ∈ ["pending"; "in_progress"; "cancelled"])
    by compute_done.
  exact (proj2 (proj2 (update_task_status_keeps_timestamp
                         (Example.world (Some "sam") ["T2"; "in_progress"; ""])
                         Example.sam "T2" "in_progress" "" [] Example.T2 Example.t0
                         eq_refl eq_refl eq_refl eq_refl Hs))).
Defined.

(** ** Digests *)

(** [hashlib.sha256(...).hexdigest()] is a text of 64 hexadecimal digits,
    whatever the password; there are more passwords than such texts, so
    two passwords have the same digest. *)
Lemma hex_strings_S n s :
  s ∈ SHA256.hex_strings (S n)
  <-> exists c s', s = String c s' /\ c ∈ SHA256.hex_chars /\ s' ∈ SHA256.hex_strings n.
Proof.
  cbn [SHA256.hex_strings]. rewrite list_elem_of_bind. split.
  - intros (c & Hs & Hc). apply list_elem_of_fmap in Hs as (s' & -> & Hs'). by exists c, s'.
  - intros (c & s' & -> & Hc & Hs'). exists c. split; [|done].
    apply list_elem_of_fmap. by exists s'.
Qed.

Lemma hex_strings_length n :
  length (SHA256.hex_strings (S n)) = 16 * length (SHA256.hex_strings n).
Proof.
  cbn [SHA256.hex_strings SHA256.hex_chars list_ascii_of_string mbind list_bind].
  rewrite !length_app, !length_fmap. cbn [length]. lia.
Qed.

Lemma hex_strings_NoDup n : NoDup (SHA256.hex_strings n).
Proof.
  induction n as [|n IH]; [apply NoDup_singleton|].
  cbn [SHA256.hex_strings]. apply NoDup_bind.
  - intros c1 c2 s _ _ H1 H2.
    apply list_elem_of_fmap in H1 as (s1 & -> & _).
    apply list_elem_of_fmap in H2 as (s2 & [= -> _] & _). done.
  - intros c _. apply NoDup_fmap_2; [|done]. by intros s1 s2 [= ->].
  - compute_done.
Qed.

Lemma hex_strings_app n1 n2 s1 s2 :
  s1 ∈ SHA256.hex_strings n1 -> s2 ∈ SHA256.hex_strings n2 -> s1 ++ s2 ∈ SHA256.hex_strings (n1 + n2).
Proof.
  revert s1. induction n1 as [|n1 IH]; intros s1 H1 H2.
  - apply list_elem_of_singleton in H1 as ->. done.
  - apply hex_strings_S in H1 as (c & s' & -> & Hc & Hs').
    cbn [Nat.add]. apply hex_strings_S. exists c, (s' ++ s2). split; [done|].
    split; [done|]. by apply IH.
Qed.

Lemma hex_digit_char (x : Z) : SHA256.hex_digit (Z.land x 15) ∈ SHA256.hex_chars.
Proof.
  assert (H : (0 <= Z.land x 15 < 16)%Z).
  { change 15%Z with (Z.ones 4). rewrite Z.land_ones by lia. apply Z.mod_pos_bound. lia. }
  set (v := Z.land x 15) in *.
  assert (Hv : v ∈ [0; 1; 2; 3; 4; 5; 6; 7; 8; 9; 10; 11; 12; 13; 14; 15]%Z).
  { assert (Hn : v = Z.of_nat (Z.to_nat v)) by lia. rewrite Hn.
    assert (Hlt : (Z.to_nat v < 16)%nat) by lia.
    generalize dependent (Z.to_nat v). intros n _ Hlt.
    do 16 (destruct n as [|n]; [compute_done|]). lia. }
  repeat (apply elem_of_cons in Hv as [->|Hv]; [compute_done|]).
  by apply elem_of_nil in Hv.
Qed.

Lemma hex_of_word_chars (w : Z) : SHA256.hex_of_word w ∈ SHA256.hex_strings 8.
Proof.
  unfold SHA256.hex_of_word. cbn [seq map string_of_list_ascii].
  repeat (apply hex_strings_S; eexists _, _; split; [reflexivity|];
          split; [apply hex_digit_char|]).
  by apply list_elem_of_singleton.
Qed.

Lemma digest_length (msg : list Z) : length (SHA256.digest msg) = 8%nat.
Proof.
  unfold SHA256.digest.
  generalize (SHA256.blocks (length (SHA256.words_of_bytes (SHA256.pad msg)))
                (SHA256.words_of_bytes (SHA256.pad msg))).
  intros bs. assert (H0 : length SHA256.H0 = 8%nat) by reflexivity.
  revert H0. generalize SHA256.H0. induction bs as [|b bs IH]; intros h Hh; [done|].
  cbn [fold_left]. by apply IH.
Qed.

Lemma hexdigest_chars (s : string) : SHA256.hexdigest s ∈ SHA256.hex_strings 64.
Proof.
  unfold SHA256.hexdigest. pose proof (digest_length (SHA256.bytes_of_string s)) as Hl.
  destruct (SHA256.digest _) as [|w1 [|w2 [|w3 [|w4 [|w5 [|w6 [|w7 [|w8 [|]]]]]]]]];
    try discriminate Hl.
  cbn [map String.concat]. rewrite !append_empty.
  change 64 with (8 + (8 + (8 + (8 + (8 + (8 + (8 + 8))))))).
  repeat (apply hex_strings_app; [apply hex_of_word_chars|]).
  apply hex_of_word_chars.
Qed.

Lemma collision {A B} `{EqDecision A, EqDecision B} (f : A -> B) (l : list A) :
  NoDup l -> ~ NoDup (f <$> l) ->
  exists x y, x ∈ l /\ y ∈ l /\ x <> y /\ f x = f y.
Proof.
  induction 1 as [|a l Ha Hl IH]; intros Hf.
  - destruct Hf. constructor.
  - destruct (decide (f a ∈ f <$> l)) as [Hin|Hout].
    + apply list_elem_of_fmap in Hin as (y & Hy & Hin).
      exists a, y. split; [by left|]. split; [by right|]. split; [|done].
      intros ->. done.
    + destruct IH as (x & y & Hx & Hy & Hne & Heq).
      { intros Hnd. apply Hf. cbn. by constructor. }
      exists x, y. split; [by right|]. split; [by right|]. done.
Qed.

Lemma pigeonhole {A B} `{EqDecision A, EqDecision B} (f : A -> B) (l : list A)
    (l' : list B) :
  NoDup l -> (forall x, x ∈ l -> f x ∈ l') -> length l' < length l ->
  exists x y, x ∈ l /\ y ∈ l /\ x <> y /\ f x = f y.
Proof.
  intros Hl Hf Hlen. apply collision; [done|]. intros Hnd.
  assert (Hsub : f <$> l ⊆+ l').
  { apply NoDup_submseteq; [done|]. intros y Hy.
    apply list_elem_of_fmap in Hy as (x & -> & Hx). by apply Hf. }
  apply submseteq_length in Hsub. rewrite length_fmap in Hsub. lia.
Qed.

Lemma hash_password_collides :
  exists p q, q <> p /\ User.hash_password q = User.hash_password p.
Proof.
  destruct (pigeonhole User.hash_password (SHA256.hex_strings 65) (SHA256.hex_strings 64))
    as (p & q & _ & _ & Hne & Heq).
  - apply hex_strings_NoDup.
  - intros p _. apply hexdigest_chars.
  - rewrite (hex_strings_length 64).
    assert (0 < length (SHA256.hex_strings 64)); [|lia].
    generalize 64. intros n. induction n as [|n IH]; [cbn; lia|].
    rewrite hex_strings_length. lia.
  - exists p, q. split; [by apply not_eq_sym|done].
Qed.

(** ** Logging in *)

Lemma create_user_stores (w : Py.World AdminSystem.t)
    u p role full_name email rest :
  role_in ["admin"] (Py.self w) = true ->
  Py.stdin w = u :: p :: p :: role :: full_name :: email :: rest ->
  users (Py.self w) !! u = None ->
  Builtins.lower role ∈ ["admin"; "manager"; "staff"] ->
  (create_user w).1 = Py.Ok tt /\
  outcome_of (create_user w).2 = Success /\
  users (Py.self (create_user w).2)
  = <[u := User.init u (User.hash_password p) (Builtins.lower role) full_name email]>
      (users (Py.self w)).
Proof.
  intros Hr Hin Hu Hrole.
  split; [|split].
  all: destruct w as [sy d i o c t]; cbn in Hr, Hin, Hu; subst i;
       unfold create_user; run; rewrite Hr; run; unfold contains; rewrite Hu; exec;
       rewrite String.eqb_refl; exec;
       rewrite bool_decide_eq_false_2 by (intros X; by apply X); exec.
  - done.
  - apply outcome_of_success; [discriminate|reflexivity].
  - done.
Qed.

Lemma login_accepts (w : Py.World AdminSystem.t) u q account rest :
  users (Py.self w) !! u = Some account ->
  User.password_hash account = User.hash_password q ->
  User.is_active account = true ->
  Py.stdin w = u :: q :: rest ->
  (login w).1 = Py.Ok true
  /\ current_user (Py.self (login w).2) = Some u
  /\ users (Py.self (login w).2)
     = <[u := User.set_last_login (Some (Py.clock w (Py.ticks w))) account]>
         (users (Py.self w)).
Proof.
  destruct w as [sy d i o c t]. cbn [Py.self Py.stdin Py.clock Py.ticks].
  intros Ha Hh Hact ->.
  unfold login. run. rewrite Ha. run. unfold User.verify_password.
  rewrite Hh, String.eqb_refl, Hact. by exec.
Qed.

(** C6, as the program has it: an admin creates the account [u] with
    password [p] (a user name not yet in use, the password typed twice, a
    role that lowers to one of the three): the account is stored, active,
    with the digest of [p] and no login yet.  Then, in every later world
    in which the account is still active and still holds that digest (the
    password has not been changed), [login] with [u] and [p] returns
    [True], makes [u] the current user and sets the account's [last_login]
    to the clock reading taken by that login, the rest of the account as it
    was; and [login] with [u] and any password whose SHA-256 digest differs
    from that of [p] returns [False], answers [AuthError] and changes
    nothing.  The program keeps and compares digests only. *)
Theorem login_after_create_user (w : Py.World AdminSystem.t)
    u p role full_name email rest :
  role_in ["admin"] (Py.self w) = true ->
  Py.stdin w = u :: p :: p :: role :: full_name :: email :: rest ->
  users (Py.self w) !! u = None ->
  Builtins.lower role ∈ ["admin"; "manager"; "staff"] ->
  (create_user w).1 = Py.Ok tt /\
  outcome_of (create_user w).2 = Success /\
  users (Py.self (create_user w).2)
  = <[u := User.init u (User.hash_password p) (Builtins.lower role) full_name email]>
      (users (Py.self w)) /\
  (exists created,
     users (Py.self (create_user w).2) !! u = Some created
     /\ User.password_hash created = User.hash_password p
     /\ User.is_active created = true
     /\ User.last_login created = None) /\
  forall (w' : Py.World AdminSystem.t) account,
    users (Py.self w') !! u = Some account ->
    User.password_hash account = User.hash_password p ->
    User.is_active account = true ->
    (forall rest',
       Py.stdin w' = u :: p :: rest' ->
       (login w').1 = Py.Ok true /\
       current (Py.self (login w').2)
       = Some (User.set_last_login (Some (Py.clock w' (Py.ticks w'))) account) /\
       current_user (Py.self (login w').2) = Some u /\
       exists account',
         users (Py.self (login w').2) !! u = Some account'
         /\ User.last_login account' = Some (Py.clock w' (Py.ticks w'))
         /\ User.password_hash account' = User.password_hash account
         /\ same_user account account')
    /\
    (forall q rest',
       User.hash_password q <> User.hash_password p ->
       Py.stdin w' = u :: q :: rest' ->
       (login w').1 = Py.Ok false /\
       unchanged w' (login w').2 /\
       outcome_of (login w').2 = Failure AuthError).
Proof.
  intros Hr Hin Hu Hrole.
  destruct (create_user_stores w u p role full_name email rest Hr Hin Hu Hrole)
    as (Hok & Hout & Hnew).
  split; [done|]. split; [done|]. split; [done|]. split.
  - eexists. rewrite Hnew, lookup_insert_eq. by repeat split.
  - intros w' account Ha Hh Hact. split.
    + intros rest' Hin'.
      destruct (login_accepts w' u p account rest' Ha Hh Hact Hin')
        as (Hlog & Hcur & Hus).
      split; [done|].
      split; [unfold current; rewrite Hcur, Hus; cbn; by rewrite lookup_insert_eq|].
      split; [done|]. rewrite Hus, lookup_insert_eq.
      eexists. split; [reflexivity|]. by repeat split.
    + destruct w' as [sy d i o c t]. cbn in Ha.
      intros q rest' Hq Hin'. cbn in Hin'. subst i.
      unfold login. run. rewrite Ha. run. unfold User.verify_password.
      rewrite Hh.
      destruct (String.eqb_spec (User.hash_password p) (User.hash_password q))
        as [E|_]; [by destruct Hq|].
      run. repeat split. by rewrite outcome_of_snoc.
Qed.

Lemma login_after_create_user_witness :
  users (Py.self (create_user
    (Example.world (Some "admin")
       ["kim"; "s3cret"; "s3cret"; "Staff"; "Kim Lee"; "kim@company.com"])).2)
  = <["kim" := Example.kim]> (users (Example.system (Some "admin")))
  /\ (login (Example.later ["kim"; "s3cret"])).1 = Py.Ok true
  /\ (exists account',
        users (Py.self (login (Example.later ["kim"; "s3cret"])).2) !! "kim"
        = Some account'
        /\ User.last_login account' = Some Example.t1)
  /\ (login (Example.later ["kim"; "S3cret"])).1 = Py.Ok false.
Proof.
  assert (Hadmin : role_in ["admin"]
            (Py.self (Example.world (Some "admin")
               ["kim"; "s3cret"; "s3cret"; "Staff"; "Kim Lee"; "kim@company.com"]))
          = true) by (vm_compute; reflexivity).
  assert (Hrole : Builtins.lower "Staff" ∈ ["admin"; "manager"; "staff"])
    by compute_done.
  assert (Hother : User.hash_password "S3cret" <> User.hash_password "s3cret").
  { intros E. apply String.eqb_eq in E. vm_compute in E. discriminate. }
  pose proof (login_after_create_user
                (Example.world (Some "admin")
                   ["kim"; "s3cret"; "s3cret"; "Staff"; "Kim Lee"; "kim@company.com"])
                "kim" "s3cret" "Staff" "Kim Lee" "kim@company.com" []
                Hadmin eq_refl eq_refl Hrole)
    as (_ & _ & Hcreated & _ & Hlogin).
  split; [exact Hcreated|].
  destruct (proj1 (Hlogin (Example.later ["kim"; "s3cret"]) Example.kim
                     eq_refl eq_refl eq_refl) [] eq_refl)
    as (Hok & _ & _ & account' & Ha & Hl & _).
  split; [exact Hok|]. split; [exists account'; exact (conj Ha Hl)|].
  exact (proj1 (proj2 (Hlogin (Example.later ["kim"; "S3cret"]) Example.kim
                         eq_refl eq_refl eq_refl) "S3cret" [] Hother eq_refl)).
Defined.

(** The claim does not hold as it is stated, for two reasons.  The
    password may have been changed: the admin creates [kim] with the
    password "s3cret" and [kim] logs in with it, then changes it to "n3w";
    the account is still active, yet [login] with "s3cret" now answers
    [AuthError], and [login] with "n3w", another password than the one the
    account was created with, returns [True].  And the program compares
    digests: two different passwords have the same digest, and an account
    created with one is logged into with the other. *)
Lemma login_after_password_change :
  (login (Example.resume None ["kim"; "s3cret"] Example.created)).1 = Py.Ok true
  /\ User.is_active <$> users (Py.self Example.changed) !! "kim" = Some true
  /\ (login (Example.resume None ["kim"; "s3cret"] Example.changed)).1 = Py.Ok false
  /\ outcome_of (login (Example.resume None ["kim"; "s3cret"] Example.changed)).2
     = Failure AuthError
  /\ (login (Example.resume None ["kim"; "n3w"] Example.changed)).1 = Py.Ok true
  /\ exists p q,
       q <> p
       /\ (login (Example.resume None ["kim"; q]
                    (create_user
                       (Example.world (Some "admin")
                          ["kim"; p; p; "Staff"; "Kim Lee"; "kim@company.com"])).2)).1
          = Py.Ok true.
Proof.
  split; [by vm_compute|]. split; [by vm_compute|]. split; [by vm_compute|].
  split; [by vm_compute|]. split; [by vm_compute|].
  destruct hash_password_collides as (p & q & Hne & Heq).
  exists p, q. split; [done|].
  assert (Hrole : Builtins.lower "Staff" ∈ ["admin"; "manager"; "staff"])
    by compute_done.
  destruct (create_user_stores
              (Example.world (Some "admin")
                 ["kim"; p; p; "Staff"; "Kim Lee"; "kim@company.com"])
              "kim" p "Staff" "Kim Lee" "kim@company.com" []
              eq_refl eq_refl eq_refl Hrole) as (_ & _ & Hnew).
  set (w := (create_user _).2) in *.
  refine (proj1 (login_accepts (Example.resume None ["kim"; q] w) "kim" q
                   (User.init "kim" (User.hash_password p) (Builtins.lower "Staff")
                      "Kim Lee" "kim@company.com") [] _ _ eq_refl eq_refl)).
  - cbn [Example.resume Py.self users set_current_user]. rewrite Hnew.
    apply lookup_insert_eq.
  - by rewrite Heq.
Qed.

(** ** Saving and loading *)

(** C7: for each of the four classes, [from_dict] of the [to_dict] of an
    entity returns that entity, field for field; and for a dictionary of
    entities keyed by their identifiers, as every collection of the system
    is, [_save_data] to a file followed by [_load_data] from that file
    returns the dictionary that was saved. *)
Theorem to_dict_from_dict_round_trip :
  (forall u : User.t, User.from_dict (User.to_dict u) = Some u) /\
  (forall d : Department.t, Department.from_dict (Department.to_dict d) = Some d) /\
  (forall e : Employee.t, Employee.from_dict (Employee.to_dict e) = Some e) /\
  (forall k : Task.t, Task.from_dict (Task.to_dict k) = Some k) /\
  (forall filename (w : Py.World AdminSystem.t) (d : gmap string User.t),
     keyed User.username d ->
     ((_save_data filename (Dict d) ;;; _load_data filename User.t) w).1 = Py.Ok d) /\
  (forall filename (w : Py.World AdminSystem.t) (d : gmap string Department.t),
     keyed Department.dept_id d ->
     ((_save_data filename (Dict d) ;;; _load_data filename Department.t) w).1
     = Py.Ok d) /\
  (forall filename (w : Py.World AdminSystem.t) (d : gmap string Employee.t),
     keyed Employee.emp_id d ->
     ((_save_data filename (Dict d) ;;; _load_data filename Employee.t) w).1
     = Py.Ok d) /\
  (forall filename (w : Py.World AdminSystem.t) (d : gmap string Task.t),
     keyed Task.task_id d ->
     ((_save_data filename (Dict d) ;;; _load_data filename Task.t) w).1 = Py.Ok d).
Proof.
  split; [exact User_from_to|]. split; [exact Department_from_to|].
  split; [exact Employee_from_to|]. split; [exact Task_from_to|].
  split; [|split; [|split]]; intros filename w d Hk.
  - apply (save_then_load (EA:=User_entity) User.username User_from_to); [|done].
    intros e. by destruct e.
  - apply (save_then_load (EA:=Department_entity) Department.dept_id Department_from_to); [|done].
    intros e. by destruct e.
  - apply (save_then_load (EA:=Employee_entity) Employee.emp_id Employee_from_to); [|done].
    intros e. by destruct e.
  - apply (save_then_load (EA:=Task_entity) Task.task_id Task_from_to); [|done].
    intros e. by destruct e.
Qed.

Lemma to_dict_from_dict_round_trip_witness :
  Task.from_dict (Task.to_dict Example.T2) = Some Example.T2
  /\ ((_save_data Py.USERS_FILE (Dict (users (Example.system None))) ;;;
       _load_data Py.USERS_FILE User.t) (Example.world None [])).1
     = Py.Ok (users (Example.system None))
  /\ ((_save_data Py.TASKS_FILE (Dict (tasks (Example.system None))) ;;;
       _load_data Py.TASKS_FILE Task.t) (Example.world None [])).1
     = Py.Ok (tasks (Example.system None)).
Proof.
  assert (Hu : keyed User.username (users (Example.system None))) by compute_done.
  assert (Hk : keyed Task.task_id (tasks (Example.system None))) by compute_done.
  pose proof to_dict_from_dict_round_trip as (_ & _ & _ & HT & HU & _ & _ & HK).
  split; [exact (HT Example.T2)|]. split.
  - exact (HU Py.USERS_FILE (Example.world None []) _ Hu).
  - exact (HK Py.TASKS_FILE (Example.world None []) _ Hk).
Defined.

(** ** Creating what exists already *)

(** C8: each of the four creation operations asks for the identifier
    once the caller has passed its check of the session (admin for users
    and departments, admin or manager for employees, anybody logged in for
    tasks).  Given an identifier that is already in its collection, the
    operation then returns with [DuplicateIdError]; and, whoever calls, it
    leaves the object (the existing entity and every collection, the log,
    the session) and the files as they were. *)
Theorem create_with_existing_id_rejected :
  (forall (w : Py.World AdminSystem.t) username rest,
     Py.stdin w = username :: rest ->
     is_Some (users (Py.self w) !! username) ->
     unchanged w (create_user w).2 /\
     (role_in ["admin"] (Py.self w) = true ->
      (create_user w).1 = Py.Ok tt /\
      outcome_of (create_user w).2 = Failure DuplicateIdError))
  /\
  (forall (w : Py.World AdminSystem.t) dept_id rest,
     Py.stdin w = dept_id :: rest ->
     is_Some (departments (Py.self w) !! dept_id) ->
     unchanged w (create_department w).2 /\
     (role_in ["admin"] (Py.self w) = true ->
      (create_department w).1 = Py.Ok tt /\
      outcome_of (create_department w).2 = Failure DuplicateIdError))
  /\
  (forall (w : Py.World AdminSystem.t) emp_id rest,
     Py.stdin w = emp_id :: rest ->
     is_Some (employees (Py.self w) !! emp_id) ->
     unchanged w (add_employee w).2 /\
     (role_in ["admin"; "manager"] (Py.self w) = true ->
      (add_employee w).1 = Py.Ok tt /\
      outcome_of (add_employee w).2 = Failure DuplicateIdError))
  /\
  (forall (w : Py.World AdminSystem.t) task_id rest,
     Py.stdin w = task_id :: rest ->
     is_Some (tasks (Py.self w) !! task_id) ->
     unchanged w (create_task w).2 /\
     (logged_in (Py.self w) = true ->
      (create_task w).1 = Py.Ok tt /\
      outcome_of (create_task w).2 = Failure DuplicateIdError)).
Proof.
  refine (conj _ (conj _ (conj _ _)));
    intros [sy d i o c t] id rest Hin [x Hx]; cbn in Hin, Hx; subst i.
  - unfold create_user. run. destruct (role_in ["admin"] sy); run.
    + unfold contains. rewrite Hx. run. repeat split. by rewrite outcome_of_snoc.
    + repeat split; discriminate.
  - unfold create_department. run. destruct (role_in ["admin"] sy); run.
    + unfold contains. rewrite Hx. run. repeat split. by rewrite outcome_of_snoc.
    + repeat split; discriminate.
  - unfold add_employee. run. destruct (role_in ["admin"; "manager"] sy); run.
    + unfold contains. rewrite Hx. run. repeat split. by rewrite outcome_of_snoc.
    + repeat split; discriminate.
  - unfold create_task, logged_in. run. destruct (current sy); run.
    + unfold contains. rewrite Hx. run. repeat split. by rewrite outcome_of_snoc.
    + repeat split; discriminate.
Qed.

Lemma create_with_existing_id_rejected_witness :
  outcome_of (create_user (Example.world (Some "admin") ["sam"])).2
  = Failure DuplicateIdError
  /\ outcome_of (create_department (Example.world (Some "admin") ["D1"])).2
     = Failure DuplicateIdError
  /\ outcome_of (add_employee (Example.world (Some "m1") ["E1"])).2
     = Failure DuplicateIdError
  /\ outcome_of (create_task (Example.world (Some "sam") ["T1"])).2
     = Failure DuplicateIdError
  /\ unchanged (Example.world (Some "sam") ["T1"])
       (create_task (Example.world (Some "sam") ["T1"])).2.
Proof.
  pose proof create_with_existing_id_rejected as (HU & HD & HE & HT).
  split; [|split; [|split; [|split]]].
  - exact (proj2 (proj2 (HU (Example.world (Some "admin") ["sam"]) "sam" []
                           eq_refl (ex_intro _ Example.sam eq_refl)) eq_refl)).
  - exact (proj2 (proj2 (HD (Example.world (Some "admin") ["D1"]) "D1" []
                           eq_refl (ex_intro _ Example.D1 eq_refl)) eq_refl)).
  - exact (proj2 (proj2 (HE (Example.world (Some "m1") ["E1"]) "E1" []
                           eq_refl (ex_intro _ Example.E1 eq_refl)) eq_refl)).
  - exact (proj2 (proj2 (HT (Example.world (Some "sam") ["T1"]) "T1" []
                           eq_refl (ex_intro _ Example.T1 eq_refl)) eq_refl)).
  - exact (proj1 (HT (Example.world (Some "sam") ["T1"]) "T1" []
                    eq_refl (ex_intro _ Example.T1 eq_refl))).
Defined.

(** C9: [add_employee] by an admin or a manager asks for the department
    once the employee id has been found free.  With a department id that is
    not in the Department collection the call then returns with
    [NotFoundError]; and, the employee id free or not, it leaves the object
    (the Employee collection, every department and its employee list, the
    log) and the files as they were: no employee is created. *)
Theorem add_employee_unknown_department (w : Py.World AdminSystem.t)
    emp_id full_name position department rest :
  role_in ["admin"; "manager"] (Py.self w) = true ->
  Py.stdin w = emp_id :: full_name :: position :: department :: rest ->
  departments (Py.self w) !! department = None ->
  (add_employee w).1 = Py.Ok tt /\
  unchanged w (add_employee w).2 /\
  (employees (Py.self w) !! emp_id = None ->
   outcome_of (add_employee w).2 = Failure NotFoundError).
Proof.
  intros Hr Hin Hd. destruct w as [sy d i o c t]. cbn in Hr, Hin, Hd. subst i.
  unfold add_employee. run. rewrite Hr. run. unfold contains.
  destruct (employees sy !! emp_id) eqn:He; exec.
  - repeat split. discriminate.
  - rewrite list_departments_run. exec. rewrite Hd. exec.
    repeat split. by rewrite outcome_of_snoc.
Qed.

Lemma add_employee_unknown_department_witness :
  outcome_of (add_employee
    (Example.world (Some "m1") ["E2"; "Ned Owen"; "Driver"; "D9"])).2
  = Failure NotFoundError
  /\ unchanged (Example.world (Some "m1") ["E2"; "Ned Owen"; "Driver"; "D9"])
       (add_employee
          (Example.world (Some "m1") ["E2"; "Ned Owen"; "Driver"; "D9"])).2.
Proof.
  pose proof (add_employee_unknown_department
                (Example.world (Some "m1") ["E2"; "Ned Owen"; "Driver"; "D9"])
                "E2" "Ned Owen" "Driver" "D9" [] eq_refl eq_refl eq_refl)
    as (_ & Hsame & Hout).
  split; [exact (Hout eq_refl) | exact Hsame].
Defined.

(** ** Creating a task *)

(** C10: [create_task] asks a logged-in caller for the priority once the
    task id has been found free, the assignee found in the Employee
    collection and the due date accepted by [strptime].  A priority that,
    lowered, is none of low, medium, high is then not refused: the call
    returns and reports success, not [ValidationError], and the task is
    stored under its id with priority "medium" (status pending, assigned by
    the caller, created at the clock reading of the call). *)
Theorem create_task_invalid_priority_is_medium (w : Py.World AdminSystem.t)
    user task_id title description assigned_to due_date priority rest :
  current (Py.self w) = Some user ->
  Py.stdin w = task_id :: title :: description :: assigned_to :: due_date
                 :: priority :: rest ->
  tasks (Py.self w) !! task_id = None ->
  is_Some (employees (Py.self w) !! assigned_to) ->
  is_Some (Datetime.strptime_ymd due_date) ->
  Builtins.lower priority ∉ ["low"; "medium"; "high"] ->
  (create_task w).1 = Py.Ok tt /\
  outcome_of (create_task w).2 = Success /\
  tasks (Py.self (create_task w).2)
  = <[task_id := Task.init task_id title description assigned_to
                   (User.username user) due_date "medium"
                   (Py.clock w (Py.ticks w))]> (tasks (Py.self w)).
Proof.
  intros Hu Hin Ht [e He] [ymd Hd] Hp. destruct w as [sy d i o c t].
  cbn in Hu, Hin, Ht, He. subst i.
  unfold create_task. run. rewrite Hu. run. unfold contains. rewrite Ht. exec.
  rewrite list_employees_all_run. exec.
  rewrite He. exec. rewrite Hd. exec. rewrite (bool_decide_eq_true_2 _ Hp). exec.
  split; [done|]. split; [|done].
  apply outcome_of_success; [discriminate|reflexivity].
Qed.

Lemma create_task_invalid_priority_witness :
  outcome_of (create_task
    (Example.world (Some "sam")
       ["T3"; "Order paper"; "A4, two boxes"; "E1"; "2025-03-01"; "URGENT"])).2
  = Success
  /\ Task.priority <$> tasks (Py.self (create_task
       (Example.world (Some "sam")
          ["T3"; "Order paper"; "A4, two boxes"; "E1"; "2025-03-01"; "URGENT"])).2)
       !! "T3" = Some "medium".
Proof.
  assert (Hdate : is_Some (Datetime.strptime_ymd "2025-03-01"))
    by (vm_compute; eauto).
  assert (Hp : Builtins.lower "URGENT" ∉ ["low"; "medium"; "high"]) by compute_done.
  pose proof (create_task_invalid_priority_is_medium
                (Example.world (Some "sam")
                   ["T3"; "Order paper"; "A4, two boxes"; "E1"; "2025-03-01"; "URGENT"])
                Example.sam "T3" "Order paper" "A4, two boxes" "E1" "2025-03-01"
                "URGENT" [] eq_refl eq_refl eq_refl
                (ex_intro _ Example.E1 eq_refl) Hdate Hp)
    as (_ & Hout & Htasks).
  split; [exact Hout|]. rewrite Htasks. by rewrite lookup_insert_eq.
Defined.

(** * Further properties of the operations *)

(** ** The collections stay keyed by identifier *)

Lemma keyed_insert {A} (ident : A -> string) k e (d : gmap string A) :
  ident e = k -> keyed ident d -> keyed ident (<[k := e]> d).
Proof. intros He Hd. by apply map_Forall_insert_2. Qed.

Lemma keyed_lookup {A} (ident : A -> string) k e (d : gmap string A) :
  keyed ident d -> d !! k = Some e -> ident e = k.
Proof. intros Hd He. exact (Hd k e He). Qed.

Lemma keyed_kept (w : Py.World AdminSystem.t) :
  well_keyed (Py.self w) ->
  well_keyed (Py.self (login w).2)
  /\ well_keyed (Py.self (logout w).2)
  /\ well_keyed (Py.self (change_password w).2)
  /\ well_keyed (Py.self (create_user w).2)
  /\ well_keyed (Py.self (create_department w).2)
  /\ well_keyed (Py.self (add_employee w).2)
  /\ well_keyed (Py.self (create_task w).2)
  /\ well_keyed (Py.self (update_task_status w).2).
Proof.
  intros H. destruct w as [sy d i o c t]. cbn [Py.self] in H.
  assert (Hcur : forall key u,
             current_user sy = Some key -> current sy = Some u ->
             User.username u = key).
  { intros key u Hkey Hu. unfold current in Hu. rewrite Hkey in Hu.
    exact (keyed_lookup _ _ _ _ (proj1 H) Hu). }
  destruct H as (Hu & Hd & He & Ht).
  repeat match goal with |- well_keyed _ /\ _ => split end.
  - unfold login. crawl.
    all: unfold well_keyed; cbn; repeat split; try assumption.
    all: apply keyed_insert; [|assumption]; cbn; eauto using keyed_lookup.
  - unfold logout. crawl.
    all: unfold well_keyed; cbn; repeat split; assumption.
  - unfold change_password. crawl.
    all: unfold well_keyed; cbn; repeat split; try assumption.
    all: apply keyed_insert; [|assumption]; cbn; eauto.
  - unfold create_user. crawl.
    all: unfold well_keyed; cbn; repeat split; try assumption.
    all: apply keyed_insert; [|assumption]; reflexivity.
  - unfold create_department. crawl.
    all: unfold well_keyed; cbn; repeat split; try assumption.
    all: apply keyed_insert; [|assumption]; reflexivity.
  - unfold add_employee, Department.add_employee.
    crawl_with ltac:(rewrite ?list_departments_run).
    all: unfold well_keyed; cbn; repeat split; try assumption.
    all: apply keyed_insert; [|assumption]; cbn.
    all: try reflexivity; eauto using keyed_lookup.
  - unfold create_task. crawl_with ltac:(rewrite ?list_employees_all_run).
    all: unfold well_keyed; cbn; repeat split; try assumption.
    all: apply keyed_insert; [|assumption]; reflexivity.
  - unfold update_task_status. crawl.
    all: unfold well_keyed; cbn; repeat split; try assumption.
    all: repeat (apply keyed_insert; [|try assumption]); cbn.
    all: eauto using keyed_lookup.
Qed.

(** X1: whatever the operator types and however the operation ends (a
    message, success, an exception), each operation that writes to a
    collection leaves every collection keyed by the identifiers of its
    entities: [login] and [change_password] put the user back under its
    name, the creations store the new entity under the identifier it was
    built with, [add_employee] puts the department back under its id, and
    [update_task_status] the task under its id. *)
Theorem operations_keep_collections_keyed (w : Py.World AdminSystem.t) :
  well_keyed (Py.self w) ->
  well_keyed (Py.self (login w).2)
  /\ well_keyed (Py.self (logout w).2)
  /\ well_keyed (Py.self (change_password w).2)
  /\ well_keyed (Py.self (create_user w).2)
  /\ well_keyed (Py.self (create_department w).2)
  /\ well_keyed (Py.self (add_employee w).2)
  /\ well_keyed (Py.self (create_task w).2)
  /\ well_keyed (Py.self (update_task_status w).2).
Proof. exact (keyed_kept w). Qed.

Lemma operations_keep_collections_keyed_witness :
  well_keyed (Py.self (add_employee
    (Example.world (Some "m1")
       ["E2"; "Ned Owen"; "Driver"; "D1"; "2025-01-02"; "41000"; "ned@company.com";
        "555-0102"])).2).
Proof.
  assert (H : well_keyed (Example.system (Some "m1"))).
  { repeat split; compute_done. }
  exact (proj1 (proj2 (proj2 (proj2 (proj2 (proj2
           (operations_keep_collections_keyed
              (Example.world (Some "m1")
                 ["E2"; "Ned Owen"; "Driver"; "D1"; "2025-01-02"; "41000";
                  "ned@company.com"; "555-0102"]) H))))))).
Defined.

(** ** Denied calls *)

(** X2: a caller who does not pass an operation's check of the session
    is answered [PermissionDenied], and the call leaves the object (the
    collections, the log: the denial is not logged) and the files as they
    were: creating users and departments is for admins, adding employees
    for admins and managers, creating and updating tasks for whoever is
    logged in. *)
Theorem denied_calls_change_nothing (w : Py.World AdminSystem.t) :
  (role_in ["admin"] (Py.self w) = false ->
   (create_user w).1 = Py.Ok tt /\ unchanged w (create_user w).2
   /\ outcome_of (create_user w).2 = Failure PermissionDenied
   /\ (create_department w).1 = Py.Ok tt /\ unchanged w (create_department w).2
   /\ outcome_of (create_department w).2 = Failure PermissionDenied)
  /\
  (role_in ["admin"; "manager"] (Py.self w) = false ->
   (add_employee w).1 = Py.Ok tt /\ unchanged w (add_employee w).2
   /\ outcome_of (add_employee w).2 = Failure PermissionDenied)
  /\
  (current (Py.self w) = None ->
   (create_task w).1 = Py.Ok tt /\ unchanged w (create_task w).2
   /\ outcome_of (create_task w).2 = Failure PermissionDenied
   /\ (update_task_status w).1 = Py.Ok tt /\ unchanged w (update_task_status w).2
   /\ outcome_of (update_task_status w).2 = Failure PermissionDenied).
Proof.
  destruct w as [sy d i o c t]. cbn [Py.self].
  split; [|split]; intros H.
  - unfold create_user, create_department. run. rewrite H. run.
    repeat split; by rewrite outcome_of_snoc.
  - unfold add_employee. run. rewrite H. run.
    repeat split; by rewrite outcome_of_snoc.
  - unfold create_task, update_task_status. run. rewrite H. run.
    repeat split; by rewrite outcome_of_snoc.
Qed.

Lemma denied_calls_change_nothing_witness :
  outcome_of (create_department (Example.world (Some "sam") [])).2
  = Failure PermissionDenied
  /\ outcome_of (add_employee (Example.world (Some "sam") [])).2
     = Failure PermissionDenied
  /\ outcome_of (create_task (Example.world None [])).2
     = Failure PermissionDenied.
Proof.
  pose proof (denied_calls_change_nothing (Example.world (Some "sam") []))
    as (Hadmin & Hmanager & _).
  pose proof (denied_calls_change_nothing (Example.world None []))
    as (_ & _ & Hnobody).
  split; [|split].
  - exact (proj2 (proj2 (proj2 (proj2 (proj2 (Hadmin eq_refl)))))).
  - exact (proj2 (proj2 (Hmanager eq_refl))).
  - exact (proj1 (proj2 (proj2 (Hnobody eq_refl)))).
Defined.

(** ** Listings *)

(** X3: [list_departments] and [list_employees], with any argument,
    return and leave the object and the files as they were. *)
Theorem listings_change_nothing (w : Py.World AdminSystem.t) :
  (list_departments w).1 = Py.Ok tt
  /\ unchanged w (list_departments w).2
  /\ forall department_id,
       (list_employees department_id w).1 = Py.Ok tt
       /\ unchanged w (list_employees department_id w).2.
Proof.
  destruct w as [sy d i o c t]. rewrite list_departments_run.
  split; [done|]. split; [done|].
  intros [[|ch id]|].
  - change (list_employees (Some "")) with (list_employees None).
    by rewrite list_employees_all_run.
  - unfold list_employees. run.
    destruct (departments sy !! String ch id) as [dept|]; run; [|done].
    by rewrite print_all_run.
  - by rewrite list_employees_all_run.
Qed.

(** ** A scenario of the specification *)

(** The admin creates department D1 managed by [m1] with budget 10000;
    the staff user [sam] then tries to create a department and is denied;
    the admin then lists the departments and sees D1 with no employee. *)
Theorem scenario_create_department :
  outcome_of (create_department
    (Example.bare (Some "admin") ["D1"; "Sales"; "m1"; "Field sales"; "10000"])).2
  = Success
  /\ outcome_of (create_department
       (Example.resume (Some "sam") ["D2"; "Shadow"; "m1"; ""; "1"]
          (create_department
             (Example.bare (Some "admin")
                ["D1"; "Sales"; "m1"; "Field sales"; "10000"])).2)).2
     = Failure PermissionDenied
  /\ Py.stdout (list_departments
       (Example.resume (Some "admin") []
          (create_department
             (Example.resume (Some "sam") ["D2"; "Shadow"; "m1"; ""; "1"]
                (create_department
                   (Example.bare (Some "admin")
                      ["D1"; "Sales"; "m1"; "Field sales"; "10000"])).2)).2)).2
     = [ Py.Line (nl ++ "=== Department List ===");
         Py.Line "ID       Name                 Manager         Employees Budget         ";
         Py.DepartmentRow "D1" "Sales" "Mia Manager" 0 10000%float ].
Proof. vm_compute. repeat split. Qed.

(** ** The example installation is consistent *)

Lemma example_consistent : consistent (Example.system (Some "admin")).
Proof.
  unfold consistent, referential_integrity, valid_fields, session_valid,
    Example.system.
  cbn [current_user users departments employees tasks logs].
  refine (conj _ (conj _ (conj _ (conj _ _)))).
  - repeat split; compute_done.
  - split; [|split; [|split]].
    + intros k d Hd. apply lookup_insert_Some in Hd as [[<- <-]|[_ Hd]]; [|done].
      by exists Example.m1.
    + intros k d eid Hd Hin. apply lookup_insert_Some in Hd as [[<- <-]|[_ Hd]]; [|done].
      apply list_elem_of_singleton in Hin as ->. by exists Example.E1.
    + intros k e He. apply lookup_insert_Some in He as [[<- <-]|[_ He]]; [|done].
      exists Example.D1. split; [done|]. by apply list_elem_of_singleton.
    + intros k task Hk.
      apply lookup_insert_Some in Hk as [[<- <-]|[_ Hk]];
        [|apply lookup_insert_Some in Hk as [[<- <-]|[_ Hk]]; [|done]].
      all: split; [by exists Example.E1|by exists Example.m1].
  - split; [|split]; apply map_Forall_lookup; intros k x Hx.
    + repeat (apply lookup_insert_Some in Hx as [[<- <-]|[_ Hx]]; [compute_done|]).
      done.
    + repeat (apply lookup_insert_Some in Hx as [[<- <-]|[_ Hx]]; [by eexists|]).
      done.
    + repeat (apply lookup_insert_Some in Hx as [[<- <-]|[_ Hx]];
              [split; [compute_done|split; [compute_done|by eexists]]|]).
      done.
  - intros key [= <-]. by exists Example.admin.
  - constructor.
Qed.

Lemma example_sound : sound (Example.system (Some "admin")).
Proof. destruct example_consistent as (Hk & Hr & _). by split. Qed.

(** ** The references between the collections *)

Lemma references_user_update us ds es ks key u u' :
  us !! key = Some u -> User.role u' = User.role u ->
  references us ds es ks -> references (<[key := u']> us) ds es ks.
Proof.
  intros Hu Hrole (Hm & Hl & He & Ht). split; [|split; [|split]].
  - intros k d Hd. destruct (Hm k d Hd) as (m & Hmm & Hr).
    destruct (decide (key = Department.manager d)) as [Heq|Hne].
    + exists u'. rewrite <- Heq, lookup_insert_eq. split; [done|].
      rewrite <- Heq, Hu in Hmm. congruence.
    + exists m. by rewrite lookup_insert_ne.
  - exact Hl.
  - exact He.
  - intros k tk Hk. destruct (Ht k tk Hk) as [Ha [x Hx]]. split; [done|].
    destruct (decide (key = Task.assigned_by tk)) as [Heq|Hne].
    + rewrite <- Heq, lookup_insert_eq. eauto.
    + rewrite lookup_insert_ne by done. eauto.
Qed.

Lemma references_user_new us ds es ks key u' :
  us !! key = None ->
  references us ds es ks -> references (<[key := u']> us) ds es ks.
Proof.
  intros Hu (Hm & Hl & He & Ht). split; [|split; [|split]].
  - intros k d Hd. destruct (Hm k d Hd) as (m & Hmm & Hr).
    exists m. split; [|done]. rewrite lookup_insert_ne; [done|]. congruence.
  - exact Hl.
  - exact He.
  - intros k tk Hk. destruct (Ht k tk Hk) as [Ha [x Hx]]. split; [done|].
    rewrite lookup_insert_ne; [eauto|]. congruence.
Qed.

Lemma references_department_new us ds es ks key d m :
  ds !! key = None ->
  us !! Department.manager d = Some m -> User.role m = "manager" ->
  Department.employees d = [] ->
  references us ds es ks -> references us (<[key := d]> ds) es ks.
Proof.
  intros Hnone Hman Hrole Hemp (Hm & Hl & He & Ht). split; [|split; [|split]].
  - intros k d' Hd. apply lookup_insert_Some in Hd as [[<- <-]|[Hne Hd]]; eauto.
  - intros k d' eid Hd Hin. apply lookup_insert_Some in Hd as [[<- <-]|[Hne Hd]].
    + rewrite Hemp in Hin. by apply elem_of_nil in Hin.
    + eauto.
  - intros k e Hk. destruct (He k e Hk) as (d' & Hd' & Hin).
    exists d'. split; [|done]. rewrite lookup_insert_ne; [done|]. congruence.
  - exact Ht.
Qed.

Lemma references_employee_new us ds es ks emp_id e dept :
  es !! emp_id = None ->
  ds !! Employee.department e = Some dept ->
  references us ds es ks ->
  references us
    (<[Employee.department e := (Department.add_employee emp_id dept).1]> ds)
    (<[emp_id := e]> es) ks.
Proof.
  intros Hnone Hdept (Hm & Hl & He & Ht).
  assert (Hadd : forall x, x ∈ Department.employees (Department.add_employee emp_id dept).1
                   <-> x = emp_id \/ x ∈ Department.employees dept).
  { intros x. unfold Department.add_employee. case_bool_decide as Hdec; cbn.
    - rewrite elem_of_app, list_elem_of_singleton. tauto.
    - split; [tauto|]. intros [->|]; done. }
  assert (Hman : Department.manager (Department.add_employee emp_id dept).1
                 = Department.manager dept).
  { unfold Department.add_employee. by case_bool_decide. }
  split; [|split; [|split]].
  - intros k d' Hd. apply lookup_insert_Some in Hd as [[<- <-]|[Hne Hd]].
    + rewrite Hman. eauto.
    + eauto.
  - intros k d' eid Hd Hin. apply lookup_insert_Some in Hd as [[<- <-]|[Hne Hd]].
    + apply Hadd in Hin as [->|Hin].
      * exists e. by rewrite lookup_insert_eq.
      * destruct (Hl _ _ _ Hdept Hin) as (e' & He' & Hk).
        exists e'. split; [|done]. rewrite lookup_insert_ne; [done|]. congruence.
    + destruct (Hl _ _ _ Hd Hin) as (e' & He' & Hk).
      exists e'. split; [|done]. rewrite lookup_insert_ne; [done|]. congruence.
  - intros k e' Hk. apply lookup_insert_Some in Hk as [[<- <-]|[Hne Hk]].
    + exists (Department.add_employee emp_id dept).1. rewrite lookup_insert_eq.
      split; [done|]. apply Hadd. by left.
    + destruct (He k e' Hk) as (d' & Hd' & Hin).
      destruct (decide (Employee.department e = Employee.department e')) as [Heq|Hne'].
      * rewrite <- Heq. rewrite lookup_insert_eq. eexists. split; [done|].
        apply Hadd. right. congruence.
      * exists d'. by rewrite lookup_insert_ne.
  - intros k tk Hk. destruct (Ht k tk Hk) as [[x Hx] Hb]. split; [|done].
    destruct (decide (emp_id = Task.assigned_to tk)) as [Heq|Hne].
    + rewrite <- Heq, lookup_insert_eq. eauto.
    + rewrite lookup_insert_ne by done. eauto.
Qed.

Lemma references_task_put us ds es ks key tk :
  is_Some (es !! Task.assigned_to tk) ->
  is_Some (us !! Task.assigned_by tk) ->
  references us ds es ks -> references us ds es (<[key := tk]> ks).
Proof.
  intros Ha Hb (Hm & Hl & He & Ht). split; [|split; [|split]]; try done.
  intros k tk' Hk.
  apply lookup_insert_Some in Hk as [[<- <-]|[Hne Hk]]; [done|by apply (Ht k tk')].
Qed.

Lemma references_task (us : gmap string User.t) ds es ks key (tk : Task.t) :
  references us ds es ks -> ks !! key = Some tk ->
  is_Some (es !! Task.assigned_to tk) /\ is_Some (us !! Task.assigned_by tk).
Proof. intros (_ & _ & _ & Ht) Hk. exact (Ht key tk Hk). Qed.

Lemma contains_false {A} k (d : gmap string A) : contains k d = false -> d !! k = None.
Proof. unfold contains. by destruct (d !! k). Qed.

Lemma contains_true {A} k (d : gmap string A) : contains k d = true -> is_Some (d !! k).
Proof. unfold contains. destruct (d !! k); [eauto|done]. Qed.

Lemma references_kept (w : Py.World AdminSystem.t) :
  sound (Py.self w) ->
  referential_integrity (Py.self (login w).2)
  /\ referential_integrity (Py.self (logout w).2)
  /\ referential_integrity (Py.self (change_password w).2)
  /\ referential_integrity (Py.self (create_user w).2)
  /\ referential_integrity (Py.self (create_department w).2)
  /\ referential_integrity (Py.self (add_employee w).2)
  /\ referential_integrity (Py.self (create_task w).2)
  /\ referential_integrity (Py.self (update_task_status w).2).
Proof.
  intros [Hk H]. destruct w as [sy d i o c t]. cbn [Py.self] in *.
  assert (Hcur : forall u, current sy = Some u -> users sy !! User.username u = Some u).
  { intros u Hu. unfold current in Hu. destruct (current_user sy) as [key|]; [|done].
    cbn in Hu. by rewrite (keyed_lookup _ _ _ _ (proj1 Hk) Hu). }
  unfold referential_integrity in H.
  repeat match goal with |- referential_integrity _ /\ _ => split end.
  - unfold login. crawl. all: exec; unfold referential_integrity; cbn; try assumption.
    all: by eapply references_user_update.
  - unfold logout. crawl. all: exec; unfold referential_integrity; cbn; assumption.
  - unfold change_password. crawl. all: exec; unfold referential_integrity; cbn; try assumption.
    all: unfold current in *; simplify_option_eq.
    all: by eapply references_user_update.
  - unfold create_user. crawl. all: exec; unfold referential_integrity; cbn; try assumption.
    all: apply references_user_new; [by apply contains_false|assumption].
  - unfold create_department. crawl. all: exec; unfold referential_integrity; cbn; try assumption.
    all: eapply references_department_new; eauto using contains_false.
    all: match goal with Hn : negb (String.eqb _ _) = false |- _ =>
           apply negb_false_iff in Hn; by apply String.eqb_eq end.
  - unfold add_employee.
    crawl_with ltac:(rewrite ?list_departments_run).
    all: exec; unfold referential_integrity; cbn; try assumption.
    all: match goal with
         | Hp : Department.add_employee ?id ?dep = (?d1, _) |- _ =>
             replace d1 with (Department.add_employee id dep).1 by (by rewrite Hp)
         end.
    all: match goal with
         | |- references _ (<[?dep := _]> _) (<[?id := ?e]> _) _ =>
             change dep with (Employee.department e)
         end.
    all: apply references_employee_new; eauto using contains_false.
  - unfold create_task. crawl_with ltac:(rewrite ?list_employees_all_run).
    all: exec; unfold referential_integrity; cbn; try assumption.
    all: apply references_task_put; cbn; eauto using contains_true.
    all: match goal with Hn : negb (contains _ _) = false |- _ =>
           apply negb_false_iff in Hn; by apply contains_true end.
  - unfold update_task_status. crawl. all: exec; unfold referential_integrity; cbn; try assumption.
    all: match goal with Hs : tasks _ !! _ = Some _ |- _ =>
           destruct (references_task _ _ _ _ _ _ H Hs) end.
    all: by apply references_task_put.
Qed.

(** X4: the operations keep the references between the collections
    intact.  From a state whose collections are keyed by identifier and
    whose references lead somewhere, every operation, however it ends,
    leaves a state in which the manager of each department is a user with
    the role of a manager, each employee a department lists exists and
    names that department, each employee is listed by the department it
    names, and the assignee and the author of each task exist. *)
Theorem operations_keep_references (w : Py.World AdminSystem.t) :
  sound (Py.self w) ->
  referential_integrity (Py.self (login w).2)
  /\ referential_integrity (Py.self (logout w).2)
  /\ referential_integrity (Py.self (change_password w).2)
  /\ referential_integrity (Py.self (create_user w).2)
  /\ referential_integrity (Py.self (create_department w).2)
  /\ referential_integrity (Py.self (add_employee w).2)
  /\ referential_integrity (Py.self (create_task w).2)
  /\ referential_integrity (Py.self (update_task_status w).2).
Proof. exact (references_kept w). Qed.

Lemma operations_keep_references_witness :
  referential_integrity
    (Py.self (add_employee
       (Example.world (Some "admin")
          ["E2"; "Ned Owen"; "Driver"; "D1"; "2025-01-02"; "41000"; "ned@company.com";
           "555-0102"])).2).
Proof.
  exact (proj1 (proj2 (proj2 (proj2 (proj2 (proj2
           (operations_keep_references
              (Example.world (Some "admin")
                 ["E2"; "Ned Owen"; "Driver"; "D1"; "2025-01-02"; "41000";
                  "ned@company.com"; "555-0102"]) example_sound))))))).
Defined.
(** ** The activity log *)

Lemma appended_entry (l : list json) d user action details :
  appended l
    (l ++ [JObj [ ("timestamp", JStr (Datetime.isoformat d)); ("user", JStr user);
                  ("action", JStr action); ("details", JStr details) ]]).
Proof. right. eexists. split; [|reflexivity]. by exists d, user, action, details. Qed.

Lemma log_appended (w : Py.World AdminSystem.t) :
  appended (logs (Py.self w)) (logs (Py.self (login w).2))
  /\ appended (logs (Py.self w)) (logs (Py.self (logout w).2))
  /\ appended (logs (Py.self w)) (logs (Py.self (change_password w).2))
  /\ appended (logs (Py.self w)) (logs (Py.self (create_user w).2))
  /\ appended (logs (Py.self w)) (logs (Py.self (create_department w).2))
  /\ appended (logs (Py.self w)) (logs (Py.self (add_employee w).2))
  /\ appended (logs (Py.self w)) (logs (Py.self (create_task w).2))
  /\ appended (logs (Py.self w)) (logs (Py.self (update_task_status w).2)).
Proof.
  destruct w as [sy d i o c t]. cbn [Py.self].
  repeat match goal with |- appended _ _ /\ _ => split end.
  - unfold login. crawl. all: exec; first [by left | apply appended_entry].
  - unfold logout. crawl. all: exec; first [by left | apply appended_entry].
  - unfold change_password. crawl. all: exec; first [by left | apply appended_entry].
  - unfold create_user. crawl. all: exec; first [by left | apply appended_entry].
  - unfold create_department. crawl.
    all: exec; first [by left | apply appended_entry].
  - unfold add_employee. crawl_with ltac:(rewrite ?list_departments_run).
    all: exec; first [by left | apply appended_entry].
  - unfold create_task. crawl_with ltac:(rewrite ?list_employees_all_run).
    all: exec; first [by left | apply appended_entry].
  - unfold update_task_status. crawl.
    all: exec; first [by left | apply appended_entry].
Qed.

(** X5: the activity log only grows, by one entry at a time.  Whatever the
    operator types and however the operation ends, the log after an
    operation is the log before it, or that log with one entry added at
    its end, an object with the timestamp, the user, the action and the
    details as strings: no operation removes or changes an entry. *)
Theorem log_is_append_only (w : Py.World AdminSystem.t) :
  appended (logs (Py.self w)) (logs (Py.self (login w).2))
  /\ appended (logs (Py.self w)) (logs (Py.self (logout w).2))
  /\ appended (logs (Py.self w)) (logs (Py.self (change_password w).2))
  /\ appended (logs (Py.self w)) (logs (Py.self (create_user w).2))
  /\ appended (logs (Py.self w)) (logs (Py.self (create_department w).2))
  /\ appended (logs (Py.self w)) (logs (Py.self (add_employee w).2))
  /\ appended (logs (Py.self w)) (logs (Py.self (create_task w).2))
  /\ appended (logs (Py.self w)) (logs (Py.self (update_task_status w).2)).
Proof. exact (log_appended w). Qed.

(** ** The files *)

(** The example installation, on the files the program wrote for it. *)
Lemma installed_mirrored current_user lines :
  mirrored (Example.installed current_user lines).
Proof.
  repeat split; unfold holds; cbn [Py.disk Py.self Example.installed Example.written].
  - change (values (users (Example.system current_user)))
      with (reverse [Example.admin; Example.m1; Example.sam]).
    by rewrite fmap_reverse, reverse_Permutation.
  - reflexivity.
  - reflexivity.
  - change (values (tasks (Example.system current_user)))
      with (reverse [Example.T2; Example.T1]).
    rewrite fmap_reverse, reverse_Permutation. apply Permutation_swap.
Qed.

Lemma files_in_step (w : Py.World AdminSystem.t) :
  mirrored w ->
  (forall b, (login w).1 = Py.Ok b -> mirrored (login w).2)
  /\ ((logout w).1 = Py.Ok tt -> mirrored (logout w).2)
  /\ ((change_password w).1 = Py.Ok tt -> mirrored (change_password w).2)
  /\ ((create_user w).1 = Py.Ok tt -> mirrored (create_user w).2)
  /\ ((create_department w).1 = Py.Ok tt -> mirrored (create_department w).2)
  /\ ((add_employee w).1 = Py.Ok tt -> mirrored (add_employee w).2)
  /\ ((create_task w).1 = Py.Ok tt -> mirrored (create_task w).2)
  /\ ((update_task_status w).1 = Py.Ok tt -> mirrored (update_task_status w).2).
Proof.
  destruct w as [sy d i o c t]. intros (Hu & Hd & He & Ht & Hl).
  cbn [Py.self Py.disk] in *.
  repeat match goal with |- _ /\ _ => split end.
  - intros b. unfold login. crawl.
    all: exec; intros Hr; try discriminate Hr. all: mirror.
  - unfold logout. crawl. all: exec; intros Hr; try discriminate Hr. all: mirror.
  - unfold change_password. crawl.
    all: exec; intros Hr; try discriminate Hr. all: mirror.
  - unfold create_user. crawl. all: exec; intros Hr; try discriminate Hr. all: mirror.
  - unfold create_department. crawl.
    all: exec; intros Hr; try discriminate Hr. all: mirror.
  - unfold add_employee. crawl_with ltac:(rewrite ?list_departments_run).
    all: exec; intros Hr; try discriminate Hr. all: mirror.
  - unfold create_task. crawl_with ltac:(rewrite ?list_employees_all_run).
    all: exec; intros Hr; try discriminate Hr. all: mirror.
  - unfold update_task_status. crawl.
    all: exec; intros Hr; try discriminate Hr. all: mirror.
Qed.


Lemma nothing_written (w : Py.World AdminSystem.t) (e : Py.exn) :
  ((login w).1 = Py.Raise e -> unchanged w (login w).2)
  /\ ((logout w).1 = Py.Raise e -> unchanged w (logout w).2)
  /\ ((change_password w).1 = Py.Raise e -> unchanged w (change_password w).2)
  /\ ((create_user w).1 = Py.Raise e -> unchanged w (create_user w).2)
  /\ ((create_department w).1 = Py.Raise e -> unchanged w (create_department w).2)
  /\ ((add_employee w).1 = Py.Raise e -> unchanged w (add_employee w).2)
  /\ ((create_task w).1 = Py.Raise e -> unchanged w (create_task w).2)
  /\ ((update_task_status w).1 = Py.Raise e ->
      Py.disk (update_task_status w).2 = Py.disk w
      /\ set_tasks (tasks (Py.self w)) (Py.self (update_task_status w).2)
         = Py.self w).
Proof.
  destruct w as [sy d i o c t]. cbn [Py.self Py.disk].
  repeat match goal with |- _ /\ _ => split end.
  - unfold login. crawl. all: exec; intros Hr; try discriminate Hr; done.
  - unfold logout. crawl. all: exec; intros Hr; try discriminate Hr; done.
  - unfold change_password. crawl. all: exec; intros Hr; try discriminate Hr; done.
  - unfold create_user. crawl. all: exec; intros Hr; try discriminate Hr; done.
  - unfold create_department. crawl.
    all: exec; intros Hr; try discriminate Hr; done.
  - unfold add_employee. crawl_with ltac:(rewrite ?list_departments_run).
    all: exec; intros Hr; try discriminate Hr; done.
  - unfold create_task. crawl_with ltac:(rewrite ?list_employees_all_run).
    all: exec; intros Hr; try discriminate Hr; done.
  - unfold update_task_status. crawl.
    all: exec; intros Hr; try discriminate Hr.
    all: by destruct sy.
Qed.

(** X6: an operation writes all it changed, or nothing.  An operation
    that returns leaves each file with the records of the collection in
    memory (in some order, the log in its own), if the files were so
    before it: every collection it changes is saved before it returns.  An operation that
    ends in an exception (the input ends, a number cannot be read) has
    written nothing: the files are as they were, and so is the whole
    object, except that [update_task_status], which asks for the comment
    after it has set the status, may leave the tasks changed in memory. *)
Theorem operations_write_all_or_nothing (w : Py.World AdminSystem.t) :
  (mirrored w ->
   (forall b, (login w).1 = Py.Ok b -> mirrored (login w).2)
   /\ ((logout w).1 = Py.Ok tt -> mirrored (logout w).2)
   /\ ((change_password w).1 = Py.Ok tt -> mirrored (change_password w).2)
   /\ ((create_user w).1 = Py.Ok tt -> mirrored (create_user w).2)
   /\ ((create_department w).1 = Py.Ok tt -> mirrored (create_department w).2)
   /\ ((add_employee w).1 = Py.Ok tt -> mirrored (add_employee w).2)
   /\ ((create_task w).1 = Py.Ok tt -> mirrored (create_task w).2)
   /\ ((update_task_status w).1 = Py.Ok tt -> mirrored (update_task_status w).2))
  /\ (forall e,
        ((login w).1 = Py.Raise e -> unchanged w (login w).2)
        /\ ((logout w).1 = Py.Raise e -> unchanged w (logout w).2)
        /\ ((change_password w).1 = Py.Raise e -> unchanged w (change_password w).2)
        /\ ((create_user w).1 = Py.Raise e -> unchanged w (create_user w).2)
        /\ ((create_department w).1 = Py.Raise e ->
            unchanged w (create_department w).2)
        /\ ((add_employee w).1 = Py.Raise e -> unchanged w (add_employee w).2)
        /\ ((create_task w).1 = Py.Raise e -> unchanged w (create_task w).2)
        /\ ((update_task_status w).1 = Py.Raise e ->
            Py.disk (update_task_status w).2 = Py.disk w
            /\ set_tasks (tasks (Py.self w)) (Py.self (update_task_status w).2)
               = Py.self w)).
Proof. split; [exact (files_in_step w)|exact (nothing_written w)]. Qed.

Lemma operations_write_all_or_nothing_witness :
  mirrored (logout (Example.installed (Some "sam") [])).2
  /\ unchanged (Example.world (Some "admin") ["D2"; "Returns"])
       (create_department (Example.world (Some "admin") ["D2"; "Returns"])).2.
Proof.
  pose proof (installed_mirrored (Some "sam") []) as Hm.
  pose proof (operations_write_all_or_nothing (Example.installed (Some "sam") []))
    as [Hret _].
  pose proof (operations_write_all_or_nothing
                (Example.world (Some "admin") ["D2"; "Returns"])) as [_ Hraise].
  split.
  - exact (proj1 (proj2 (Hret Hm)) eq_refl).
  - exact (proj1 (proj2 (proj2 (proj2 (proj2 (Hraise Py.EOFError))))) eq_refl).
Defined.

(** ** Entities are kept *)

Lemma same_user_refl u : same_user u u.
Proof. by repeat split. Qed.

Lemma same_department_refl d : same_department d d.
Proof. by repeat split. Qed.

Lemma same_task_refl k : same_task k k.
Proof. by repeat split. Qed.

Lemma kept_insert_new {A} (same : A -> A -> Prop) (d : gmap string A) key new :
  (forall a, same a a) -> d !! key = None ->
  forall k a, d !! k = Some a -> exists a', <[key := new]> d !! k = Some a' /\ same a a'.
Proof.
  intros Hrefl Hnone k a Ha. exists a. split; [|done].
  rewrite lookup_insert_ne; [done|]. congruence.
Qed.

Lemma kept_insert_same {A} (same : A -> A -> Prop) (d : gmap string A) key old new :
  (forall a, same a a) -> d !! key = Some old -> same old new ->
  forall k a, d !! k = Some a -> exists a', <[key := new]> d !! k = Some a' /\ same a a'.
Proof.
  intros Hrefl Hold Hsame k a Ha. destruct (decide (key = k)) as [<-|Hne].
  - exists new. rewrite lookup_insert_eq. split; [done|]. congruence.
  - exists a. by rewrite lookup_insert_ne.
Qed.

Lemma kept_refl {A} (same : A -> A -> Prop) (d : gmap string A) :
  (forall a, same a a) ->
  forall k a, d !! k = Some a -> exists a', d !! k = Some a' /\ same a a'.
Proof. intros Hrefl k a Ha. by exists a. Qed.

Lemma kept_insert_eq {A} (d : gmap string A) key new :
  d !! key = None ->
  forall k a, d !! k = Some a -> <[key := new]> d !! k = Some a.
Proof. intros Hnone k a Ha. rewrite lookup_insert_ne; [done|]. congruence. Qed.

Lemma add_employee_same employee_id d :
  same_department d (Department.add_employee employee_id d).1.
Proof.
  unfold Department.add_employee. case_bool_decide; cbn.
  - repeat split. by apply prefix_app_r.
  - apply same_department_refl.
Qed.

Create HintDb kept.

#[local] Hint Resolve same_user_refl same_department_refl same_task_refl : kept.

Ltac kept :=
  first
    [ by apply kept_refl; auto with kept
    | by (eapply kept_insert_new; auto with kept; by apply contains_false)
    | by (eapply kept_insert_eq; by apply contains_false)
    | done ].

(** X7: no operation deletes an entity or changes what identifies it.
    Whatever the operator types and however the operation ends, every
    user, department, employee and task that existed before an operation
    exists after it under the same key: a user with the same name, role,
    full name, email and active flag (only the password and the last login
    change); a department with the same fields and a list of employees
    that only grew at its end; an employee not changed at all; a task with
    the same title, description, assignee, author, due date, priority and
    creation time, and comments that only grew at their end. *)
Theorem operations_keep_entities (w : Py.World AdminSystem.t) :
  extends (Py.self w) (Py.self (login w).2)
  /\ extends (Py.self w) (Py.self (logout w).2)
  /\ extends (Py.self w) (Py.self (change_password w).2)
  /\ extends (Py.self w) (Py.self (create_user w).2)
  /\ extends (Py.self w) (Py.self (create_department w).2)
  /\ extends (Py.self w) (Py.self (add_employee w).2)
  /\ extends (Py.self w) (Py.self (create_task w).2)
  /\ extends (Py.self w) (Py.self (update_task_status w).2).
Proof.
  destruct w as [sy d i o c t]. cbn [Py.self] in *.
  repeat match goal with |- extends _ _ /\ _ => split end.
  - unfold login. crawl.
    all: exec; unfold extends; cbn; (split; [|split; [|split]]); try kept.
    all: eapply kept_insert_same; [auto with kept|eassumption|by repeat split].
  - unfold logout. crawl.
    all: exec; unfold extends; cbn; (split; [|split; [|split]]); kept.
  - unfold change_password. crawl.
    all: exec; unfold extends; cbn; (split; [|split; [|split]]); try kept.
    all: unfold current in *; simplify_option_eq.
    all: eapply kept_insert_same; [auto with kept|eassumption|by repeat split].
  - unfold create_user. crawl.
    all: exec; unfold extends; cbn; (split; [|split; [|split]]); kept.
  - unfold create_department. crawl.
    all: exec; unfold extends; cbn; (split; [|split; [|split]]); kept.
  - unfold add_employee. crawl_with ltac:(rewrite ?list_departments_run).
    all: exec; unfold extends; cbn; (split; [|split; [|split]]); try kept.
    all: match goal with
         | Hp : Department.add_employee ?id ?dep = (?d1, _) |- _ =>
             replace d1 with (Department.add_employee id dep).1 by (by rewrite Hp)
         end.
    all: eapply kept_insert_same; eauto using add_employee_same with kept.
  - unfold create_task. crawl_with ltac:(rewrite ?list_employees_all_run).
    all: exec; unfold extends; cbn; (split; [|split; [|split]]); kept.
  - unfold update_task_status. crawl.
    all: exec; unfold extends; cbn; (split; [|split; [|split]]); try kept.
    all: (eapply kept_insert_same; [auto with kept|eassumption|]).
    all: repeat split; cbn; try done.
    all: by apply prefix_app_r.
Qed.
(** ** The values the prompts check *)

Lemma valid_insert {A} (P : A -> Prop) (d : gmap string A) key new :
  P new -> map_Forall (fun _ a => P a) d -> map_Forall (fun _ a => P a) (<[key := new]> d).
Proof. intros Hn Hd. by apply map_Forall_insert_2. Qed.

Lemma valid_lookup {A} (P : A -> Prop) (d : gmap string A) key a :
  map_Forall (fun _ a => P a) d -> d !! key = Some a -> P a.
Proof. intros Hd Ha. exact (Hd key a Ha). Qed.

Ltac accepted :=
  match goal with
  | Hb : bool_decide (?x ∉ ?l) = false |- ?x ∈ ?l =>
      apply bool_decide_eq_false in Hb; by apply dec_stable in Hb
  end.

Lemma fields_kept (w : Py.World AdminSystem.t) :
  valid_fields (Py.self w) ->
  valid_fields (Py.self (login w).2)
  /\ valid_fields (Py.self (logout w).2)
  /\ valid_fields (Py.self (change_password w).2)
  /\ valid_fields (Py.self (create_user w).2)
  /\ valid_fields (Py.self (create_department w).2)
  /\ valid_fields (Py.self (add_employee w).2)
  /\ valid_fields (Py.self (create_task w).2)
  /\ valid_fields (Py.self (update_task_status w).2).
Proof.
  intros H. destruct w as [sy d i o c t]. cbn [Py.self] in *.
  destruct H as (Hu & He & Ht).
  repeat match goal with |- valid_fields _ /\ _ => split end.
  - unfold login. crawl.
    all: exec; unfold valid_fields; cbn; (split; [|split]); try assumption.
    all: apply valid_insert; [|assumption]; cbn.
    all: by eapply (valid_lookup _ _ _ _ Hu).
  - unfold logout. crawl.
    all: exec; unfold valid_fields; cbn; (split; [|split]); assumption.
  - unfold change_password. crawl.
    all: exec; unfold valid_fields; cbn; (split; [|split]); try assumption.
    all: apply valid_insert; [|assumption]; cbn.
    all: unfold current in *; simplify_option_eq.
    all: by eapply (valid_lookup _ _ _ _ Hu).
  - unfold create_user. crawl.
    all: exec; unfold valid_fields; cbn; (split; [|split]); try assumption.
    all: apply valid_insert; [|assumption]; cbn.
    all: accepted.
  - unfold create_department. crawl.
    all: exec; unfold valid_fields; cbn; (split; [|split]); assumption.
  - unfold add_employee. crawl_with ltac:(rewrite ?list_departments_run).
    all: exec; unfold valid_fields; cbn; (split; [|split]); try assumption.
    all: apply valid_insert; [|assumption]; cbn; eauto.
  - unfold create_task. crawl_with ltac:(rewrite ?list_employees_all_run).
    all: exec; unfold valid_fields; cbn; (split; [|split]); try assumption.
    all: apply valid_insert; [|assumption]; cbn.
    all: split; [|split; [compute_done|eauto]].
    all: first [accepted | compute_done].
  - unfold update_task_status. crawl.
    all: exec; unfold valid_fields; cbn; (split; [|split]); try assumption.
    all: apply valid_insert; [|assumption]; cbn.
    all: match goal with
         | Hs : tasks _ !! _ = Some _ |- _ =>
             destruct (valid_lookup _ _ _ _ Ht Hs) as (Hp & Hst & Hdd)
         end.
    all: split; [assumption|split; [|assumption]].
    all: first [assumption | accepted].
Qed.

(** X8: roles, dates, priorities and statuses stay within what the prompts
    accept.  If every user has one of the roles admin, manager and staff,
    every employee a hire date and every task a due date that [strptime]
    reads (with digits of any script where its pattern has [\d]), and every
    task one of the three priorities and of the four statuses, then the
    same holds after every operation, however it ends. *)
Theorem operations_keep_fields_valid (w : Py.World AdminSystem.t) :
  valid_fields (Py.self w) ->
  valid_fields (Py.self (login w).2)
  /\ valid_fields (Py.self (logout w).2)
  /\ valid_fields (Py.self (change_password w).2)
  /\ valid_fields (Py.self (create_user w).2)
  /\ valid_fields (Py.self (create_department w).2)
  /\ valid_fields (Py.self (add_employee w).2)
  /\ valid_fields (Py.self (create_task w).2)
  /\ valid_fields (Py.self (update_task_status w).2).
Proof. exact (fields_kept w). Qed.

(** A task is created with a due date whose last digit is written in
    another script: [strptime] reads it, and the fields stay valid. *)
Lemma operations_keep_fields_valid_witness :
  Task.due_date
    <$> tasks (Py.self (create_task
          (Example.world (Some "admin")
             ["T3"; "Order paper"; "A4, two boxes"; "E1"; "2025-03-1٣"; "URGENT"])).2)
        !! "T3"
  = Some "2025-03-1٣"
  /\ valid_fields
       (Py.self (create_task
          (Example.world (Some "admin")
             ["T3"; "Order paper"; "A4, two boxes"; "E1"; "2025-03-1٣"; "URGENT"])).2).
Proof.
  pose proof (operations_keep_fields_valid
                (Example.world (Some "admin")
                   ["T3"; "Order paper"; "A4, two boxes"; "E1"; "2025-03-1٣"; "URGENT"])
                (proj1 (proj2 (proj2 example_consistent))))
    as (_ & _ & _ & _ & _ & _ & Htask & _).
  split; [by vm_compute|exact Htask].
Defined.

(** ** The session *)

Lemma session_kept (w : Py.World AdminSystem.t) :
  session_valid (Py.self w) ->
  (session_valid (Py.self (login w).2)
   /\ ((login w).1 <> Py.Ok true ->
       current_user (Py.self (login w).2) = current_user (Py.self w)))
  /\ (session_valid (Py.self (logout w).2)
      /\ current_user (Py.self (logout w).2) = None)
  /\ (session_valid (Py.self (change_password w).2)
      /\ current_user (Py.self (change_password w).2) = current_user (Py.self w))
  /\ (session_valid (Py.self (create_user w).2)
      /\ current_user (Py.self (create_user w).2) = current_user (Py.self w))
  /\ (session_valid (Py.self (create_department w).2)
      /\ current_user (Py.self (create_department w).2) = current_user (Py.self w))
  /\ (session_valid (Py.self (add_employee w).2)
      /\ current_user (Py.self (add_employee w).2) = current_user (Py.self w))
  /\ (session_valid (Py.self (create_task w).2)
      /\ current_user (Py.self (create_task w).2) = current_user (Py.self w))
  /\ (session_valid (Py.self (update_task_status w).2)
      /\ current_user (Py.self (update_task_status w).2) = current_user (Py.self w)).
Proof.
  intros H. destruct w as [sy d i o c t]. cbn [Py.self] in *.
  assert (Hins : forall key (u : User.t) (us : gmap string User.t) cu,
             (forall k, cu = Some k -> is_Some (us !! k)) ->
             forall k, cu = Some k -> is_Some (<[key := u]> us !! k)).
  { intros key u us cu Hs k Hk. apply lookup_insert_is_Some'. right. by apply Hs. }
  assert (Hnone : forall s' : AdminSystem.t,
             current_user s' = None -> session_valid s').
  { intros s' Hc k Hk. congruence. }
  repeat match goal with |- _ /\ _ => split end.
  - unfold login. crawl. all: exec; unfold session_valid; cbn; try assumption.
    all: intros k [= <-]; by rewrite lookup_insert_eq.
  - unfold login. crawl. all: exec; intros Hr; try done.
  - unfold logout, current. crawl. all: exec; try assumption; try by apply Hnone.
    all: destruct (current_user sy) as [key|] eqn:Hc; [|by apply Hnone].
    all: destruct (H key Hc) as [u Hu]; cbn in *; congruence.
  - unfold logout, current. crawl. all: exec; try done.
    all: destruct (current_user sy) as [key|] eqn:Hc; [|done].
    all: destruct (H key Hc) as [u Hu]; cbn in *; congruence.
  - unfold change_password. crawl.
    all: exec; unfold session_valid; cbn; try assumption.
    all: by apply Hins.
  - unfold change_password. crawl. all: by exec.
  - unfold create_user. crawl.
    all: exec; unfold session_valid; cbn; try assumption.
    all: by apply Hins.
  - unfold create_user. crawl. all: by exec.
  - unfold create_department. crawl. all: exec; unfold session_valid; cbn; assumption.
  - unfold create_department. crawl. all: by exec.
  - unfold add_employee. crawl_with ltac:(rewrite ?list_departments_run).
    all: exec; unfold session_valid; cbn; assumption.
  - unfold add_employee. crawl_with ltac:(rewrite ?list_departments_run).
    all: by exec.
  - unfold create_task. crawl_with ltac:(rewrite ?list_employees_all_run).
    all: exec; unfold session_valid; cbn; assumption.
  - unfold create_task. crawl_with ltac:(rewrite ?list_employees_all_run).
    all: by exec.
  - unfold update_task_status. crawl. all: exec; unfold session_valid; cbn; assumption.
  - unfold update_task_status. crawl. all: by exec.
Qed.

(** X9: only [login] and [logout] change who is logged in, and the
    session always refers to a user that exists.  From a session that
    refers to an existing user (or to nobody), every operation leaves such
    a session; no operation other than [login] and [logout] changes
    [current_user]; [logout] clears it; [login] changes it only when it
    returns [True]. *)
Theorem session_is_kept (w : Py.World AdminSystem.t) :
  session_valid (Py.self w) ->
  (session_valid (Py.self (login w).2)
   /\ ((login w).1 <> Py.Ok true ->
       current_user (Py.self (login w).2) = current_user (Py.self w)))
  /\ (session_valid (Py.self (logout w).2)
      /\ current_user (Py.self (logout w).2) = None)
  /\ (session_valid (Py.self (change_password w).2)
      /\ current_user (Py.self (change_password w).2) = current_user (Py.self w))
  /\ (session_valid (Py.self (create_user w).2)
      /\ current_user (Py.self (create_user w).2) = current_user (Py.self w))
  /\ (session_valid (Py.self (create_department w).2)
      /\ current_user (Py.self (create_department w).2) = current_user (Py.self w))
  /\ (session_valid (Py.self (add_employee w).2)
      /\ current_user (Py.self (add_employee w).2) = current_user (Py.self w))
  /\ (session_valid (Py.self (create_task w).2)
      /\ current_user (Py.self (create_task w).2) = current_user (Py.self w))
  /\ (session_valid (Py.self (update_task_status w).2)
      /\ current_user (Py.self (update_task_status w).2) = current_user (Py.self w)).
Proof. exact (session_kept w). Qed.

Lemma session_is_kept_witness :
  current_user (Py.self (logout (Example.world (Some "admin") [])).2) = None
  /\ session_valid (Py.self (login (Example.world (Some "admin") ["sam"; "staff1"])).2).
Proof.
  pose proof (session_is_kept (Example.world (Some "admin") [])
                (proj1 (proj2 (proj2 (proj2 example_consistent)))))
    as (_ & [_ Hout] & _).
  pose proof (session_is_kept (Example.world (Some "admin") ["sam"; "staff1"])
                (proj1 (proj2 (proj2 (proj2 example_consistent)))))
    as ([Hin _] & _).
  exact (conj Hout Hin).
Defined.
(** ** Failures *)

Lemma outcome_of_prompt {Self} (s : Self) d i o text c t :
  outcome_of (Py.MkWorld s d i (o ++ [Py.Prompt text]) c t) = Success.
Proof. by rewrite outcome_of_snoc. Qed.

(** The last thing printed tells a run that changed something from one
    that ended in a diagnostic. *)
Ltac succeeded H :=
  first
    [ rewrite outcome_of_prompt in H
    | rewrite outcome_of_success in H by (first [discriminate | reflexivity])
    | rewrite outcome_of_snoc in H; cbn in H ];
  discriminate H.

(** X10: no partial change survives a failed operation.  When an operation
    ends with a diagnostic (a denial, bad credentials, an identifier in
    use, a reference that leads nowhere, an input refused), the object
    (session, collections, log) and the files are as they were before
    it. *)
Theorem failed_operations_change_nothing (w : Py.World AdminSystem.t) (e : error) :
  (outcome_of (login w).2 = Failure e -> unchanged w (login w).2)
  /\ (outcome_of (change_password w).2 = Failure e ->
      unchanged w (change_password w).2)
  /\ (outcome_of (create_user w).2 = Failure e -> unchanged w (create_user w).2)
  /\ (outcome_of (create_department w).2 = Failure e ->
      unchanged w (create_department w).2)
  /\ (outcome_of (add_employee w).2 = Failure e -> unchanged w (add_employee w).2)
  /\ (outcome_of (create_task w).2 = Failure e -> unchanged w (create_task w).2)
  /\ (outcome_of (update_task_status w).2 = Failure e ->
      unchanged w (update_task_status w).2).
Proof.
  destruct w as [sy d i o c t].
  repeat match goal with |- _ /\ _ => split end.
  - unfold login. crawl. all: exec; intros Hf; first [done | succeeded Hf].
  - unfold change_password. crawl.
    all: exec; intros Hf; first [done | succeeded Hf].
  - unfold create_user. crawl. all: exec; intros Hf; first [done | succeeded Hf].
  - unfold create_department. crawl.
    all: exec; intros Hf; first [done | succeeded Hf].
  - unfold add_employee. crawl_with ltac:(rewrite ?list_departments_run).
    all: exec; intros Hf; first [done | succeeded Hf].
  - unfold create_task. crawl_with ltac:(rewrite ?list_employees_all_run).
    all: exec; intros Hf; first [done | succeeded Hf].
  - unfold update_task_status. crawl.
    all: exec; intros Hf; first [done | succeeded Hf].
Qed.

Lemma failed_operations_change_nothing_witness :
  unchanged (Example.world (Some "admin") ["sam"])
    (create_user (Example.world (Some "admin") ["sam"])).2.
Proof.
  assert (Hf : outcome_of (create_user (Example.world (Some "admin") ["sam"])).2
               = Failure DuplicateIdError) by (vm_compute; reflexivity).
  exact (proj1 (proj2 (proj2 (failed_operations_change_nothing
                                (Example.world (Some "admin") ["sam"])
                                DuplicateIdError))) Hf).
Defined.
(** ** Authentication *)

(** X11: [login] returns [True] exactly when the name typed is that of a
    user, the digest of the password typed is the one stored, and the
    account is active.  Otherwise (an unknown name, another password, an
    inactive account: the answer does not tell which) it returns [False],
    ends in [AuthError] and changes nothing. *)
Theorem login_succeeds_exactly_when (w : Py.World AdminSystem.t)
    username password rest :
  Py.stdin w = username :: password :: rest ->
  ((login w).1 = Py.Ok true <->
   exists u, users (Py.self w) !! username = Some u
             /\ User.password_hash u = User.hash_password password
             /\ User.is_active u = true)
  /\ ((login w).1 <> Py.Ok true ->
      (login w).1 = Py.Ok false /\ unchanged w (login w).2
      /\ outcome_of (login w).2 = Failure AuthError).
Proof.
  destruct w as [sy d i o c t]. cbn [Py.stdin Py.self]. intros ->.
  unfold login. run.
  destruct (users sy !! username) as [u|] eqn:Hu; run.
  - unfold User.verify_password.
    destruct (String.eqb_spec (User.password_hash u) (User.hash_password password))
      as [Hh|Hh]; cbn [andb].
    + destruct (User.is_active u) eqn:Ha; exec.
      * split; [|done]. split; [|done]. intros _. by exists u.
      * split; [|by rewrite outcome_of_snoc].
        split; [done|]. intros (u' & [= <-] & _ & Ha'). congruence.
    + exec. split; [|by rewrite outcome_of_snoc].
      split; [done|]. intros (u' & [= <-] & Hh' & _). done.
  - split; [|by rewrite outcome_of_snoc].
    split; [done|]. intros (u' & Hu' & _). done.
Qed.

Lemma login_succeeds_exactly_when_witness :
  (login (Example.later ["kim"; "s3cret"])).1 = Py.Ok true
  /\ (login (Example.later ["nobody"; "s3cret"])).1 = Py.Ok false
  /\ outcome_of (login (Example.later ["nobody"; "s3cret"])).2 = Failure AuthError.
Proof.
  pose proof (login_succeeds_exactly_when (Example.later ["kim"; "s3cret"])
                "kim" "s3cret" [] eq_refl) as [Hyes _].
  pose proof (login_succeeds_exactly_when (Example.later ["nobody"; "s3cret"])
                "nobody" "s3cret" [] eq_refl) as [[Hno _] Hfail].
  assert (Hunknown : (login (Example.later ["nobody"; "s3cret"])).1 <> Py.Ok true).
  { intros Hr. destruct (Hno Hr) as (u & Hu & _). vm_compute in Hu. discriminate Hu. }
  split; [|split].
  - apply Hyes. exists Example.kim. by repeat split.
  - exact (proj1 (Hfail Hunknown)).
  - exact (proj2 (proj2 (Hfail Hunknown))).
Defined.

(** X12: [logout] ends the session and says so in the log.  With [u]
    logged in it returns, leaves nobody logged in, adds to the log one
    entry for the action "logout" under the name of [u] with the time of
    the clock, writes the log to its file and touches nothing else; every
    operation that checks the session is denied afterwards.  With nobody
    logged in it only prints its message. *)
Theorem logout_ends_the_session (w : Py.World AdminSystem.t) :
  (forall key u,
     current_user (Py.self w) = Some key -> users (Py.self w) !! key = Some u ->
     (logout w).1 = Py.Ok tt
     /\ Py.self (logout w).2
        = set_current_user None
            (set_logs
               (logs (Py.self w)
                ++ [JObj [ ("timestamp",
                            JStr (Datetime.isoformat (Py.clock w (Py.ticks w))));
                           ("user", JStr (User.username u));
                           ("action", JStr "logout");
                           ("details",
                            JStr ("User " ++ User.username u ++ " logged out")) ]])
               (Py.self w))
     /\ Py.disk (logout w).2
        = Py.write Py.LOGS_FILE (logs (Py.self (logout w).2)) (Py.disk w)
     /\ role_in ["admin"; "manager"] (Py.self (logout w).2) = false
     /\ role_in ["admin"] (Py.self (logout w).2) = false
     /\ current (Py.self (logout w).2) = None)
  /\ (current (Py.self w) = None ->
      (logout w).1 = Py.Ok tt /\ unchanged w (logout w).2)
  /\ outcome_of (logout w).2 = Success.
Proof.
  destruct w as [sy d i o c t]. cbn [Py.self Py.clock Py.ticks Py.disk].
  split; [|split].
  - intros key u Hk Hu.
    assert (Hc : current sy = Some u) by (unfold current; by rewrite Hk).
    unfold logout. run. rewrite Hc. exec. rewrite Hc.
    by repeat match goal with |- _ /\ _ => split end.
  - intros Hc. unfold logout. run. rewrite Hc. by exec.
  - unfold logout. run. destruct (current sy); exec.
    all: by rewrite outcome_of_snoc.
Qed.

Lemma logout_ends_the_session_witness :
  current (Py.self (logout (Example.world (Some "sam") [])).2) = None
  /\ unchanged (Example.world None []) (logout (Example.world None [])).2.
Proof.
  pose proof (logout_ends_the_session (Example.world (Some "sam") []))
    as (Hin & _ & _).
  pose proof (logout_ends_the_session (Example.world None [])) as (_ & Hout & _).
  split.
  - exact (proj2 (proj2 (proj2 (proj2 (proj2
             (Hin "sam" Example.sam eq_refl eq_refl)))))).
  - exact (proj2 (Hout eq_refl)).
Defined.

(** X13: after [change_password] the new password is the one that logs in.
    With [u] logged in under [key], the current password typed as stored
    and the new one typed twice, the operation succeeds; the user is kept
    under [key] with the digest of the new password and nothing else
    changed, the session stays, the users file is rewritten with the
    records of the users and the change is logged.  No rule is applied to the new password: any text is taken,
    the empty one too.  In the world it leaves, a password verifies
    exactly when its digest is that of the new one, and, if the account is
    active, [login] with [key] and the new password returns [True]. *)
Theorem change_password_then_login (w : Py.World AdminSystem.t)
    key u old new rest :
  current_user (Py.self w) = Some key ->
  users (Py.self w) !! key = Some u ->
  User.password_hash u = User.hash_password old ->
  Py.stdin w = old :: new :: new :: rest ->
  let w' := (change_password w).2 in
  let u' := User.set_password_hash (User.hash_password new) u in
  (change_password w).1 = Py.Ok tt
  /\ outcome_of w' = Success
  /\ users (Py.self w') = <[key := u']> (users (Py.self w))
  /\ current_user (Py.self w') = Some key
  /\ holds (Py.disk w' Py.USERS_FILE) (users (Py.self w'))
  /\ length (logs (Py.self w')) = S (length (logs (Py.self w)))
  /\ (forall p, User.verify_password u' p = true
                <-> User.hash_password p = User.hash_password new)
  /\ (User.is_active u = true ->
      forall rest', (login (Example.resume (Some key) (key :: new :: rest') w')).1
                    = Py.Ok true).
Proof.
  destruct w as [sy d i o c t]. cbn [Py.stdin Py.self].
  intros Hk Hu Hh ->. cbn zeta.
  assert (Hc : current sy = Some u) by (unfold current; by rewrite Hk).
  assert (Hv : User.verify_password u old = true).
  { unfold User.verify_password. rewrite Hh. apply String.eqb_refl. }
  isolate (change_password (Py.MkWorld sy d (old :: new :: new :: rest) o c t)).
  unfold change_password. run. rewrite Hk, Hc. run. rewrite Hv. exec.
  rewrite String.eqb_refl. exec. intros [= <- <-].
  repeat match goal with |- _ /\ _ => split end; try done.
  - by rewrite outcome_of_snoc.
  - by unfold holds.
  - cbn. rewrite length_app. cbn. lia.
  - intros p. unfold User.verify_password. cbn.
    rewrite String.eqb_eq. split; congruence.
  - intros Ha rest'. unfold login, Example.resume. exec.
    unfold User.verify_password. cbn. rewrite String.eqb_refl, Ha. by exec.
Qed.

Lemma change_password_then_login_witness :
  (change_password (Example.world (Some "sam") ["staff1"; ""; ""])).1 = Py.Ok tt
  /\ (login (Example.resume (Some "sam") ["sam"; ""]
               (change_password (Example.world (Some "sam") ["staff1"; ""; ""])).2)).1
     = Py.Ok true.
Proof.
  pose proof (change_password_then_login
                (Example.world (Some "sam") ["staff1"; ""; ""])
                "sam" Example.sam "staff1" "" [] eq_refl eq_refl eq_refl eq_refl)
    as (Hok & _ & _ & _ & _ & _ & _ & Hlogin).
  split; [exact Hok|]. exact (Hlogin eq_refl []).
Defined.
(** ** Creating a department *)

(** X14: [create_department] applies no range check to the budget, and a
    budget that is not a number ends the operation in an exception.  For
    an admin, a department id not yet in use and a manager name that is
    that of a user with the role manager: every budget text that [float]
    reads, whatever its sign, is accepted; the department is stored under
    its id with that budget, no employee and the clock reading as its
    creation time, the departments file is rewritten with the records of
    the departments and the creation is logged.  A budget text that [float] does not read
    ends the operation in [ValueError] after all the prompts, with nothing
    created and nothing written. *)
Theorem create_department_takes_any_budget (w : Py.World AdminSystem.t)
    dept_id name manager description budget rest m :
  role_in ["admin"] (Py.self w) = true ->
  Py.stdin w = dept_id :: name :: manager :: description :: budget :: rest ->
  departments (Py.self w) !! dept_id = None ->
  users (Py.self w) !! manager = Some m ->
  User.role m = "manager" ->
  (forall x,
     Builtins.float_of_str budget = Some x ->
     (create_department w).1 = Py.Ok tt
     /\ outcome_of (create_department w).2 = Success
     /\ departments (Py.self (create_department w).2)
        = <[dept_id := Department.set_budget x
                         (Department.init dept_id name manager description
                            (Py.clock w (Py.ticks w)))]>
            (departments (Py.self w))
     /\ holds (Py.disk (create_department w).2 Py.DEPARTMENTS_FILE)
          (departments (Py.self (create_department w).2))
     /\ length (logs (Py.self (create_department w).2))
        = S (length (logs (Py.self w))))
  /\ (Builtins.float_of_str budget = None ->
      (create_department w).1 = Py.Raise Py.ValueError
      /\ unchanged w (create_department w).2
      /\ Py.stdin (create_department w).2 = rest).
Proof.
  intros Hr Hin Hd Hm Hrole. destruct w as [sy d i o c t].
  cbn in Hr, Hin, Hd, Hm. subst i. cbn [Py.self Py.disk Py.clock Py.ticks Py.stdin].
  isolate (create_department
             (Py.MkWorld sy d (dept_id :: name :: manager :: description :: budget :: rest)
                         o c t)).
  unfold create_department. run. rewrite Hr. run. unfold contains. rewrite Hd. exec.
  rewrite Hm, Hrole. exec.
  destruct (Builtins.float_of_str budget) as [x|]; exec; intros [= <- <-].
  - split; [|done]. intros x' [= <-]. cbn.
    split; [done|]. split; [apply outcome_of_success; [discriminate|reflexivity]|].
    split; [done|]. split; [by unfold holds|]. rewrite length_app. cbn. lia.
  - split; [done|]. intros _. done.
Qed.

Lemma create_department_takes_any_budget_witness :
  Department.budget
    <$> departments (Py.self (create_department
          (Example.world (Some "admin") ["D2"; "Returns"; "m1"; ""; "-2500"])).2)
        !! "D2"
  = Some (-2500)%float
  /\ Department.budget
        <$> departments (Py.self (create_department
              (Example.world (Some "admin") ["D2"; "Returns"; "m1"; ""; " 1e3"])).2)
            !! "D2"
      = Some 1000%float
  /\ (create_department
        (Example.world (Some "admin") ["D3"; "Audit"; "m1"; ""; "a lot"])).1
     = Py.Raise Py.ValueError.
Proof.
  pose proof (create_department_takes_any_budget
                (Example.world (Some "admin") ["D2"; "Returns"; "m1"; ""; "-2500"])
                "D2" "Returns" "m1" "" "-2500" [] Example.m1
                eq_refl eq_refl eq_refl eq_refl eq_refl) as [Hany _].
  pose proof (create_department_takes_any_budget
                (Example.world (Some "admin") ["D2"; "Returns"; "m1"; ""; " 1e3"])
                "D2" "Returns" "m1" "" " 1e3" [] Example.m1
                eq_refl eq_refl eq_refl eq_refl eq_refl) as [Hexp _].
  pose proof (create_department_takes_any_budget
                (Example.world (Some "admin") ["D3"; "Audit"; "m1"; ""; "a lot"])
                "D3" "Audit" "m1" "" "a lot" [] Example.m1
                eq_refl eq_refl eq_refl eq_refl eq_refl) as [_ Hnone].
  assert (Hx : Builtins.float_of_str "-2500" = Some (-2500)%float)
    by (vm_compute; reflexivity).
  assert (Hz : Builtins.float_of_str " 1e3" = Some 1000%float)
    by (vm_compute; reflexivity).
  assert (Hy : Builtins.float_of_str "a lot" = None) by (vm_compute; reflexivity).
  split; [|split].
  - destruct (Hany _ Hx) as (_ & _ & -> & _). by rewrite lookup_insert_eq.
  - destruct (Hexp _ Hz) as (_ & _ & -> & _). by rewrite lookup_insert_eq.
  - exact (proj1 (Hnone Hy)).
Defined.
(** ** More on updating a task *)

(** X15: when the input ends before the comment is typed,
    [update_task_status] has already set the status.  For a logged-in
    caller, an existing task and a status that is accepted, with no line
    left for the comment, the operation ends in [EOFError]; the task in
    memory has the new status, yet the tasks file and the log, in memory
    and on disk, are as before: the change is neither saved nor logged. *)
Theorem update_task_status_interrupted (w : Py.World AdminSystem.t)
    user task_id s task :
  current (Py.self w) = Some user ->
  Py.stdin w = [task_id; s] ->
  tasks (Py.self w) !! task_id = Some task ->
  Builtins.lower s ∈ Task.valid_statuses ->
  (update_task_status w).1 = Py.Raise Py.EOFError
  /\ Task.status <$> tasks (Py.self (update_task_status w).2) !! task_id
     = Some (Builtins.lower s)
  /\ Py.disk (update_task_status w).2 = Py.disk w
  /\ logs (Py.self (update_task_status w).2) = logs (Py.self w).
Proof.
  intros Hu Hin Ht Hs. destruct w as [sy d i o c t]. cbn in Hu, Hin, Ht. subst i.
  isolate (update_task_status (Py.MkWorld sy d [task_id; s] o c t)).
  unfold update_task_status. run. rewrite Hu. run. rewrite Ht. run.
  rewrite bool_decide_eq_false_2 by (intros Hn; by apply Hn). exec.
  rewrite Ht. exec. rewrite (bool_decide_eq_true_2 _ Hs). exec.
  destruct (String.eqb_spec (Builtins.lower s) "completed"); exec.
  all: intros [= <- <-]; cbn; by rewrite lookup_insert_eq.
Qed.

Lemma update_task_status_interrupted_witness :
  (update_task_status (Example.world (Some "sam") ["T1"; "cancelled"])).1
  = Py.Raise Py.EOFError
  /\ Task.status
       <$> tasks (Py.self (update_task_status
                    (Example.world (Some "sam") ["T1"; "cancelled"])).2) !! "T1"
     = Some (Builtins.lower "cancelled")
  /\ Py.disk (update_task_status (Example.world (Some "sam") ["T1"; "cancelled"])).2
     = Py.disk (Example.world (Some "sam") ["T1"; "cancelled"]).
Proof.
  assert (Hs : Builtins.lower "cancelled" ∈ Task.valid_statuses) by compute_done.
  pose proof (update_task_status_interrupted
                (Example.world (Some "sam") ["T1"; "cancelled"])
                Example.sam "T1" "cancelled" Example.T1 eq_refl eq_refl eq_refl Hs)
    as (Hr & Hst & Hd & _).
  exact (conj Hr (conj Hst Hd)).
Defined.

(** X16: a comment typed in [update_task_status] is added at the end of
    the task's comments with the name of whoever is logged in as its
    author and the time of the clock; an empty comment adds none.  Any
    user who is logged in may do this to any task: neither the role nor
    the assignee is checked.  The comments already there and the fields
    that identify the task are kept, the tasks file is rewritten with the
    records of the tasks in memory, and the update is logged under the
    user's name. *)
Theorem update_task_status_records_comment (w : Py.World AdminSystem.t)
    key user task_id s comment rest task :
  current_user (Py.self w) = Some key ->
  users (Py.self w) !! key = Some user ->
  Py.stdin w = task_id :: s :: comment :: rest ->
  tasks (Py.self w) !! task_id = Some task ->
  Builtins.lower s ∈ Task.valid_statuses ->
  let w' := (update_task_status w).2 in
  let readings := if String.eqb (Builtins.lower s) "completed" then 2 else 0 in
  (update_task_status w).1 = Py.Ok tt
  /\ outcome_of w' = Success
  /\ (exists task',
        tasks (Py.self w') = <[task_id := task']> (tasks (Py.self w))
        /\ same_task task task'
        /\ Task.comments task'
           = (if String.eqb comment "" then Task.comments task
              else Task.comments task
                   ++ [JObj [ ("text", JStr comment);
                              ("author", JStr (User.username user));
                              ("timestamp",
                               JStr (Datetime.isoformat
                                       (Py.clock w (readings + Py.ticks w)))) ]])%list)
  /\ holds (Py.disk w' Py.TASKS_FILE) (tasks (Py.self w'))
  /\ (exists stamp,
        logs (Py.self w')
        = (logs (Py.self w)
           ++ [JObj [ ("timestamp", JStr stamp);
                      ("user", JStr (User.username user));
                      ("action", JStr "task_update");
                      ("details", JStr ("Updated task " ++ task_id ++ " to status "
                                        ++ Builtins.lower s)) ]])%list).
Proof.
  intros Hk Hu Hin Ht Hs. destruct w as [sy d i o c t]. cbn in Hk, Hu, Hin, Ht. subst i.
  assert (Hc : current sy = Some user) by (unfold current; by rewrite Hk).
  cbn zeta.
  isolate (update_task_status (Py.MkWorld sy d (task_id :: s :: comment :: rest) o c t)).
  unfold update_task_status. run. rewrite Hc. run. rewrite Ht. run.
  rewrite bool_decide_eq_false_2 by (intros Hn; by apply Hn). exec.
  rewrite Ht. exec. rewrite (bool_decide_eq_true_2 _ Hs). exec.
  destruct (String.eqb (Builtins.lower s) "completed"); exec.
  all: destruct (String.eqb comment ""); exec.
  all: rewrite ?Hc.
  all: intros [= <- <-]; cbn.
  all: split; [done|]; split; [by rewrite outcome_of_snoc|].
  all: split; [eexists; split; [reflexivity|]; split; [by repeat split; cbn; try apply prefix_app_r|done]|].
  all: split; [by unfold holds, Py.write|].
  all: eexists; rewrite Hk; cbn; rewrite Hu; reflexivity.
Qed.

Lemma update_task_status_records_comment_witness :
  exists task',
    tasks (Py.self (update_task_status
             (Example.world (Some "sam") ["T1"; "in_progress"; "started"])).2)
    = <["T1" := task']> (tasks (Py.self (Example.world (Some "sam") [])))
    /\ Task.comments task'
       = [JObj [ ("text", JStr "started"); ("author", JStr "sam");
                 ("timestamp", JStr (Datetime.isoformat Example.t1)) ]].
Proof.
  assert (Hs : Builtins.lower "in_progress" ∈ Task.valid_statuses) by compute_done.
  pose proof (update_task_status_records_comment
                (Example.world (Some "sam") ["T1"; "in_progress"; "started"])
                "sam" Example.sam "T1" "in_progress" "started" [] Example.T1
                eq_refl eq_refl eq_refl eq_refl Hs) as H.
  cbv zeta in H. destruct H as (_ & _ & (task' & Ht & _ & Hc) & _).
  exists task'. split; [exact Ht|exact Hc].
Defined.

(** ** The list of employees of a department *)

Lemma remove_first_absent x l : x ∉ l -> Department.remove_first x l = l.
Proof.
  induction l as [|y l IH]; [done|]. intros Hx. cbn.
  apply not_elem_of_cons in Hx as [Hne Hx].
  destruct (String.eqb_spec x y); [done|]. by rewrite IH.
Qed.

Lemma remove_first_snoc x l : x ∉ l -> Department.remove_first x (l ++ [x]) = l.
Proof.
  induction l as [|y l IH]; intros Hx; cbn.
  - by rewrite String.eqb_refl.
  - apply not_elem_of_cons in Hx as [Hne Hx].
    destruct (String.eqb_spec x y); [done|]. by rewrite IH.
Qed.

Lemma remove_first_elem_of x y l :
  y ∈ Department.remove_first x l -> y ∈ l.
Proof.
  induction l as [|z l IH]; [done|]. cbn.
  destruct (String.eqb_spec x z) as [->|Hne].
  - intros Hy. by right.
  - intros Hy. apply elem_of_cons in Hy as [->|Hy]; [by left|right; by apply IH].
Qed.

Lemma remove_first_middle x before after :
  x ∉ before ->
  Department.remove_first x (before ++ x :: after) = (before ++ after)%list.
Proof.
  induction before as [|y l IH]; intros Hx; cbn.
  - by rewrite String.eqb_refl.
  - apply not_elem_of_cons in Hx as [Hne Hx].
    destruct (String.eqb_spec x y); [done|]. by rewrite IH.
Qed.

Lemma remove_first_NoDup x l :
  NoDup l -> NoDup (Department.remove_first x l) /\ x ∉ Department.remove_first x l.
Proof.
  induction 1 as [|y l Hy Hl IH]; cbn.
  - split; [constructor|]. apply not_elem_of_nil.
  - destruct (String.eqb_spec x y) as [->|Hne]; [done|].
    destruct IH as [IH1 IH2]. split.
    + constructor; [|done]. intros Hin. by apply Hy, (remove_first_elem_of x).
    + apply not_elem_of_cons. done.
Qed.

(** X17: the list of employees of a department.  [add_employee] returns
    [False] and changes nothing when the list has the id, whether the list
    has repeats or not; otherwise it returns [True] and puts the id at the
    end of the list, the other fields as they were.  [remove_employee]
    returns [False] and changes nothing when the list does not have the
    id; otherwise it returns [True] and takes out the first occurrence of
    the id, and no other element.  So removing an id just added gives back
    the department, and a list without repeats stays one under both, with
    the id gone after a removal. *)
Theorem department_employee_list (d : Department.t) (employee_id : string) :
  (employee_id ∈ Department.employees d ->
   Department.add_employee employee_id d = (d, false))
  /\ (employee_id ∉ Department.employees d ->
      (Department.add_employee employee_id d).2 = true
      /\ Department.employees (Department.add_employee employee_id d).1
         = (Department.employees d ++ [employee_id])%list
      /\ same_department d (Department.add_employee employee_id d).1
      /\ Department.remove_employee employee_id
           (Department.add_employee employee_id d).1
         = (d, true)
      /\ Department.remove_employee employee_id d = (d, false))
  /\ (forall before after,
        Department.employees d = (before ++ employee_id :: after)%list ->
        employee_id ∉ before ->
        let d' := (Department.remove_employee employee_id d).1 in
        (Department.remove_employee employee_id d).2 = true
        /\ Department.employees d' = (before ++ after)%list
        /\ Department.dept_id d' = Department.dept_id d
        /\ Department.name d' = Department.name d
        /\ Department.manager d' = Department.manager d
        /\ Department.description d' = Department.description d
        /\ Department.budget d' = Department.budget d
        /\ Department.created_at d' = Department.created_at d)
  /\ (NoDup (Department.employees d) ->
      NoDup (Department.employees (Department.add_employee employee_id d).1)
      /\ NoDup (Department.employees (Department.remove_employee employee_id d).1)
      /\ employee_id
         ∉ Department.employees (Department.remove_employee employee_id d).1).
Proof.
  unfold Department.add_employee, Department.remove_employee.
  split; [|split; [|split]].
  - intros Hin. by rewrite bool_decide_eq_false_2 by (intros Hn; by apply Hn).
  - intros Hout. rewrite (bool_decide_eq_true_2 _ Hout). cbn.
    assert (Hlast : employee_id ∈ (Department.employees d ++ [employee_id])%list).
    { apply elem_of_app. right. by apply list_elem_of_singleton. }
    rewrite (bool_decide_eq_true_2 _ Hlast), (bool_decide_eq_false_2 _ Hout). cbn.
    repeat match goal with |- _ /\ _ => split end; try done.
    + repeat split; cbn. by apply prefix_app_r.
    + rewrite remove_first_snoc by done. by destruct d.
  - intros before after Hl Hb. cbn zeta.
    assert (Hin : employee_id ∈ Department.employees d).
    { rewrite Hl. apply elem_of_app. right. by left. }
    rewrite (bool_decide_eq_true_2 _ Hin). cbn.
    repeat match goal with |- _ /\ _ => split end; try done.
    rewrite Hl. by apply remove_first_middle.
  - intros Hnd. destruct (decide (employee_id ∈ Department.employees d)) as [Hin|Hout].
    + rewrite (bool_decide_eq_true_2 _ Hin).
      rewrite bool_decide_eq_false_2 by (intros Hn; by apply Hn). cbn.
      destruct (remove_first_NoDup employee_id _ Hnd). done.
    + rewrite (bool_decide_eq_true_2 _ Hout), (bool_decide_eq_false_2 _ Hout). cbn.
      split; [|done]. apply NoDup_app. split; [done|]. split; [|apply NoDup_singleton].
      intros x Hx Hx'. apply list_elem_of_singleton in Hx' as ->. done.
Qed.

(** On a list with a repeat: [E1] is not added again, and one removal
    takes out the first [E1] only. *)
Lemma department_employee_list_witness :
  Department.remove_employee "E9" (Department.add_employee "E9" Example.D1).1
  = (Example.D1, true)
  /\ Department.add_employee "E1"
       (Department.set_employees ["E1"; "E2"; "E1"] Example.D1)
     = (Department.set_employees ["E1"; "E2"; "E1"] Example.D1, false)
  /\ Department.employees
       (Department.remove_employee "E1"
          (Department.set_employees ["E2"; "E1"; "E3"; "E1"] Example.D1)).1
     = ["E2"; "E3"; "E1"].
Proof.
  pose proof (department_employee_list Example.D1 "E9") as (_ & Hnew & _).
  pose proof (department_employee_list
                (Department.set_employees ["E1"; "E2"; "E1"] Example.D1) "E1")
    as (Hold & _).
  pose proof (department_employee_list
                (Department.set_employees ["E2"; "E1"; "E3"; "E1"] Example.D1) "E1")
    as (_ & _ & Hremove & _).
  assert (H9 : "E9" ∉ Department.employees Example.D1) by compute_done.
  assert (H1 : "E1" ∈ Department.employees
                       (Department.set_employees ["E1"; "E2"; "E1"] Example.D1))
    by compute_done.
  assert (H2 : "E1" ∉ ["E2"]) by compute_done.
  split; [|split].
  - exact (proj1 (proj2 (proj2 (proj2 (Hnew H9))))).
  - exact (Hold H1).
  - exact (proj1 (proj2 (Hremove ["E2"] ["E3"; "E1"] eq_refl H2))).
Defined.
(** ** Starting again from the files *)

Lemma item_key_to_dict :
  (forall u : User.t, item_key (to_dict u) = Some (User.username u))
  /\ (forall d : Department.t, item_key (to_dict d) = Some (Department.dept_id d))
  /\ (forall e : Employee.t, item_key (to_dict e) = Some (Employee.emp_id e))
  /\ (forall k : Task.t, item_key (to_dict k) = Some (Task.task_id k)).
Proof. repeat split; intros e; by destruct e. Qed.

(** A file that holds a dictionary keyed by identifier is read back as
    that dictionary, in whatever order its records are. *)
Section Held.
Context {A : Type} {EA : Entity A} (ident : A -> string).
Hypothesis from_to : forall e : A, from_dict (to_dict e) = Some e.
Hypothesis key_of : forall e : A, item_key (to_dict e) = Some (ident e).

Lemma load_items_held (data : list json) (d : gmap string A) :
  keyed ident d -> holds data d -> load_items data = Some d.
Proof.
  intros Hk Hh. unfold holds, values in Hh.
  rewrite <- list_fmap_compose in Hh.
  apply (Permutation_map_inv (to_dict ∘ snd)) in Hh as (l & -> & Hl).
  change (map (to_dict ∘ snd) l) with ((to_dict ∘ snd) <$> l).
  rewrite (list_fmap_compose snd to_dict l).
  unfold load_items. rewrite (load_items_pairs ident from_to key_of).
  - f_equal. rewrite (right_id_L ∅ (∪)).
    rewrite <- (list_to_map_to_list d).
    apply list_to_map_proper.
    + rewrite fmap_reverse, reverse_Permutation, <- Hl. apply NoDup_fst_map_to_list.
    + by rewrite reverse_Permutation.
  - intros k e Hin. apply (Hk k e). apply elem_of_map_to_list. by rewrite Hl.
Qed.

End Held.

Lemma init_reads {Self} (w : Py.World Self) (s : AdminSystem.t) :
  stored s (Py.disk w) -> well_keyed s ->
  init w = (Py.Ok (set_current_user None s), w).
Proof.
  destruct w as [sy d i o c t]. intros (Hu & Hd & He & Ht & Hl) (Ku & Kd & Ke & Kt).
  cbn [Py.self Py.disk] in *.
  destruct item_key_to_dict as (Iu & Id & Ie & It).
  unfold init, _load_logs. run.
  rewrite (load_items_held (EA:=User_entity) User.username User_from_to Iu _ _ Ku Hu).
  run.
  rewrite (load_items_held (EA:=Department_entity) Department.dept_id
             Department_from_to Id _ _ Kd Hd).
  run.
  rewrite (load_items_held (EA:=Employee_entity) Employee.emp_id
             Employee_from_to Ie _ _ Ke He).
  run.
  rewrite (load_items_held (EA:=Task_entity) Task.task_id Task_from_to It _ _ Kt Ht).
  run. by rewrite Hl.
Qed.

(** X18: the files are enough to start again.  When each file holds the
    records of the collection in memory, in whatever order ([_save_data]
    writes them in the order of insertion), and the collections are keyed
    by the identifiers of their entities, [__init__] run on these files
    returns, reads nothing but the files, and builds an object with the
    same users, departments, employees, tasks and log, and nobody logged
    in. *)
Theorem init_restores_the_collections (w : Py.World AdminSystem.t) :
  mirrored w -> well_keyed (Py.self w) ->
  init w = (Py.Ok (set_current_user None (Py.self w)), w).
Proof. intros Hm Hk. exact (init_reads w (Py.self w) Hm Hk). Qed.

Lemma init_restores_the_collections_witness :
  init (Example.installed (Some "sam") [])
  = (Py.Ok (Example.system None), Example.installed (Some "sam") []).
Proof.
  assert (Hk : well_keyed (Py.self (Example.installed (Some "sam") []))).
  { repeat split; compute_done. }
  exact (init_restores_the_collections (Example.installed (Some "sam") [])
           (installed_mirrored (Some "sam") []) Hk).
Defined.

Lemma load_items_unreadable {A} {EA : Entity A} (before after : list json) item :
  item_key item = None \/ from_dict (A:=A) item = None ->
  load_items (A:=A) (before ++ item :: after) = None.
Proof.
  intros Hbad. unfold load_items. rewrite foldl_app. cbn [foldl].
  match goal with
  | |- foldl ?f _ _ = _ =>
      assert (Hstuck : forall l, foldl f None l = None) by (by induction l)
  end.
  destruct (foldl _ (Some ∅) before) as [d|]; cbn; [|apply Hstuck].
  destruct Hbad as [-> | Hf]; cbn; [apply Hstuck|].
  destruct (item_key item); cbn; [rewrite Hf; cbn|]; apply Hstuck.
Qed.

Ltac stuck_bind H :=
  cbn; rewrite ?H; cbn;
  repeat (match goal with
          | |- context [mbind _ ?o] => destruct o; cbn; rewrite ?H; cbn
          end);
  reflexivity.

Lemma from_dict_needs (f : Py.file) (field : string) (item : json) :
  field ∈ required f -> Json.item field item = None ->
  match f with
  | Py.USERS_FILE => User.from_dict item = None
  | Py.DEPARTMENTS_FILE => Department.from_dict item = None
  | Py.EMPLOYEES_FILE => Employee.from_dict item = None
  | Py.TASKS_FILE => Task.from_dict item = None
  | Py.LOGS_FILE => False
  end.
Proof.
  intros Hin Hnone. destruct f; cbn [required] in Hin.
  all: repeat (apply elem_of_cons in Hin as [->|Hin]);
       try (by apply elem_of_nil in Hin).
  all: cbv delta [User.from_dict Department.from_dict Employee.from_dict
                  Task.from_dict]; cbv beta.
  all: stuck_bind Hnone.
Qed.

(** X19: a record that lacks a field stops the program at the start.  If
    one of the four entity files holds, anywhere in its list, a record
    without one of the fields that [from_dict] of its class reads with
    [data[...]], [__init__] ends in an exception: no object is built and
    nothing is written. *)
Theorem init_stops_at_an_incomplete_record {Self} (w : Py.World Self)
    (f : Py.file) (before after : list json) (item : json) (field : string) :
  Py.disk w f = (before ++ item :: after)%list ->
  field ∈ required f ->
  Json.item field item = None ->
  (exists e, (init w).1 = Py.Raise e) /\ (init w).2 = w.
Proof.
  destruct w as [sy d i o c t]. cbn [Py.disk].
  intros Hf Hin Hnone. pose proof (from_dict_needs f field item Hin Hnone) as Hbad.
  unfold init, _load_logs. run.
  destruct (load_items (d Py.USERS_FILE)) as [us|] eqn:Eu; run; [|by eauto].
  destruct (load_items (d Py.DEPARTMENTS_FILE)) as [ds|] eqn:Ed; run; [|by eauto].
  destruct (load_items (d Py.EMPLOYEES_FILE)) as [es|] eqn:Ee; run; [|by eauto].
  destruct (load_items (d Py.TASKS_FILE)) as [ks|] eqn:Ek; run; [|by eauto].
  exfalso. destruct f; [| | | |done].
  - rewrite Hf in Eu.
    by rewrite (load_items_unreadable (EA:=User_entity) _ _ _ (or_intror Hbad)) in Eu.
  - rewrite Hf in Ed.
    by rewrite (load_items_unreadable (EA:=Department_entity) _ _ _ (or_intror Hbad))
      in Ed.
  - rewrite Hf in Ee.
    by rewrite (load_items_unreadable (EA:=Employee_entity) _ _ _ (or_intror Hbad))
      in Ee.
  - rewrite Hf in Ek.
    by rewrite (load_items_unreadable (EA:=Task_entity) _ _ _ (or_intror Hbad)) in Ek.
Qed.

Lemma init_stops_at_an_incomplete_record_witness :
  exists e,
    (init (Py.MkWorld tt
             (Py.write Py.TASKS_FILE
                [to_dict Example.T1; JObj [("title", JStr "No id")]]
                (Example.files (Example.system None)))
             [] [] Example.clock 0)).1 = Py.Raise e.
Proof.
  assert (Hin : "task_id" ∈ required Py.TASKS_FILE) by compute_done.
  exact (proj1 (init_stops_at_an_incomplete_record
                  (Py.MkWorld tt
                     (Py.write Py.TASKS_FILE
                        [to_dict Example.T1; JObj [("title", JStr "No id")]]
                        (Example.files (Example.system None)))
                     [] [] Example.clock 0)
                  Py.TASKS_FILE [to_dict Example.T1] []
                  (JObj [("title", JStr "No id")]) "task_id" eq_refl Hin eq_refl)).
Defined.
(** ** Sorting *)

Lemma ascii_compare_refl a : Ascii.compare a a = Eq.
Proof. unfold Ascii.compare. apply N.compare_refl. Qed.

Lemma string_compare_refl s : String.compare s s = Eq.
Proof. induction s as [|c s IH]; [done|]. cbn. by rewrite ascii_compare_refl. Qed.

Lemma string_leb_refl s : String.leb s s = true.
Proof. unfold String.leb. by rewrite string_compare_refl. Qed.

Lemma string_leb_trans a b c :
  String.leb a b = true -> String.leb b c = true -> String.leb a c = true.
Proof.
  unfold String.leb. revert b c. induction a as [|x a IH]; intros [|y b] [|z c]; cbn;
    try done.
  unfold Ascii.compare.
  destruct (N.compare_spec (N_of_ascii x) (N_of_ascii y)) as [Hxy|Hxy|Hxy];
    destruct (N.compare_spec (N_of_ascii y) (N_of_ascii z)) as [Hyz|Hyz|Hyz];
    destruct (N.compare_spec (N_of_ascii x) (N_of_ascii z)) as [Hxz|Hxz|Hxz];
    try done; try lia.
  apply IH.
Qed.

Section Sorted.
Context {A : Type} (key : A -> string).

Lemma insert_by_Permutation x l : Builtins.insert_by key x l ≡ₚ x :: l.
Proof.
  induction l as [|y l IH]; [done|]. cbn.
  destruct (String.leb (key x) (key y)); [done|].
  rewrite IH. apply Permutation_swap.
Qed.

Lemma sorted_Permutation l : Builtins.sorted key l ≡ₚ l.
Proof.
  unfold Builtins.sorted. induction l as [|x l IH]; [done|]. cbn [foldr].
  rewrite insert_by_Permutation. by apply Permutation_skip.
Qed.

Lemma insert_by_ordered x l :
  StronglySorted (ordered key) l ->
  StronglySorted (ordered key) (Builtins.insert_by key x l).
Proof.
  induction 1 as [|y l Hl IH Hy]; cbn.
  - repeat constructor.
  - destruct (String.leb (key x) (key y)) eqn:E.
    + constructor; [by constructor|]. constructor; [done|].
      eapply Forall_impl; [exact Hy|]. intros z Hz. unfold ordered in *.
      by eapply string_leb_trans.
    + constructor; [done|]. rewrite insert_by_Permutation. constructor; [|done].
      unfold ordered. destruct (String.leb_total (key x) (key y)); [congruence|done].
Qed.

Lemma sorted_ordered l : StronglySorted (ordered key) (Builtins.sorted key l).
Proof.
  unfold Builtins.sorted. induction l as [|x l IH]; [constructor|]. cbn [foldr].
  by apply insert_by_ordered.
Qed.

Lemma insert_by_desc_Permutation x l : Builtins.insert_by_desc key x l ≡ₚ x :: l.
Proof.
  induction l as [|y l IH]; [done|]. cbn.
  destruct (String.leb (key y) (key x)); [done|].
  rewrite IH. apply Permutation_swap.
Qed.

Lemma sorted_desc_Permutation l : Builtins.sorted_desc key l ≡ₚ l.
Proof.
  unfold Builtins.sorted_desc. induction l as [|x l IH]; [done|]. cbn [foldr].
  rewrite insert_by_desc_Permutation. by apply Permutation_skip.
Qed.

Lemma insert_by_desc_ordered x l :
  StronglySorted (flip (ordered key)) l ->
  StronglySorted (flip (ordered key)) (Builtins.insert_by_desc key x l).
Proof.
  induction 1 as [|y l Hl IH Hy]; cbn.
  - repeat constructor.
  - destruct (String.leb (key y) (key x)) eqn:E.
    + constructor; [by constructor|]. constructor; [done|].
      eapply Forall_impl; [exact Hy|]. intros z Hz. unfold flip, ordered in *.
      by eapply string_leb_trans.
    + constructor; [done|]. rewrite insert_by_desc_Permutation. constructor; [|done].
      unfold flip, ordered.
      destruct (String.leb_total (key x) (key y)); [done|congruence].
Qed.

Lemma sorted_desc_ordered l :
  StronglySorted (flip (ordered key)) (Builtins.sorted_desc key l).
Proof.
  unfold Builtins.sorted_desc. induction l as [|x l IH]; [constructor|]. cbn [foldr].
  by apply insert_by_desc_ordered.
Qed.

(** Where no two elements have the same key, the order of the input does
    not show in the result. *)
Lemma sorted_unique l l' :
  NoDup (key <$> l) -> l ≡ₚ l' -> Builtins.sorted key l = Builtins.sorted key l'.
Proof.
  intros Hnd Hp.
  apply (StronglySorted_unique_strong (ordered key)).
  - intros a b Ha Hb Hab Hba. rewrite sorted_Permutation in Ha.
    rewrite sorted_Permutation, <- Hp in Hb.
    pose proof (String.leb_antisym _ _ Hab Hba) as Hk.
    apply list_elem_of_lookup in Ha as [i Hi]. apply list_elem_of_lookup in Hb as [j Hj].
    assert (i = j) as ->; [|congruence].
    eapply NoDup_lookup; [exact Hnd| |]; rewrite list_lookup_fmap.
    + by rewrite Hi.
    + rewrite Hj. cbn. by rewrite Hk.
  - apply sorted_ordered.
  - apply sorted_ordered.
  - by rewrite !sorted_Permutation.
Qed.

End Sorted.
(** ** The other listings *)

Lemma print_lines_run {Self} (lines : list string) (w : Py.World Self) :
  print_lines lines w
  = (Py.Ok tt, Py.MkWorld (Py.self w) (Py.disk w) (Py.stdin w)
                          (Py.stdout w ++ (Py.Line <$> lines)) (Py.clock w)
                          (Py.ticks w)).
Proof.
  revert w. induction lines as [|r lines IH]; intros [s d i o c t].
  - cbn. by rewrite app_nil_r.
  - cbn [print_lines]. unfold Py.bind, Py.print, Py.emit. cbn. rewrite IH. cbn.
    by rewrite <- app_assoc.
Qed.

Lemma elem_of_values {A} (d : gmap string A) (a : A) :
  a ∈ values d <-> exists k, d !! k = Some a.
Proof.
  unfold values. rewrite list_elem_of_fmap. split.
  - intros ([k a'] & -> & Hin). exists k. by apply elem_of_map_to_list.
  - intros [k Hk]. exists (k, a). split; [done|]. by apply elem_of_map_to_list.
Qed.

Lemma keyed_NoDup {A} (ident : A -> string) (d : gmap string A) :
  keyed ident d -> NoDup (ident <$> values d).
Proof.
  intros Hk. unfold values.
  replace (ident <$> (map_to_list d).*2) with (map_to_list d).*1.
  - apply NoDup_fst_map_to_list.
  - rewrite <- list_fmap_compose. apply Forall_fmap_ext_1, Forall_forall.
    intros [k a] Hin. cbn. symmetry. apply (Hk k a).
    by apply elem_of_map_to_list.
Qed.

(** X20: [list_users] is for admins and managers, and shows every user
    once, by name.  It always returns and changes nothing.  A caller who
    is not logged in as admin or manager gets "Permission denied" and no
    row.  For an admin or a manager it prints the title, the header and
    one row for each user, the rows being the users of the collection
    arranged by user name; when the collection is keyed by user name, the
    rows are the same in whatever order the dictionary holds the users. *)
Theorem list_users_shows_every_user (w : Py.World AdminSystem.t) :
  (list_users w).1 = Py.Ok tt
  /\ unchanged w (list_users w).2
  /\ (role_in ["admin"; "manager"] (Py.self w) = false ->
      Py.stdout (list_users w).2 = (Py.stdout w ++ [Py.Line "Permission denied"])%list)
  /\ (role_in ["admin"; "manager"] (Py.self w) = true ->
      exists title header shown,
        Py.stdout (list_users w).2
        = (Py.stdout w ++ Py.Line title :: Py.Line header
             :: (Py.Line <$> (user_row <$> shown)))%list
        /\ shown ≡ₚ values (users (Py.self w))
        /\ StronglySorted (ordered User.username) shown
        /\ (keyed User.username (users (Py.self w)) ->
            forall l, l ≡ₚ values (users (Py.self w)) ->
                      Builtins.sorted User.username l = shown)).
Proof.
  destruct w as [sy d i o c t]. cbn [Py.self Py.stdout].
  unfold list_users. run.
  destruct (role_in ["admin"; "manager"] sy); run.
  - rewrite print_lines_run. cbn.
    split; [done|]. split; [done|]. split; [done|]. intros _.
    eexists _, _, _. split; [by rewrite <- !app_assoc|].
    split; [apply sorted_Permutation|]. split; [apply sorted_ordered|].
    intros Hk l Hl. symmetry. apply sorted_unique; [by apply keyed_NoDup|done].
  - done.
Qed.

Lemma list_users_shows_every_user_witness :
  Py.stdout (list_users (Example.world (Some "sam") [])).2
  = [Py.Line "Permission denied"]
  /\ exists title header shown,
       Py.stdout (list_users (Example.world (Some "m1") [])).2
       = ([] ++ Py.Line title :: Py.Line header
             :: (Py.Line <$> (user_row <$> shown)))%list
       /\ shown ≡ₚ values (users (Example.system (Some "m1")))
       /\ StronglySorted (ordered User.username) shown.
Proof.
  pose proof (list_users_shows_every_user (Example.world (Some "sam") []))
    as (_ & _ & Hdenied & _).
  pose proof (list_users_shows_every_user (Example.world (Some "m1") []))
    as (_ & _ & _ & Hshown).
  split; [exact (Hdenied eq_refl)|].
  destruct (Hshown eq_refl) as (title & header & shown & Hout & Hp & Hs & _).
  exists title, header, shown. exact (conj Hout (conj Hp Hs)).
Defined.

(** X21: [list_tasks] with an employee id shows the tasks assigned to that
    id and no other, by due date.  It asks for no session, always returns
    and changes nothing.  With a non-empty id it prints the title, a line
    naming the assignee (the employee's full name, or the id itself when
    no employee has it), the header and one row for each task whose
    assignee is that id: the rows are those tasks, each once, rearranged;
    with no id, or the empty one, it prints a row for every task.  Rows
    are arranged by the text of the due date. *)
Theorem list_tasks_shows_the_assigned (w : Py.World AdminSystem.t) :
  (forall assigned_to,
     (list_tasks assigned_to w).1 = Py.Ok tt
     /\ unchanged w (list_tasks assigned_to w).2)
  /\ (forall c id,
        exists title header shown,
          Py.stdout (list_tasks (Some (String c id)) w).2
          = (Py.stdout w
             ++ Py.Line title
             :: Py.Line ("Tasks assigned to "
                         ++ assignee_name (Py.self w) (String c id) ++ ":")
             :: Py.Line header
             :: (Py.Line <$> (task_row (Py.self w) <$> shown)))%list
          /\ StronglySorted (ordered Task.due_date) shown
          /\ shown ≡ₚ filter (fun task => Task.assigned_to task = String c id)
                        (values (tasks (Py.self w)))
          /\ forall task,
               task ∈ shown
               <-> (exists k, tasks (Py.self w) !! k = Some task)
                   /\ Task.assigned_to task = String c id)
  /\ (forall assigned_to,
        assigned_to = None \/ assigned_to = Some "" ->
        exists title header shown,
          Py.stdout (list_tasks assigned_to w).2
          = (Py.stdout w ++ Py.Line title :: Py.Line header
               :: (Py.Line <$> (task_row (Py.self w) <$> shown)))%list
          /\ StronglySorted (ordered Task.due_date) shown
          /\ shown ≡ₚ values (tasks (Py.self w))).
Proof.
  destruct w as [sy d i o c t]. cbn [Py.self Py.stdout].
  split; [|split].
  - intros [[|ch id]|]; unfold list_tasks; run; by rewrite print_lines_run.
  - intros ch id. unfold list_tasks. run. rewrite print_lines_run. cbn.
    eexists _, _, _. split; [by rewrite <- !app_assoc|].
    split; [apply sorted_ordered|]. split; [apply sorted_Permutation|].
    intros task. rewrite sorted_Permutation, list_elem_of_filter, elem_of_values.
    tauto.
  - intros assigned_to [-> | ->]; unfold list_tasks; run; rewrite print_lines_run; cbn.
    all: eexists _, _, _; (split; [by rewrite <- !app_assoc|]).
    all: split; [apply sorted_ordered|apply sorted_Permutation].
Qed.

Lemma list_tasks_shows_the_assigned_witness :
  (exists title header shown,
     Py.stdout (list_tasks (Some "E1") (Example.world None [])).2
     = (Py.stdout (Example.world None [])
        ++ Py.Line title
        :: Py.Line ("Tasks assigned to "
                    ++ assignee_name (Py.self (Example.world None [])) "E1" ++ ":")
        :: Py.Line header
        :: (Py.Line <$> (task_row (Py.self (Example.world None [])) <$> shown)))%list
     /\ StronglySorted (ordered Task.due_date) shown
     /\ shown ≡ₚ filter (fun task => Task.assigned_to task = "E1")
                   (values (tasks (Py.self (Example.world None [])))))
  /\ exists title header shown,
       Py.stdout (list_tasks None (Example.world None [])).2
       = (Py.stdout (Example.world None [])
          ++ Py.Line title :: Py.Line header
          :: (Py.Line <$> (task_row (Py.self (Example.world None [])) <$> shown)))%list
       /\ StronglySorted (ordered Task.due_date) shown
       /\ shown ≡ₚ values (tasks (Py.self (Example.world None []))).
Proof.
  pose proof (list_tasks_shows_the_assigned (Example.world None []))
    as (_ & Hid & Hall).
  split.
  - destruct (Hid "E"%char "1") as (title & header & shown & Hout & Hs & Hp & _).
    exists title, header, shown. exact (conj Hout (conj Hs Hp)).
  - exact (Hall None (or_introl eq_refl)).
Defined.
(** ** Reports *)

Lemma list_employees_run department_id s d i o c t :
  exists rows,
    list_employees department_id (Py.MkWorld s d i o c t)
    = (Py.Ok tt, Py.MkWorld s d i (o ++ rows) c t).
Proof.
  destruct department_id as [[|ch id]|].
  - change (list_employees (Some "")) with (list_employees None).
    rewrite list_employees_all_run. by eexists.
  - unfold list_employees. run.
    destruct (departments s !! String ch id) as [dept|]; run.
    + rewrite print_all_run. cbn. eexists. by rewrite <- !app_assoc.
    + eexists. by rewrite <- !app_assoc.
  - rewrite list_employees_all_run. by eexists.
Qed.

Lemma log_row_entry (log : json) s d i o c t :
  entry log ->
  exists row, log_row log (Py.MkWorld s d i o c t) = (Py.Ok row, Py.MkWorld s d i o c t).
Proof.
  intros (stamp & user & action & details & ->). unfold log_row, log_field. run.
  rewrite fromisoformat_isoformat. run. by eexists.
Qed.

Lemma print_logs_entries (l : list json) s d i o c t :
  Forall entry l ->
  exists rows,
    print_logs l (Py.MkWorld s d i o c t)
    = (Py.Ok tt, Py.MkWorld s d i (o ++ (Py.Line <$> rows)) c t)
    /\ length rows = length l.
Proof.
  intros Hl. revert o. induction Hl as [|log l Hlog Hl IH]; intros o.
  - exists []. cbn. by rewrite app_nil_r.
  - cbn [print_logs]. unfold Py.bind at 1 2.
    destruct (log_row_entry log s d i o c t Hlog) as [row ->].
    unfold Py.print, Py.emit. cbn [Py.self Py.disk Py.stdin Py.stdout Py.clock Py.ticks].
    destruct (IH (o ++ [Py.Line row])%list) as (rows & -> & Hlen).
    exists (row :: rows). cbn. rewrite <- app_assoc. split; [done|]. by rewrite Hlen.
Qed.

Lemma stamped_entries (l : list json) :
  Forall entry l ->
  exists stamped,
    mapM (fun log => k ← log_field "timestamp" log; Some (k, log)) l = Some stamped
    /\ stamped.*2 = l.
Proof.
  induction 1 as [|log l Hlog Hl (stamped & IH & Hs)].
  - by exists [].
  - destruct Hlog as (stamp & user & action & details & ->).
    exists ((Datetime.isoformat stamp,
             JObj [ ("timestamp", JStr (Datetime.isoformat stamp));
                    ("user", JStr user); ("action", JStr action);
                    ("details", JStr details) ]) :: stamped).
    cbn. rewrite IH. cbn. by rewrite Hs.
Qed.

Lemma reports_unchanged (w : Py.World AdminSystem.t) :
  unchanged w (generate_department_report w).2
  /\ unchanged w (generate_employee_report w).2
  /\ unchanged w (view_activity_logs w).2.
Proof.
  destruct w as [sy d i o c t]. split; [|split].
  - unfold generate_department_report. run.
    destruct (negb _); run; [done|]. rewrite list_departments_run. run.
    destruct i as [|dept_id rest]; run; [done|].
    destruct (departments sy !! dept_id) as [dept|]; run; [|done].
    destruct (users sy !! Department.manager dept); run; [|done].
    match goal with
    | |- context [list_employees ?a (Py.MkWorld ?s ?d ?i ?o ?c ?t)] =>
        destruct (list_employees_run a s d i o c t) as [rows ->]
    end.
    run. by rewrite print_lines_run.
  - unfold generate_employee_report. run.
    destruct (current sy); run; [|done]. rewrite list_employees_all_run. run.
    destruct i as [|emp_id rest]; run; [done|].
    destruct (employees sy !! emp_id) as [emp|]; run; [|done].
    destruct (filter _ _); run; [done|]. by rewrite print_lines_run.
  - unfold view_activity_logs. run.
    destruct (negb _); run; [done|].
    destruct (mapM _ _) as [stamped|]; run; [|done].
    match goal with
    | |- context [print_logs ?l (Py.MkWorld _ _ _ ?o _ _)] =>
        generalize o; generalize l
    end.
    intros l. induction l as [|log l IH]; intros o'; [by cbn|].
    cbn [print_logs]. unfold log_row. run.
    repeat (match goal with
            | |- context [match ?x with _ => _ end] => innermost x; destruct x; run
            end; try done).
    all: apply IH.
Qed.

(** X22: the reports and the log viewer only read.  Whatever the operator
    types and whether they return or raise, [generate_department_report],
    [generate_employee_report] and [view_activity_logs] leave the object
    and the files as they were. *)
Theorem reports_change_nothing (w : Py.World AdminSystem.t) :
  unchanged w (generate_department_report w).2
  /\ unchanged w (generate_employee_report w).2
  /\ unchanged w (view_activity_logs w).2.
Proof. exact (reports_unchanged w). Qed.
(** X23: the department report stops at a department whose manager is not
    a user, and under referential integrity it never does.  For an admin
    or a manager who selects an existing department: when no user has the
    name the department gives as its manager, the report ends in
    [KeyError] after the line with the department's name (the list of
    departments shows "Unknown" in this case); when the manager exists the
    report returns, shows the number of ids in the department's list as
    the employee count, and ends with one line for each task whose
    assignee is in that list, by due date: the lines are those tasks,
    each once, rearranged.  The references that the operations keep are
    enough for the report to return. *)
Theorem department_report_needs_the_manager (w : Py.World AdminSystem.t)
    dept_id rest dept :
  role_in ["admin"; "manager"] (Py.self w) = true ->
  Py.stdin w = dept_id :: rest ->
  departments (Py.self w) !! dept_id = Some dept ->
  (users (Py.self w) !! Department.manager dept = None ->
   (generate_department_report w).1 = Py.Raise Py.KeyError
   /\ last (Py.stdout (generate_department_report w).2)
      = Some (Py.Line (nl ++ "Department: " ++ Department.name dept)))
  /\ (is_Some (users (Py.self w) !! Department.manager dept) ->
      (generate_department_report w).1 = Py.Ok tt
      /\ exists printed shown,
           Py.stdout (generate_department_report w).2
           = (printed ++ Py.Line (nl ++ "Tasks:")
                :: (Py.Line <$> (task_line <$> shown)))%list
           /\ Py.Line ("Employee Count: "
                       ++ Datetime.decimal
                            (N.of_nat (length (Department.employees dept))))
              ∈ printed
           /\ StronglySorted (ordered Task.due_date) shown
           /\ shown ≡ₚ filter (fun task => Task.assigned_to task
                                           ∈ Department.employees dept)
                         (values (tasks (Py.self w)))
           /\ forall task,
                task ∈ shown
                <-> (exists k, tasks (Py.self w) !! k = Some task)
                    /\ Task.assigned_to task ∈ Department.employees dept)
  /\ (referential_integrity (Py.self w) ->
      (generate_department_report w).1 = Py.Ok tt).
Proof.
  destruct w as [sy d i o c t]. cbn [Py.self Py.stdin]. intros Hr -> Hd.
  assert (Hrun : is_Some (users sy !! Department.manager dept) ->
    (generate_department_report (Py.MkWorld sy d (dept_id :: rest) o c t)).1 = Py.Ok tt
    /\ exists printed shown,
         Py.stdout (generate_department_report
                      (Py.MkWorld sy d (dept_id :: rest) o c t)).2
         = (printed ++ Py.Line (nl ++ "Tasks:")
              :: (Py.Line <$> (task_line <$> shown)))%list
         /\ Py.Line ("Employee Count: "
                     ++ Datetime.decimal
                          (N.of_nat (length (Department.employees dept))))
            ∈ printed
         /\ StronglySorted (ordered Task.due_date) shown
         /\ shown ≡ₚ filter (fun task => Task.assigned_to task
                                         ∈ Department.employees dept)
                       (values (tasks sy))
         /\ forall task,
              task ∈ shown
              <-> (exists k, tasks sy !! k = Some task)
                  /\ Task.assigned_to task ∈ Department.employees dept).
  { intros [m Hm].
    isolate (generate_department_report (Py.MkWorld sy d (dept_id :: rest) o c t)).
    unfold generate_department_report. run. rewrite Hr. run.
    rewrite list_departments_run. run. rewrite Hd. run. rewrite Hm. run.
    match goal with
    | |- context [list_employees ?a (Py.MkWorld ?s ?d ?i ?o ?c ?t)] =>
        destruct (list_employees_run a s d i o c t) as [rows ->]
    end.
    run. rewrite print_lines_run. cbn. intros [= <- <-]. split; [done|].
    eexists _, _. split; [symmetry; apply app_cons_middle|].
    split; [|split; [apply sorted_ordered|split; [apply sorted_Permutation|]]].
    - rewrite !elem_of_app. left. left. right. by apply list_elem_of_singleton.
    - intros task. rewrite sorted_Permutation, list_elem_of_filter, elem_of_values.
      tauto. }
  split; [|split].
  - intros Hm. unfold generate_department_report. run. rewrite Hr. run.
    rewrite list_departments_run. run. rewrite Hd. run. rewrite Hm. run.
    split; [done|]. by rewrite last_snoc.
  - exact Hrun.
  - intros (Hman & _). destruct (Hman dept_id dept Hd) as (m & Hm & _).
    apply Hrun. by exists m.
Qed.

(** The report on D9, whose manager is not a user, stops after the
    department's name; the report on D1 returns and lists the two tasks of
    its employee. *)
Lemma department_report_needs_the_manager_witness :
  ((generate_department_report (Example.orphaned (Some "admin") ["D9"])).1
   = Py.Raise Py.KeyError
   /\ last (Py.stdout (generate_department_report
                         (Example.orphaned (Some "admin") ["D9"])).2)
      = Some (Py.Line (nl ++ "Department: Lost")))
  /\ (generate_department_report (Example.world (Some "m1") ["D1"])).1 = Py.Ok tt
  /\ exists printed shown,
       Py.stdout (generate_department_report (Example.world (Some "m1") ["D1"])).2
       = (printed ++ Py.Line (nl ++ "Tasks:")
            :: (Py.Line <$> (task_line <$> shown)))%list
       /\ shown ≡ₚ [Example.T1; Example.T2].
Proof.
  pose proof (department_report_needs_the_manager
                (Example.orphaned (Some "admin") ["D9"]) "D9" []
                (Department.init "D9" "Lost" "ghost" "" Example.t0)
                eq_refl eq_refl eq_refl) as (Hstop & _).
  pose proof (department_report_needs_the_manager
                (Example.world (Some "m1") ["D1"]) "D1" [] Example.D1
                eq_refl eq_refl eq_refl) as (_ & Hrun & _).
  assert (Hm : is_Some (users (Py.self (Example.world (Some "m1") ["D1"]))
                          !! Department.manager Example.D1)).
  { exists Example.m1. reflexivity. }
  split; [exact (Hstop eq_refl)|].
  destruct (Hrun Hm) as (Hok & printed & shown & Hout & _ & _ & Hp & _).
  split; [exact Hok|]. exists printed, shown. split; [exact Hout|].
  exact Hp.
Defined.

(** X24: the log viewer is for admins and shows at most fifty entries.
    A caller who is not logged in as admin gets the line "Only admins can
    view activity logs" and nothing else.  For an admin, when the log
    holds entries as the operations write them, the viewer returns and
    prints the title, the header and one row for each entry, up to fifty
    of them: it reads back every timestamp that [_log_activity] wrote. *)
Theorem view_activity_logs_shows_fifty (w : Py.World AdminSystem.t) :
  (role_in ["admin"] (Py.self w) = false ->
   (view_activity_logs w).1 = Py.Ok tt
   /\ Py.stdout (view_activity_logs w).2
      = (Py.stdout w ++ [Py.Line "Only admins can view activity logs"])%list)
  /\ (role_in ["admin"] (Py.self w) = true ->
      Forall entry (logs (Py.self w)) ->
      (view_activity_logs w).1 = Py.Ok tt
      /\ exists title header rows,
           Py.stdout (view_activity_logs w).2
           = (Py.stdout w ++ Py.Line title :: Py.Line header
                :: (Py.Line <$> rows))%list
           /\ length rows = min 50 (length (logs (Py.self w)))).
Proof.
  destruct w as [sy d i o c t]. cbn [Py.self Py.stdout]. split; intros Hr.
  - unfold view_activity_logs. run. by rewrite Hr.
  - intros Hl. isolate (view_activity_logs (Py.MkWorld sy d i o c t)).
    unfold view_activity_logs. run. rewrite Hr. run.
    destruct (stamped_entries (logs sy) Hl) as (stamped & -> & Hs). run.
    match goal with
    | |- context [print_logs ?l (Py.MkWorld ?s ?d ?i ?o ?c ?t)] =>
        assert (Hshown : Forall entry l /\ length l = min 50 (length (logs sy)));
        [|destruct Hshown as [Hshown Hlen];
          destruct (print_logs_entries l s d i o c t Hshown) as (rows & -> & Hrows)]
    end.
    + split.
      * apply Forall_forall. intros log Hin.
        apply list_elem_of_fmap in Hin as ([k log'] & Heq & Hin).
        apply elem_of_take in Hin as (n & Hin & _).
        apply list_elem_of_lookup_2 in Hin. rewrite sorted_desc_Permutation in Hin.
        rewrite Forall_forall in Hl. apply Hl. rewrite <- Hs.
        apply list_elem_of_fmap. by exists (k, log').
      * rewrite length_fmap, length_take.
        rewrite (Permutation_length (sorted_desc_Permutation _ _)).
        by rewrite <- Hs, length_fmap.
    + intros [= <- <-]. split; [done|].
      eexists _, _, rows. split; [cbn; by rewrite <- !app_assoc|].
      by rewrite Hrows.
Qed.

(** The manager is turned away; the admin, on a log of 51 entries, is
    shown 50 rows. *)
Lemma view_activity_logs_shows_fifty_witness :
  Py.stdout (view_activity_logs (Example.busy (Some "m1") [])).2
  = [Py.Line "Only admins can view activity logs"]
  /\ (view_activity_logs (Example.busy (Some "admin") [])).1 = Py.Ok tt
  /\ exists title header rows,
       Py.stdout (view_activity_logs (Example.busy (Some "admin") [])).2
       = ([] ++ Py.Line title :: Py.Line header :: (Py.Line <$> rows))%list
       /\ length rows = 50.
Proof.
  pose proof (view_activity_logs_shows_fifty (Example.busy (Some "m1") []))
    as [Hdenied _].
  pose proof (view_activity_logs_shows_fifty (Example.busy (Some "admin") []))
    as [_ Hshown].
  assert (Hlog : Forall entry (logs (Py.self (Example.busy (Some "admin") [])))).
  { apply Forall_fmap, Forall_forall. intros n _.
    by exists (Example.clock n), "sam", "login", "User sam logged in". }
  split; [exact (proj2 (Hdenied eq_refl))|].
  destruct (Hshown eq_refl Hlog) as (Hok & title & header & rows & Hout & Hlen).
  split; [exact Hok|]. exists title, header, rows. exact (conj Hout Hlen).
Defined.
(** ** A run of the menu *)

Lemma steady_restartable w : steady w -> restartable (Py.disk w).
Proof. intros [Hc Hm]. by exists (Py.self w). Qed.

Lemma safe_ret {A} (a : A) : safe (Py.ret a).
Proof. by intros w Hw. Qed.

Lemma safe_bind {A B} (m : Py.M AdminSystem.t A) (k : A -> Py.M AdminSystem.t B) :
  safe m -> (forall a, safe (k a)) -> safe (Py.bind m k).
Proof.
  intros Hm Hk w Hw. specialize (Hm w Hw). unfold Py.bind.
  destruct (m w) as [[a|e] w1]; cbn in *; [|done]. by apply Hk.
Qed.

Lemma safe_get : safe Py.get.
Proof. by intros [s d i o c t] Hw. Qed.

Lemma safe_emit p : safe (Py.emit p).
Proof. by intros [s d i o c t] Hw. Qed.

Lemma safe_print text : safe (Py.print text).
Proof. apply safe_emit. Qed.

Lemma safe_input prompt : safe (Py.input prompt).
Proof.
  intros [s d i o c t] Hw. unfold Py.input, Py.bind, Py.emit, Py.readline. cbn.
  destruct i; cbn; [|done]. by apply steady_restartable in Hw.
Qed.

(** A computation that leaves the object and the files alone. *)
Lemma safe_unchanged {A} (m : Py.M AdminSystem.t A) :
  (forall w, unchanged w (m w).2) -> safe m.
Proof.
  intros Hm w Hw. destruct (Hm w) as [Hs Hd].
  assert (Hw' : steady (m w).2).
  { destruct Hw as [Hc Hmir]. unfold steady, mirrored. by rewrite Hs, Hd. }
  destruct (m w).1; [done|]. by apply steady_restartable.
Qed.

Lemma entries_kept before after :
  appended before after -> Forall entry before -> Forall entry after.
Proof.
  intros [-> | (log & Hlog & ->)] Hb; [done|].
  apply Forall_app. split; [done|]. by constructor.
Qed.

Lemma consistent_kept (w : Py.World AdminSystem.t) :
  consistent (Py.self w) ->
  consistent (Py.self (login w).2)
  /\ consistent (Py.self (logout w).2)
  /\ consistent (Py.self (change_password w).2)
  /\ consistent (Py.self (create_user w).2)
  /\ consistent (Py.self (create_department w).2)
  /\ consistent (Py.self (add_employee w).2)
  /\ consistent (Py.self (create_task w).2)
  /\ consistent (Py.self (update_task_status w).2).
Proof.
  intros (Hk & Hr & Hf & Hs & He).
  pose proof (keyed_kept w Hk) as (K1 & K2 & K3 & K4 & K5 & K6 & K7 & K8).
  pose proof (references_kept w (conj Hk Hr)) as (R1 & R2 & R3 & R4 & R5 & R6 & R7 & R8).
  pose proof (fields_kept w Hf) as (F1 & F2 & F3 & F4 & F5 & F6 & F7 & F8).
  pose proof (log_appended w) as (L1 & L2 & L3 & L4 & L5 & L6 & L7 & L8).
  pose proof (session_kept w Hs)
    as ([S1 _] & [S2 _] & [S3 _] & [S4 _] & [S5 _] & [S6 _] & [S7 _] & [S8 _]).
  repeat match goal with |- consistent _ /\ _ => split end.
  all: refine (conj _ (conj _ (conj _ (conj _ _)))); eauto using entries_kept.
Qed.

Lemma operation_safe {A} (m : Py.M AdminSystem.t A) :
  (forall w, consistent (Py.self w) -> consistent (Py.self (m w).2)) ->
  (forall w a, mirrored w -> (m w).1 = Py.Ok a -> mirrored (m w).2) ->
  (forall w e, (m w).1 = Py.Raise e -> Py.disk (m w).2 = Py.disk w) ->
  safe m.
Proof.
  intros Hc Hm Hr w [Hw1 Hw2]. destruct (m w).1 as [a|e] eqn:E.
  - split; [by apply Hc|by eapply Hm].
  - exists (Py.self w). split; [done|]. by rewrite (Hr w e E).
Qed.

Lemma operations_safe :
  safe login /\ safe logout /\ safe change_password /\ safe create_user
  /\ safe create_department /\ safe add_employee /\ safe create_task
  /\ safe update_task_status.
Proof.
  repeat match goal with |- safe _ /\ _ => split end.
  all: apply operation_safe.
  all: try (intros w Hw; by apply (consistent_kept w Hw)).
  all: try (intros w a Hw; destruct a; by apply (files_in_step w Hw)).
  all: try (intros w a Hw; by apply (files_in_step w Hw)).
  all: intros w e Hr;
       pose proof (nothing_written w e) as (N1 & N2 & N3 & N4 & N5 & N6 & N7 & N8).
  - by destruct (N1 Hr).
  - by destruct (N2 Hr).
  - by destruct (N3 Hr).
  - by destruct (N4 Hr).
  - by destruct (N5 Hr).
  - by destruct (N6 Hr).
  - by destruct (N7 Hr).
  - by destruct (N8 Hr).
Qed.

Lemma listings_safe :
  safe list_users /\ safe list_departments /\ (forall a, safe (list_employees a))
  /\ (forall a, safe (list_tasks a)) /\ safe generate_department_report
  /\ safe generate_employee_report /\ safe view_activity_logs.
Proof.
  repeat match goal with |- _ /\ _ => split end; try intros a.
  all: apply safe_unchanged; intros w.
  - destruct w as [sy d i o c t]. unfold list_users. run.
    destruct (negb _); run; [done|]. by rewrite print_lines_run.
  - destruct w as [sy d i o c t]. by rewrite list_departments_run.
  - destruct w as [sy d i o c t].
    by destruct (list_employees_run a sy d i o c t) as [rows ->].
  - destruct w as [sy d i o c t].
    destruct a as [[|ch id]|]; unfold list_tasks; run; by rewrite print_lines_run.
  - apply reports_unchanged.
  - apply reports_unchanged.
  - apply reports_unchanged.
Qed.

Ltac safe_step :=
  lazymatch goal with
  | |- safe (if ?b then _ else _) => destruct b
  | |- safe (match ?x with _ => _ end) => destruct x
  | |- safe (Py.bind _ _) => apply safe_bind; [|intros ?]
  | |- safe (Py.ret _) => apply safe_ret
  | |- safe (Py.print _) => apply safe_print
  | |- safe (Py.input _) => apply safe_input
  | |- safe Py.get => apply safe_get
  | |- safe _ => solve [auto]
  end.

Lemma main_menu_round_safe : safe main_menu_round.
Proof.
  destruct operations_safe as (? & ? & ? & ? & ? & ? & ? & ?).
  destruct listings_safe as (? & ? & ? & ? & ? & ? & ?).
  unfold main_menu_round, user_management, department_management,
    employee_management, task_management, reports.
  repeat safe_step.
Qed.

Lemma main_menu_safe rounds : safe (main_menu rounds).
Proof.
  induction rounds as [|rounds IH]; cbn [main_menu]; [apply safe_ret|].
  apply safe_bind; [apply main_menu_round_safe|].
  intros []; [done|apply safe_ret].
Qed.
Lemma consistent_logged_out s : consistent s -> consistent (set_current_user None s).
Proof.
  intros (Hk & Hr & Hf & Hs & He).
  refine (conj _ (conj _ (conj _ (conj _ _)))); try done.
Qed.

(** X25: whatever happens in the menu, the files can be read back.  Start
    between two operations: the object consistent (collections keyed by
    identifier, references intact, fields valid, session valid, log made
    of entries) and the files holding it.  Then after any number of rounds
    of the menu, whatever the operator types: if the rounds returned, the
    object is consistent again and the files hold it; and in every case,
    also when an exception ended the run, [__init__] run on the files that
    are left returns a consistent object. *)
Theorem every_run_leaves_restartable_files (w : Py.World AdminSystem.t)
    (rounds : nat) :
  steady w ->
  (forall f, (main_menu rounds w).1 = Py.Ok f -> steady (main_menu rounds w).2)
  /\ exists s,
       consistent s
       /\ init (main_menu rounds w).2 = (Py.Ok s, (main_menu rounds w).2).
Proof.
  intros Hw. pose proof (main_menu_safe rounds w Hw) as Hsafe.
  assert (Hr : restartable (Py.disk (main_menu rounds w).2)).
  { destruct (main_menu rounds w).1; [by apply steady_restartable|done]. }
  split.
  - intros f Hf. by rewrite Hf in Hsafe.
  - destruct Hr as (s & Hs & Hd). exists (set_current_user None s).
    split; [by apply consistent_logged_out|].
    apply init_reads; [done|]. by destruct Hs.
Qed.

Lemma example_steady : steady (Example.installed (Some "admin") ["7"; "0"]).
Proof. split; [exact example_consistent|apply installed_mirrored]. Qed.

Lemma every_run_leaves_restartable_files_witness :
  exists s,
    consistent s
    /\ init (main_menu 5 (Example.installed (Some "admin") ["7"; "0"])).2
       = (Py.Ok s, (main_menu 5 (Example.installed (Some "admin") ["7"; "0"])).2).
Proof.
  exact (proj2 (every_run_leaves_restartable_files
                  (Example.installed (Some "admin") ["7"; "0"]) 5 example_steady)).
Defined.

(** ** The script *)

Lemma empty_consistent :
  consistent {| current_user := None; users := ∅; departments := ∅;
                employees := ∅; tasks := ∅; logs := [] |}.
Proof.
  refine (conj _ (conj _ (conj _ (conj _ _)))).
  - repeat split; apply map_Forall_empty.
  - split; [|split; [|split]]; cbn; intros; simplify_map_eq.
  - split; [|split]; apply map_Forall_empty.
  - intros key Hk. done.
  - constructor.
Qed.

Lemma create_default_admin_safe : safe create_default_admin.
Proof.
  intros [sy d i o c t] [(Hk & Hr & Hf & Hs & He) Hm].
  unfold create_default_admin. run.
  case_bool_decide as Hu; exec; [|by split].
  split.
  - destruct Hk as (Ku & Kd & Ke & Kt). destruct Hf as (Fu & Fe & Ft).
    refine (conj _ (conj _ (conj _ (conj _ _)))); cbn; try done.
    + split; [|done]. cbn. by apply keyed_insert.
    + unfold referential_integrity. cbn. apply references_user_new; [|done].
      by rewrite Hu.
    + split; [|done]. cbn. apply valid_insert; [compute_done|done].
    + intros k Hc. cbn in *. apply lookup_insert_is_Some'. right. by apply Hs.
  - destruct Hm as (Mu & Md & Me & Mt & Ml). by mirror.
Qed.

(** X26: a run of the script leaves files that the next run can read.
    If the files are empty lists (a new installation), or hold some
    consistent object, then after a run of the script (the object built
    from the files, the default admin created if there is no user, any
    number of rounds of the menu, whatever the operator types, however the
    run ends) the files hold a consistent object again. *)
Theorem script_keeps_the_files_restartable (w : Py.World unit) (rounds : nat) :
  (forall f, Py.disk w f = []) \/ restartable (Py.disk w) ->
  restartable (Py.disk (main rounds w).2).
Proof.
  intros Hw.
  assert (Hr : restartable (Py.disk w)).
  { destruct Hw as [Hempty|Hr]; [|done]. eexists. split; [apply empty_consistent|].
    repeat split; unfold holds; cbn; by rewrite Hempty. }
  destruct Hr as (s & Hs & Hd).
  pose proof (safe_bind create_default_admin (fun _ => main_menu rounds)
                create_default_admin_safe (fun _ => main_menu_safe rounds)) as Hsafe.
  unfold main.
  set (m := Py.bind create_default_admin (fun _ => main_menu rounds)) in *.
  unfold Py.bind. rewrite (init_reads w s Hd) by (by destruct Hs).
  unfold Py.call.
  specialize (Hsafe (Py.MkWorld (set_current_user None s) (Py.disk w) (Py.stdin w)
                                (Py.stdout w) (Py.clock w) (Py.ticks w))).
  destruct (m _) as [r w']. cbn in *.
  assert (Hstart : steady (Py.MkWorld (set_current_user None s) (Py.disk w)
                             (Py.stdin w) (Py.stdout w) (Py.clock w) (Py.ticks w))).
  { split; [by apply consistent_logged_out|done]. }
  destruct r; [by apply steady_restartable, Hsafe|by apply Hsafe].
Qed.

Lemma written_restartable : restartable Example.written.
Proof.
  exists (Example.system None). split.
  - exact (consistent_logged_out _ example_consistent).
  - exact (installed_mirrored None []).
Qed.

(** A first run on empty files, and a run on the files an earlier run
    wrote. *)
Lemma script_keeps_the_files_restartable_witness :
  restartable (Py.disk (main 9 (Py.MkWorld tt (fun _ => [])
                                  ["1"; "admin"; "admin123"; "0"] []
                                  Example.clock 0)).2)
  /\ restartable (Py.disk (main 9 (Py.MkWorld tt Example.written
                                     ["1"; "sam"; "staff1"; "6"; "0"] []
                                     Example.clock 0)).2).
Proof.
  split.
  - exact (script_keeps_the_files_restartable
             (Py.MkWorld tt (fun _ => []) ["1"; "admin"; "admin123"; "0"] []
                         Example.clock 0) 9 (or_introl (fun _ => eq_refl))).
  - exact (script_keeps_the_files_restartable
             (Py.MkWorld tt Example.written ["1"; "sam"; "staff1"; "6"; "0"] []
                         Example.clock 0) 9 (or_intror written_restartable)).
Defined.

(** X27: on a new installation the script creates the default admin, who
    can then log in.  When there is no user, the block at the start of the
    script puts the user "admin" with the role admin and the digest of
    "admin123" under the key "admin", writes the users file and logs
    nothing; in the world it leaves, [login] with "admin" and "admin123"
    returns [True].  When there is a user already, the block does
    nothing. *)
Theorem first_start_creates_the_admin (w : Py.World AdminSystem.t) :
  (users (Py.self w) = ∅ ->
   (create_default_admin w).1 = Py.Ok tt
   /\ users (Py.self (create_default_admin w).2) = {["admin" := default_admin]}
   /\ Py.disk (create_default_admin w).2
      = Py.write Py.USERS_FILE [to_dict default_admin] (Py.disk w)
   /\ set_users (users (Py.self w)) (Py.self (create_default_admin w).2) = Py.self w
   /\ forall rest,
        (login (Example.resume None ("admin" :: "admin123" :: rest)
                  (create_default_admin w).2)).1 = Py.Ok true)
  /\ (users (Py.self w) <> ∅ -> create_default_admin w = (Py.Ok tt, w)).
Proof.
  destruct w as [sy d i o c t]. cbn [Py.self Py.disk]. split; intros Hu.
  - isolate (create_default_admin (Py.MkWorld sy d i o c t)).
    unfold create_default_admin. run.
    rewrite (bool_decide_eq_true_2 _ Hu). exec. intros [= <- <-]. cbn.
    rewrite Hu, insert_empty.
    split; [done|]. split; [done|]. split.
    { unfold values. by rewrite map_to_list_singleton. }
    split; [destruct sy; cbn in *; by subst|].
    intros rest. unfold login, Example.resume. run. rewrite lookup_singleton_eq.
    cbv beta iota. unfold User.verify_password, default_admin.
    cbn [User.password_hash User.init User.is_active]. rewrite String.eqb_refl.
    by exec.
  - unfold create_default_admin. run. by rewrite (bool_decide_eq_false_2 _ Hu).
Qed.

Lemma first_start_creates_the_admin_witness :
  (login (Example.resume None ["admin"; "admin123"]
            (create_default_admin
               (Py.MkWorld {| current_user := None; users := ∅; departments := ∅;
                              employees := ∅; tasks := ∅; logs := [] |}
                           (fun _ => []) [] [] Example.clock 0)).2)).1
  = Py.Ok true.
Proof.
  exact (proj2 (proj2 (proj2 (proj2 (proj1
           (first_start_creates_the_admin
              (Py.MkWorld {| current_user := None; users := ∅; departments := ∅;
                             employees := ∅; tasks := ∅; logs := [] |}
                          (fun _ => []) [] [] Example.clock 0)) eq_refl)))) []).
Defined.
(** ** The loop ends *)

Section Consumes.
Context {Self : Type}.

Lemma consumes_ret {A} (a : A) : consumes (Py.ret (Self:=Self) a).
Proof. by intros w. Qed.

Lemma consumes_raise {A} e : consumes (Py.raise (Self:=Self) (A:=A) e).
Proof. by intros w. Qed.

Lemma consumes_bind {A B} (m : Py.M Self A) (k : A -> Py.M Self B) :
  consumes m -> (forall a, consumes (k a)) -> consumes (Py.bind m k).
Proof.
  intros Hm Hk w. specialize (Hm w). unfold Py.bind.
  destruct (m w) as [[a|e] w1]; cbn in *; [|done].
  specialize (Hk a w1). lia.
Qed.

Lemma consumes_get : consumes (Py.get (Self:=Self)).
Proof. by intros w. Qed.

Lemma consumes_put s : consumes (Py.put (Self:=Self) s).
Proof. by intros w. Qed.

Lemma consumes_emit p : consumes (Py.emit (Self:=Self) p).
Proof. by intros w. Qed.

Lemma consumes_now : consumes (Py.now (Self:=Self)).
Proof. by intros w. Qed.

Lemma consumes_dump f data : consumes (Py.dump (Self:=Self) f data).
Proof. by intros w. Qed.

Lemma consumes_try {A} e (o : option A) : consumes (Py.try (Self:=Self) e o).
Proof. destruct o; by intros w. Qed.

Lemma consumes_input prompt : consumes (Py.input (Self:=Self) prompt).
Proof.
  intros [s d i o c t]. unfold Py.input, Py.bind, Py.emit, Py.readline. cbn.
  destruct i; cbn; lia.
Qed.

Lemma reads_input prompt : reads (Py.input (Self:=Self) prompt).
Proof.
  intros [s d i o c t] a. unfold Py.input, Py.bind, Py.emit, Py.readline. cbn.
  destruct i; cbn; [done|lia].
Qed.

Lemma consumes_call {T A} (obj : T) (store : T -> Self -> Self) (m : Py.M T A) :
  consumes m -> consumes (Py.call obj store m).
Proof.
  intros Hm [s d i o c t]. unfold Py.call. cbn.
  specialize (Hm (Py.MkWorld obj d i o c t)). by destruct (m _).
Qed.

Lemma consumes_print_all rows : consumes (print_all (Self:=Self) rows).
Proof. intros w. by rewrite print_all_run. Qed.

Lemma consumes_print_lines lines : consumes (print_lines (Self:=Self) lines).
Proof. intros w. by rewrite print_lines_run. Qed.

Lemma reads_then {A B} (m : Py.M Self A) (k : A -> Py.M Self B) :
  reads m -> (forall a, consumes (k a)) -> reads (Py.bind m k).
Proof.
  intros Hm Hk w b. specialize (Hm w). unfold Py.bind.
  destruct (m w) as [[a|e] w1]; cbn in *; [|done].
  intros _. specialize (Hm a eq_refl). specialize (Hk a w1). lia.
Qed.

Lemma then_reads {A B} (m : Py.M Self A) (k : A -> Py.M Self B) :
  consumes m -> (forall a, reads (k a)) -> reads (Py.bind m k).
Proof.
  intros Hm Hk w b. specialize (Hm w). unfold Py.bind.
  destruct (m w) as [[a|e] w1]; cbn in *; [|done].
  intros Hb. specialize (Hk a w1 b Hb). lia.
Qed.

End Consumes.

Ltac consumes_step :=
  lazymatch goal with
  | |- consumes (if ?b then _ else _) => destruct b
  | |- consumes (match ?x with _ => _ end) => destruct x
  | |- consumes (Py.bind _ _) => apply consumes_bind; [|intros ?]
  | |- consumes (Py.ret _) => apply consumes_ret
  | |- consumes (Py.raise _) => apply consumes_raise
  | |- consumes (Py.print _) => apply consumes_emit
  | |- consumes (Py.emit _) => apply consumes_emit
  | |- consumes (Py.input _) => apply consumes_input
  | |- consumes (Py.getpass _) => apply consumes_input
  | |- consumes Py.get => apply consumes_get
  | |- consumes (Py.put _) => apply consumes_put
  | |- consumes Py.now => apply consumes_now
  | |- consumes (Py.dump _ _) => apply consumes_dump
  | |- consumes (Py.try _ _) => apply consumes_try
  | |- consumes (Py.call _ _ _) => apply consumes_call
  | |- consumes (modify _) => unfold modify
  | |- consumes (_save_data _ _) => unfold _save_data; cbv zeta
  | |- consumes (_log_activity _ _) => unfold _log_activity
  | |- consumes (on_task _ _) => unfold on_task
  | |- consumes (print_employees _) => unfold print_employees
  | |- consumes (Task.update_status _) => unfold Task.update_status
  | |- consumes (Task.add_comment _ _) => unfold Task.add_comment
  | |- consumes (print_all _) => apply consumes_print_all
  | |- consumes (print_lines _) => apply consumes_print_lines
  | |- consumes _ => solve [auto]
  end.

Ltac consumes_all := repeat consumes_step.

Lemma print_logs_consumes logs : consumes (print_logs logs).
Proof.
  induction logs as [|log logs IH]; cbn [print_logs]; [apply consumes_ret|].
  unfold log_row. consumes_all.
Qed.

Lemma operations_consume :
  consumes login /\ consumes logout /\ consumes change_password
  /\ consumes create_user /\ consumes list_users /\ consumes create_department
  /\ consumes list_departments /\ consumes add_employee
  /\ (forall a, consumes (list_employees a)) /\ consumes create_task
  /\ (forall a, consumes (list_tasks a)) /\ consumes update_task_status
  /\ consumes generate_department_report /\ consumes generate_employee_report
  /\ consumes view_activity_logs.
Proof.
  assert (Hd : consumes list_departments) by (unfold list_departments; consumes_all).
  assert (He : forall a, consumes (list_employees a))
    by (intros a; unfold list_employees; consumes_all).
  pose proof print_logs_consumes as Hl.
  repeat match goal with |- _ /\ _ => split end; try assumption.
  - unfold login. consumes_all.
  - unfold logout. consumes_all.
  - unfold change_password. consumes_all.
  - unfold create_user. consumes_all.
  - unfold list_users. consumes_all.
  - unfold create_department. consumes_all.
  - unfold add_employee. consumes_all.
  - unfold create_task. consumes_all.
  - intros a. unfold list_tasks. consumes_all.
  - unfold update_task_status. consumes_all.
  - unfold generate_department_report. consumes_all.
  - unfold generate_employee_report. consumes_all.
  - unfold view_activity_logs. consumes_all.
Qed.

Lemma main_menu_round_reads : reads main_menu_round.
Proof.
  destruct operations_consume
    as (? & ? & ? & ? & ? & ? & ? & ? & ? & ? & ? & ? & ? & ? & ?).
  unfold main_menu_round.
  apply then_reads; [apply consumes_emit|intros _].
  apply then_reads; [apply consumes_get|intros self].
  destruct (current self) as [user|].
  - repeat lazymatch goal with
           | |- reads (Py.bind (Py.input _) _) => fail
           | |- reads (Py.bind _ _) => apply then_reads; [consumes_all|intros ?]
           end.
    apply reads_then; [apply reads_input|intros choice].
    unfold user_management, department_management, employee_management,
      task_management, reports.
    consumes_all.
  - repeat lazymatch goal with
           | |- reads (Py.bind (Py.input _) _) => fail
           | |- reads (Py.bind _ _) => apply then_reads; [consumes_all|intros ?]
           end.
    apply reads_then; [apply reads_input|intros choice].
    consumes_all.
Qed.

(** X28: on a finite input the menu loop ends.  Every round that returns
    has read at least one line, and no operation puts a line back; so with
    more rounds allowed than there are lines to read, the rounds do not
    all return to the loop: [sys.exit] is called, or an exception ([EOFError]
    when the lines run out) ends the run. *)
Theorem main_menu_ends_on_finite_input (rounds : nat)
    (w : Py.World AdminSystem.t) :
  length (Py.stdin w) < rounds ->
  (main_menu rounds w).1 = Py.Ok Exit
  \/ exists e, (main_menu rounds w).1 = Py.Raise e.
Proof.
  revert w. induction rounds as [|rounds IH]; intros w Hlen; [lia|].
  cbn [main_menu]. unfold Py.bind.
  pose proof (main_menu_round_reads w) as Hread.
  destruct (main_menu_round w) as [[[]|e] w1]; cbn in *.
  - apply IH. specialize (Hread Continue eq_refl). lia.
  - by left.
  - right. by exists e.
Qed.

Lemma main_menu_ends_on_finite_input_witness :
  (main_menu 3 (Example.world (Some "sam") ["9"; "0"])).1 = Py.Ok Exit
  \/ exists e, (main_menu 3 (Example.world (Some "sam") ["9"; "0"])).1 = Py.Raise e.
Proof.
  apply (main_menu_ends_on_finite_input 3 (Example.world (Some "sam") ["9"; "0"])).
  cbn. lia.
Defined.
(** ** What the menu lets through *)

(** X29: the menu keeps the functions of the admin from everybody else.
    With nobody logged in, a round of the menu does nothing for a choice
    other than "1" (login) and "0" (exit), and exits for "0"; the object
    and the files stay as they were.  With a user logged in whose role is
    not admin, the choices "1" (user management) and "2" (department
    management) are answered "Permission denied", and the choice "8" (the
    activity logs) is ignored without a word; nothing is read beyond the
    choice and nothing changes.  So a manager cannot list the users from
    the menu, although [list_users] itself would let a manager. *)
Theorem menu_keeps_admin_functions (w : Py.World AdminSystem.t) choice rest :
  Py.stdin w = choice :: rest ->
  (current (Py.self w) = None ->
   (choice <> "1" -> choice <> "0" -> (main_menu_round w).1 = Py.Ok Continue)
   /\ (choice = "0" -> (main_menu_round w).1 = Py.Ok Exit)
   /\ (choice <> "1" ->
       unchanged w (main_menu_round w).2 /\ Py.stdin (main_menu_round w).2 = rest))
  /\ (forall user,
        current (Py.self w) = Some user -> User.role user <> "admin" ->
        (choice = "1" \/ choice = "2" ->
         (main_menu_round w).1 = Py.Ok Continue
         /\ unchanged w (main_menu_round w).2
         /\ Py.stdin (main_menu_round w).2 = rest
         /\ last (Py.stdout (main_menu_round w).2) = Some (Py.Line "Permission denied"))
        /\ (choice = "8" ->
            (main_menu_round w).1 = Py.Ok Continue
            /\ unchanged w (main_menu_round w).2
            /\ Py.stdin (main_menu_round w).2 = rest
            /\ last (Py.stdout (main_menu_round w).2)
               = Some (Py.Prompt "Enter choice: "))).
Proof.
  destruct w as [sy d i o c t]. cbn [Py.stdin Py.self]. intros ->. split.
  - intros Hc.
    isolate (main_menu_round (Py.MkWorld sy d (choice :: rest) o c t)).
    unfold main_menu_round. run. rewrite Hc. run.
    destruct (String.eqb_spec choice "1") as [->|H1].
    + intros _. split; [done|]. split; [done|]. done.
    + destruct (String.eqb_spec choice "0") as [->|H0]; run; intros [= <- <-].
      all: split; [done|]; split; done.
  - intros user Hc Hrole.
    assert (Hne : String.eqb (User.role user) "admin" = false).
    { by destruct (String.eqb_spec (User.role user) "admin"). }
    split.
    + intros Hchoice.
      isolate (main_menu_round (Py.MkWorld sy d (choice :: rest) o c t)).
      unfold main_menu_round, user_management, department_management.
      run. rewrite Hc. run. rewrite Hne. run.
      destruct Hchoice as [-> | ->]; run; rewrite ?Hne; run; intros [= <- <-].
      all: repeat split; by rewrite last_snoc.
    + intros ->.
      isolate (main_menu_round (Py.MkWorld sy d ("8" :: rest) o c t)).
      unfold main_menu_round. run. rewrite Hc. run. rewrite Hne. run.
      intros [= <- <-]. repeat split. by rewrite last_snoc.
Qed.

Lemma menu_keeps_admin_functions_witness :
  (main_menu_round (Example.world None ["5"])).1 = Py.Ok Continue
  /\ last (Py.stdout (main_menu_round (Example.world (Some "m1") ["1"; "2"])).2)
     = Some (Py.Line "Permission denied")
  /\ unchanged (Example.world (Some "m1") ["8"])
       (main_menu_round (Example.world (Some "m1") ["8"])).2.
Proof.
  pose proof (menu_keeps_admin_functions (Example.world None ["5"]) "5" [] eq_refl)
    as [Hout _].
  pose proof (menu_keeps_admin_functions (Example.world (Some "m1") ["1"; "2"])
                "1" ["2"] eq_refl) as [_ Hone].
  pose proof (menu_keeps_admin_functions (Example.world (Some "m1") ["8"])
                "8" [] eq_refl) as [_ Height].
  assert (Hrole : User.role Example.m1 <> "admin") by discriminate.
  assert (H5 : "5" <> "1") by discriminate.
  assert (H5' : "5" <> "0") by discriminate.
  split; [|split].
  - exact (proj1 (Hout eq_refl) H5 H5').
  - exact (proj2 (proj2 (proj2 (proj1 (Hone Example.m1 eq_refl Hrole)
                                  (or_introl eq_refl))))).
  - exact (proj1 (proj2 (proj2 (Height Example.m1 eq_refl Hrole) eq_refl))).
Defined.

(** X30: leaving through the menu logs the user out first.  With [user]
    logged in under [key], the choice "0" ends the round with [sys.exit]
    after [logout]: nobody is logged in, the log has one entry more, for
    the action "logout" under the user's name, the log file holds the log,
    and the last line printed is "Exiting system...". *)
Theorem menu_exit_logs_out (w : Py.World AdminSystem.t) key user rest :
  current_user (Py.self w) = Some key ->
  users (Py.self w) !! key = Some user ->
  Py.stdin w = "0" :: rest ->
  (main_menu_round w).1 = Py.Ok Exit
  /\ current_user (Py.self (main_menu_round w).2) = None
  /\ (exists stamp,
        logs (Py.self (main_menu_round w).2)
        = (logs (Py.self w)
           ++ [JObj [ ("timestamp", JStr stamp);
                      ("user", JStr (User.username user));
                      ("action", JStr "logout");
                      ("details",
                       JStr ("User " ++ User.username user ++ " logged out")) ]])%list)
  /\ Py.disk (main_menu_round w).2 Py.LOGS_FILE = logs (Py.self (main_menu_round w).2)
  /\ last (Py.stdout (main_menu_round w).2) = Some (Py.Line "Exiting system...").
Proof.
  destruct w as [sy d i o c t]. cbn [Py.stdin Py.self]. intros Hk Hu ->.
  assert (Hc : current sy = Some user) by (unfold current; by rewrite Hk).
  isolate (main_menu_round (Py.MkWorld sy d ("0" :: rest) o c t)).
  unfold main_menu_round. run. rewrite Hc. run.
  destruct (String.eqb (User.role user) "admin"); run.
  all: unfold logout; run; rewrite Hc; exec; rewrite ?Hc.
  all: intros [= <- <-]; cbn.
  all: split; [done|]; split; [done|]; split; [by eexists|].
  all: split; [done|]; by rewrite last_snoc.
Qed.

Lemma menu_exit_logs_out_witness :
  (main_menu_round (Example.world (Some "sam") ["0"])).1 = Py.Ok Exit
  /\ current_user (Py.self (main_menu_round (Example.world (Some "sam") ["0"])).2)
     = None.
Proof.
  pose proof (menu_exit_logs_out (Example.world (Some "sam") ["0"]) "sam"
                Example.sam [] eq_refl eq_refl eq_refl) as (Hexit & Hnone & _).
  exact (conj Hexit Hnone).
Defined.
